(** * gltf2usdz conversion gateway: model of the three server revisions

    The repository holds three revisions of one Bun HTTP server:
    - [Local]   the local-disk variant (multipart upload, port 4000);
    - [Legacy]  server/index.ts, the first cloud-storage revision;
    - [Cloud]   the cloud-storage revision with CORS, method validation
                and clean-up of the per-request directory.

    Everything the handlers do to the outside world (file system,
    subprocess, object storage, logger) is an explicit effect on a
    [State]; everything the outside world decides (the request id, the
    clock, whether a system call fails, what the converter writes) is read
    from an [Oracle]. *)

From stdpp Require Import base gmap sets strings list.
From Stdlib Require Import ZArith Ascii String Lia.

Local Open Scope Z_scope.

(** ** JavaScript strings *)

Module Js.

(** [s.startsWith(p)] *)
Definition startsWith (s p : string) : bool := String.prefix p s.

(** [s.endsWith(p)] *)
Definition endsWith (s p : string) : bool :=
  let ls := String.length s in
  let lp := String.length p in
  if (lp <=? ls)%nat then String.eqb (String.substring (ls - lp) lp s) p
  else false.

(** [s.replace(pat, rep)] with a string pattern: only the first occurrence
    of [pat] is replaced (an empty pattern matches at position 0). The
    replacement used by the servers, [".usdz"], holds no [$] pattern. *)
Fixpoint replace (s pat rep : string) : string :=
  if String.prefix pat s then
    rep +:+ String.substring (String.length pat) (String.length s - String.length pat) s
  else match s with
       | EmptyString => EmptyString
       | String c s' => String c (replace s' pat rep)
       end.

(** [s.slice(a, b)]: negative positions count from the end, positions are
    clamped to the string, and an empty range gives the empty string. *)
Definition slice (s : string) (a b : Z) : string :=
  let len := Z.of_nat (String.length s) in
  let from := if a <? 0 then Z.max (len + a) 0 else Z.min a len in
  let to := if b <? 0 then Z.max (len + b) 0 else Z.min b len in
  String.substring (Z.to_nat from) (Z.to_nat (to - from)) s.

(** [x || d] on an optional string: [undefined] and [""] are falsy. *)
Definition or_default (x : option string) (d : string) : string :=
  match x with
  | Some (String c s) => String c s
  | _ => d
  end.

(** [if (x)] on [string | null | undefined]. *)
Definition nonempty (x : option string) : bool :=
  match x with
  | Some (String _ _) => true
  | _ => false
  end.

Definition lower (c : ascii) : ascii :=
  let n := nat_of_ascii c in
  if ((65 <=? n) && (n <=? 90))%nat then ascii_of_nat (n + 32) else c.

(** [s.toLowerCase()] on ASCII text. *)
Fixpoint toLowerCase (s : string) : string :=
  match s with
  | EmptyString => EmptyString
  | String c s' => String (lower c) (toLowerCase s')
  end.

End Js.

(** ** [path.parse] (POSIX flavour, as Bun and Node run it on Linux) *)

Module Path.

Record Parsed := {
  root : string;
  dir : string;
  base : string;
  ext : string;
  name : string;
}.

(** The loop variables of [parse]; [-1] means "not seen yet", as in the
    library. *)
Record Scan := {
  startDot : Z;
  startPart : Z;
  end_ : Z;
  matchedSlash : bool;
  preDotState : Z;
}.

Definition scan0 : Scan :=
  {| startDot := -1; startPart := 0; end_ := -1;
     matchedSlash := true; preDotState := 0 |}.

Definition CHAR_FORWARD_SLASH : ascii := "/"%char.
Definition CHAR_DOT : ascii := "."%char.

(** One pass of the loop body for a character that is not a separator. *)
Definition see (code : ascii) (i : Z) (s : Scan) : Scan :=
  let s1 :=
    if end_ s =? -1 then
      {| startDot := startDot s; startPart := startPart s; end_ := i + 1;
         matchedSlash := false; preDotState := preDotState s |}
    else s in
  if Ascii.eqb code CHAR_DOT then
    if startDot s1 =? -1 then
      {| startDot := i; startPart := startPart s1; end_ := end_ s1;
         matchedSlash := matchedSlash s1; preDotState := preDotState s1 |}
    else if negb (preDotState s1 =? 1) then
      {| startDot := startDot s1; startPart := startPart s1; end_ := end_ s1;
         matchedSlash := matchedSlash s1; preDotState := 1 |}
    else s1
  else if negb (startDot s1 =? -1) then
    {| startDot := startDot s1; startPart := startPart s1; end_ := end_ s1;
       matchedSlash := matchedSlash s1; preDotState := -1 |}
  else s1.

(** [for (; i >= start; --i)], entered with [i = n - 1]. *)
Fixpoint scan (path : string) (start : nat) (n : nat) (s : Scan) : Scan :=
  match n with
  | O => s
  | S i =>
    if (i <? start)%nat then s
    else match String.get i path with
         | None => s
         | Some code =>
           if Ascii.eqb code CHAR_FORWARD_SLASH then
             if negb (matchedSlash s) then
               {| startDot := startDot s; startPart := Z.of_nat i + 1;
                  end_ := end_ s; matchedSlash := matchedSlash s;
                  preDotState := preDotState s |}
             else scan path start i s
           else scan path start i (see code (Z.of_nat i) s)
         end
  end.

Definition parse (path : string) : Parsed :=
  match path with
  | EmptyString => {| root := ""; dir := ""; base := ""; ext := ""; name := "" |}
  | String c0 _ =>
    let isAbsolute := Ascii.eqb c0 CHAR_FORWARD_SLASH in
    let root_ := if isAbsolute then "/" else "" in
    let start := if isAbsolute then 1%nat else 0%nat in
    let s := scan path start (String.length path) scan0 in
    let dir_ :=
      if 0 <? startPart s then Js.slice path 0 (startPart s - 1)
      else if isAbsolute then "/" else "" in
    if negb (end_ s =? -1) then
      let start' := if (startPart s =? 0) && isAbsolute then 1 else startPart s in
      if (startDot s =? -1) || (preDotState s =? 0) ||
         ((preDotState s =? 1) && (startDot s =? end_ s - 1)
            && (startDot s =? startPart s + 1)) then
        let b := Js.slice path start' (end_ s) in
        {| root := root_; dir := dir_; base := b; ext := ""; name := b |}
      else
        {| root := root_; dir := dir_;
           base := Js.slice path start' (end_ s);
           ext := Js.slice path (startDot s) (end_ s);
           name := Js.slice path start' (startDot s) |}
    else {| root := root_; dir := dir_; base := ""; ext := ""; name := "" |}
  end.

End Path.

(** ** JavaScript values and errors *)

(** The values the handlers test with [!], [typeof] and [instanceof]:
    what [formdata.get] returns ([null], a string or a [File]) and the
    [Promise] returned by the asynchronous [BunFile.exists()]. *)
Inductive Value :=
| VUndefined
| VNull
| VBool (b : bool)
| VString (s : string)
| VFile (fileName : string)
| VPromise (settled : Value).

(** ToBoolean: every object, a pending or settled promise included, is
    truthy. *)
Definition truthy (v : Value) : bool :=
  match v with
  | VUndefined | VNull => false
  | VBool b => b
  | VString s => negb (String.eqb s "")
  | VFile _ | VPromise _ => true
  end.

Definition typeof (v : Value) : string :=
  match v with
  | VUndefined => "undefined"
  | VBool _ => "boolean"
  | VString _ => "string"
  | VNull | VFile _ | VPromise _ => "object"
  end.

Definition instanceof_File (v : Value) : bool :=
  match v with VFile _ => true | _ => false end.

(** [await v] *)
Definition await (v : Value) : Value :=
  match v with VPromise r => r | _ => v end.

Record Error := { ename : string; emessage : string }.

(** [new Error(msg)] *)
Definition mkError (msg : string) : Error := {| ename := "Error"; emessage := msg |}.

(** [String(err)], that is [Error.prototype.toString]. *)
Definition String_ (e : Error) : string :=
  if String.eqb (ename e) "" then emessage e
  else if String.eqb (emessage e) "" then ename e
  else ename e +:+ ": " +:+ emessage e.

(** ** The outside world *)

Inductive Event :=
| Log (level msg : string)
| Mkdir (path : string)
| Rm (path : string)
| Write (path : string)
| Spawn (argv : list string)
| GcsDownload (bucket object dest : string)
| GcsUpload (bucket localPath dest : string)
| GcsSign (bucket object action : string) (expires : Z).

(** The paths present on the local disk, the effects performed so far (most
    recent first), and the one mutable local of a handler that outlives
    its [try] block: [let dir: string | null] of the cloud revision. *)
Record State := {
  fs : gset string;
  trace : list Event;
  var_dir : option string;
}.

Record SpawnSyncResult := {
  stderr : string;
  (** whether the binary wrote the file named by its last argument *)
  wroteOutput : bool;
}.

(** What the environment decides for one request. [None] is success. *)
Record Oracle := {
  randomUUID : string;
  Date_now : Z;
  mkdir_fails : string -> option Error;
  rm_fails : string -> option Error;
  (** what [rm] of the first path leaves on disk: [true] for a path of
      that tree that is still there afterwards *)
  rm_leaves : string -> string -> bool;
  write_fails : string -> option Error;
  spawn_result : list string -> Error + SpawnSyncResult;
  download_fails : string -> string -> option Error;
  upload_fails : string -> string -> string -> option Error;
  sign_result : string -> string -> Z -> Error + string;
}.

(** ** Paths on disk *)

Module Fs.

(** The path itself and every directory above it, as [mkdir -p] creates
    them. *)
Fixpoint chain (acc s : string) : list string :=
  match s with
  | EmptyString => [acc]
  | String c s' =>
    let rest := chain (acc +:+ String c EmptyString) s' in
    if Ascii.eqb c "/" && negb (String.eqb acc "") then acc :: rest else rest
  end.

Definition with_parents (p : string) : gset string := list_to_set (chain "" p).

(** [p] is [d] or lies below it, as the two are spelt: a path that leaves
    [d] again through [..] counts as below it, whatever it resolves to. *)
Definition under (d p : string) : bool :=
  String.eqb p d || Js.startsWith p (d +:+ "/").

(** The disk is the set of the paths that are there, as they are spelt: it
    does not tell a directory from a file and resolves neither [.] nor
    [..]. What is stated below of a look at the disk is stated for the
    paths the handlers write themselves, or as an alternative the file
    system decides. *)
Definition exists_ (files : gset string) (p : string) : bool := bool_decide (p ∈ files).

Definition remove_tree (d : string) (files : gset string) : gset string :=
  filter (λ p, under d p = false) files.

(** What a removal of the tree at [d] leaves of [files] when it spares the
    paths [keep] holds of. *)
Definition remove_but (keep : string → bool) (d : string) (files : gset string)
    : gset string :=
  filter (λ p, under d p = false ∨ keep p = true) files.

(** What stands before the last separator of [p]: the directory in which
    [open] looks for the file. *)
Fixpoint dirname (p : string) : option string :=
  match p with
  | EmptyString => None
  | String c p' =>
    match dirname p' with
    | Some d => Some (String c d)
    | None => if Ascii.eqb c "/" then Some EmptyString else None
    end
  end.

(** Whether a file can be created at [p]: its directory is there. A path
    without separator lies in the working directory, one directly below
    the root in the root. *)
Definition parent_exists (files : gset string) (p : string) : bool :=
  match dirname p with
  | None | Some EmptyString => true
  | Some d => bool_decide (d ∈ files)
  end.

End Fs.

(** ** The effect monad: state, and an exception that may be thrown *)

Inductive Outcome (A : Type) :=
| Ret (a : A)
| Throw (e : Error).
Arguments Ret {A} a.
Arguments Throw {A} e.

Definition M (A : Type) : Type := State -> Outcome A * State.

Definition ret {A} (a : A) : M A := λ st, (Ret a, st).

Definition bind {A B} (m : M A) (k : A -> M B) : M B :=
  λ st, match m st with
        | (Ret a, st') => k a st'
        | (Throw e, st') => (Throw e, st')
        end.

Definition throw {A} (e : Error) : M A := λ st, (Throw e, st).

(** [try { m } catch (e) { h e }] *)
Definition try_catch {A} (m : M A) (h : Error -> M A) : M A :=
  λ st, match m st with
        | (Ret a, st') => (Ret a, st')
        | (Throw e, st') => h e st'
        end.

(** [try { m } finally { f }]: [f] runs on both exits, and the outcome of
    [m] stands unless [f] itself throws. *)
Definition try_finally {A} (m : M A) (f : M unit) : M A :=
  λ st, match m st with
        | (o, st') =>
          match f st' with
          | (Ret _, st'') => (o, st'')
          | (Throw e, st'') => (Throw e, st'')
          end
        end.

#[global] Instance M_ret : MRet M := @ret.
#[global] Instance M_bind : MBind M := λ A B k m, bind m k.

Definition emit (e : Event) : M unit :=
  λ st, (Ret tt, {| fs := fs st; trace := e :: trace st; var_dir := var_dir st |}).

Definition set_fs (files : gset string) : M unit :=
  λ st, (Ret tt, {| fs := files; trace := trace st; var_dir := var_dir st |}).

Definition get_fs : M (gset string) := λ st, (Ret (fs st), st).

Definition set_dir (d : option string) : M unit :=
  λ st, (Ret tt, {| fs := fs st; trace := trace st; var_dir := d |}).

Definition get_dir : M (option string) := λ st, (Ret (var_dir st), st).

Definition fail_if (o : option Error) : M unit :=
  match o with
  | None => ret tt
  | Some e => throw e
  end.

(** ** Runtime services *)

Section Runtime.
Variable ora : Oracle.

Definition logger (level msg : string) : M unit := emit (Log level msg).

(** [mkdir(path, { recursive: true })] *)
Definition mkdir (path : string) : M unit :=
  emit (Mkdir path);;
  fail_if (mkdir_fails ora path);;
  files ← get_fs;
  set_fs (Fs.with_parents path ∪ files).

(** [rm(path, { recursive: true, force: true })]. The promise may reject;
    and it may resolve although the tree is not gone: Bun 1.0.32, which
    the Dockerfile installs, resolves and leaves the directory. What is
    left of the tree and whether the promise rejects are both read from
    the oracle. *)
Definition rm (path : string) : M unit :=
  emit (Rm path);;
  files ← get_fs;
  set_fs (Fs.remove_but (rm_leaves ora path) path files);;
  fail_if (rm_fails ora path).

(** [Bun.write(path, file)]: missing parent directories are created. *)
Definition Bun_write (path : string) : M unit :=
  emit (Write path);;
  fail_if (write_fails ora path);;
  files ← get_fs;
  set_fs (Fs.with_parents path ∪ files).

(** [Bun.spawnSync(argv)]: blocks until the child exits, then hands back
    what it wrote to standard error. *)
Definition Bun_spawnSync (argv : list string) : M string :=
  emit (Spawn argv);;
  match spawn_result ora argv with
  | inl e => throw e
  | inr r =>
    files ← get_fs;
    (if wroteOutput r
     then match last argv with
          | Some out => set_fs ({[ out ]} ∪ files)
          | None => ret tt
          end
     else ret tt);;
    ret (stderr r)
  end.

(** [Bun.file(path).exists()]: asynchronous, so the call itself yields a
    promise; only [await] gives the boolean. *)
Definition BunFile_exists (path : string) : M Value :=
  files ← get_fs;
  ret (VPromise (VBool (Fs.exists_ files path))).

End Runtime.

(** ** Requests and responses *)

Record Request := {
  method : string;
  pathname : string;
  searchParams : list (string * string);
  (** header names as the [Headers] object keeps them, in lower case *)
  headers : list (string * string);
  (** what [await req.formData()] gives: the parsed fields, or the error
      it rejects with *)
  formData : Error + list (string * Value);
}.

Inductive Body :=
| NoBody
| Text (s : string)
| Json (fields : list (string * string))
| FileBody (path : string)
(** the page the server makes up when it cannot send what the handler
    returned *)
| ErrorPage.

(** Only the headers given in the [init] argument are kept. *)
Record Response := {
  status : Z;
  resHeaders : list (string * string);
  body : Body;
}.

(** [Response.json(data, { status, headers })] *)
Definition Response_json (data : list (string * string)) (st : Z)
    (hs : list (string * string)) : Response :=
  {| status := st; resHeaders := hs; body := Json data |}.

Fixpoint assoc {A} (k : string) (l : list (string * A)) : option A :=
  match l with
  | [] => None
  | (k', v) :: l' => if String.eqb k k' then Some v else assoc k l'
  end.

(** [!!x] on an object reference that may be [null]. *)
Definition is_some {A} (x : option A) : bool :=
  match x with
  | Some _ => true
  | None => false
  end.

(** [formdata.get(k)]: the first value of that name, or [null]. *)
Definition FormData_get (fd : list (string * Value)) (k : string) : Value :=
  match assoc k fd with
  | Some v => v
  | None => VNull
  end.

Definition req_formData (req : Request) : M (list (string * Value)) :=
  match formData req with
  | inl e => throw e
  | inr fd => ret fd
  end.

(** [`${x}`] for a header or search parameter that may be missing. *)
Definition show (x : option string) : string :=
  match x with
  | Some s => s
  | None => "null"
  end.

(** [new Response(Bun.file(path))] returned without a look at the disk:
    the server opens the file when it sends the response, and answers 500
    itself when there is no such file. *)
Definition Response_file (path : string) : M Response :=
  files ← get_fs;
  if Fs.exists_ files path
  then ret {| status := 200; resHeaders := []; body := FileBody path |}
  else ret {| status := 500; resHeaders := []; body := ErrorPage |}.

(** The field of a [Json] body, if the body is one. *)
Definition json_field (k : string) (r : Response) : option string :=
  match body r with
  | Json fields => assoc k fields
  | _ => None
  end.

(** ** Configuration read at start-up *)

Inductive Storage := StorageClient.

Record ProcessEnv := {
  env_FILES_FOLDER : option string;
  env_LOGS_FOLDER : option string;
  env_ALLOWED_ORIGIN : option string;
  env_GCS_BUCKET : option string;
}.

Record Config := {
  FILES_FOLDER : string;
  LOGS_FOLDER : string;
  ALLOWED_ORIGIN : string;
  GCS_BUCKET : option string;
  storage : option Storage;
}.

(** The module-level initialisation of the cloud revisions.
    [ctor_throws] says whether [new Storage()] threw. *)
Definition configure (env : ProcessEnv) (ctor_throws : bool) : Config :=
  {| FILES_FOLDER := Js.or_default (env_FILES_FOLDER env) "/tmp/gltf2usdz/files";
     LOGS_FOLDER := Js.or_default (env_LOGS_FOLDER env) "/tmp/gltf2usdz/logs";
     ALLOWED_ORIGIN := Js.or_default (env_ALLOWED_ORIGIN env) "*";
     GCS_BUCKET := env_GCS_BUCKET env;
     storage :=
       if Js.nonempty (env_GCS_BUCKET env)
       then (if ctor_throws then None else Some StorageClient)
       else None |}.

(** ** Converter invocation (the same function in all three revisions) *)

Section Converter.
Variable ora : Oracle.

Definition convertFile (filepath : string) : M string :=
  let parsed := Path.parse filepath in
  let output := Js.replace filepath (Path.ext parsed) ".usdz" in
  stderrString ← Bun_spawnSync ora ["usd_from_gltf"; filepath; output];
  (if truthy (VString stderrString) then logger "warn" stderrString else ret tt);;
  outputFile_exists ← BunFile_exists output;
  (if negb (truthy outputFile_exists)
   then throw (mkError "Failed to create USDZ file")
   else ret tt);;
  logger "info" "File converted successfully";;
  ret (Path.name parsed +:+ ".usdz").

End Converter.

(** ** Storage bridge (the same three functions in both cloud revisions) *)

Section StorageBridge.
Variable cfg : Config.
Variable ora : Oracle.

Definition not_initialized : Error := mkError "GCS client not initialized".

(** [createWriteStream(destPath)] creates the file but none of the
    directories above it: where the directory of [destPath] is missing the
    stream fails with [ENOENT] and the download comes to nothing.
    Otherwise the promise settles with the read stream: [error] rejects,
    [end] resolves, and the bytes are at [destPath]. *)
Definition downloadFromGCS (bucketName objectName destPath : string) : M unit :=
  match storage cfg with
  | None => throw not_initialized
  | Some _ =>
    emit (GcsDownload bucketName objectName destPath);;
    files ← get_fs;
    (if Fs.parent_exists files destPath then ret tt
     else throw (mkError ("ENOENT: no such file or directory, open '"
                            +:+ destPath +:+ "'")));;
    fail_if (download_fails ora bucketName objectName);;
    set_fs ({[ destPath ]} ∪ files)
  end.

(** [bucket.upload] reads [localPath], so it rejects when no such file
    exists. *)
Definition uploadToGCS (bucketName localPath destObjectName : string) : M unit :=
  match storage cfg with
  | None => throw not_initialized
  | Some _ =>
    emit (GcsUpload bucketName localPath destObjectName);;
    files ← get_fs;
    (if Fs.exists_ files localPath then ret tt
     else throw (mkError ("ENOENT: no such file or directory, open '" +:+ localPath +:+ "'")));;
    fail_if (upload_fails ora bucketName localPath destObjectName)
  end.

Definition getSignedUrl (bucketName objectName : string) : M string :=
  match storage cfg with
  | None => throw not_initialized
  | Some _ =>
    let expires := Date_now ora + 60 * 60 * 1000 in
    emit (GcsSign bucketName objectName "read" expires);;
    match sign_result ora bucketName objectName expires with
    | inl e => throw e
    | inr url => ret url
    end
  end.

End StorageBridge.

(** ** The local-disk variant *)

Module Local.

Definition FILES_FOLDER : string := "/usr/app/gltf2usdz/files".
Definition FRONTEND_FOLDER : string := "../client/dist".

Section Handler.
Variable ora : Oracle.

(** [file.name] where [file] is what [formdata.get("file")] gave: a
    [TypeError] on [null], [undefined] on a string. *)
Definition file_name (file : Value) : M (option string) :=
  match file with
  | VNull => throw {| ename := "TypeError";
                      emessage := "null is not an object (evaluating 'file.name')" |}
  | VUndefined => throw {| ename := "TypeError";
                           emessage := "undefined is not an object (evaluating 'file.name')" |}
  | VFile n => ret (Some n)
  | _ => ret None
  end.

(** [file.name] once [file instanceof File] holds. *)
Definition File_name (file : Value) : string :=
  match file with
  | VFile n => n
  | _ => ""
  end.

Definition convert (req : Request) : M Response :=
  try_catch
    (formdata ← req_formData req;
     let file := FormData_get formdata "file" in
     n ← file_name file;
     logger "info" ("Converting file " +:+ default "undefined" n +:+ "...");;
     if negb (truthy file)
        || negb (instanceof_File file)
        || negb (Js.endsWith (File_name file) ".gltf" || Js.endsWith (File_name file) ".glb")
     then throw (mkError "You must upload a glb/gltf file.")
     else
       let id := randomUUID ora in
       let filename := FILES_FOLDER +:+ "/" +:+ id +:+ "/" +:+ File_name file in
       Bun_write ora filename;;
       name ← convertFile ora filename;
       ret (Response_json [("id", id); ("name", name)] 200 []))
    (λ error,
       logger "error" (emessage error);;
       ret (Response_json [("message", String_ error)] 500 [])).

Definition download (req : Request) : M Response :=
  try_catch
    (if negb (is_some (assoc "id" (searchParams req)))
        || negb (is_some (assoc "name" (searchParams req)))
     then ret {| status := 400; resHeaders := []; body := Text "Bad request" |}
     else
       let file := FILES_FOLDER +:+ "/" +:+ show (assoc "id" (searchParams req))
                     +:+ "/" +:+ show (assoc "name" (searchParams req)) in
       e ← BunFile_exists file;
       if negb (truthy (await e)) then throw (mkError "")
       else ret {| status := 200; resHeaders := []; body := FileBody file |})
    (λ error,
       let message := "Failed to download the file." in
       logger "error" message;;
       ret (Response_json [("message", message)] 500 [])).

Definition static (req : Request) : M Response :=
  try_catch
    (let file := FRONTEND_FOLDER +:+ pathname req in
     e ← BunFile_exists file;
     if negb (truthy (await e)) then throw (mkError "")
     else ret {| status := 200; resHeaders := []; body := FileBody file |})
    (λ error, ret {| status := 404; resHeaders := []; body := Text "Not Found" |}).

Definition fetch (req : Request) : M Response :=
  if String.eqb (pathname req) "/api/convert" then convert req
  else if String.eqb (pathname req) "/api/download" then download req
  else if String.eqb (pathname req) "/" then
    Response_file (FRONTEND_FOLDER +:+ "/index.html")
  else static req.

End Handler.
End Local.

(** ** The first cloud revision, server/index.ts *)

Module Legacy.
Section Handler.
Variable cfg : Config.
Variable ora : Oracle.

(** [filenameField] once [typeof filenameField === "string"] holds. *)
Definition as_string (v : Value) : string :=
  match v with
  | VString s => s
  | _ => ""
  end.

Definition convert (req : Request) : M Response :=
  try_catch
    (formdata ← req_formData req;
     let filenameField := FormData_get formdata "filename" in
     if negb (truthy filenameField) || negb (String.eqb (typeof filenameField) "string")
     then ret (Response_json
                 [("message", "You must provide a 'filename' form field pointing to the object in GCS")]
                 400 [])
     else if negb (is_some (storage cfg)) || negb (Js.nonempty (GCS_BUCKET cfg))
     then ret (Response_json [("message", "GCS is not configured on this server")] 500 [])
     else
       let bucket := default "" (GCS_BUCKET cfg) in
       let originalName :=
         if Js.startsWith (as_string filenameField) "models/"
         then as_string filenameField
         else "models/" +:+ as_string filenameField in
       let id := randomUUID ora in
       let dir := FILES_FOLDER cfg +:+ "/" +:+ id in
       mkdir ora dir;;
       let destPath := dir +:+ "/" +:+ originalName in
       logger "info" ("Downloading " +:+ originalName +:+ " from GCS bucket " +:+ bucket
                        +:+ " to " +:+ destPath);;
       downloadFromGCS cfg ora bucket originalName destPath;;
       logger "info" ("Converting file " +:+ originalName +:+ "...");;
       let inputPath := destPath in
       name ← convertFile ora inputPath;
       let outputPath := dir +:+ "/" +:+ name in
       let destObjectName := "models/" +:+ id +:+ "/" +:+ name in
       logger "info" ("Uploading converted file " +:+ outputPath +:+ " to GCS bucket "
                        +:+ bucket +:+ " as " +:+ destObjectName);;
       uploadToGCS cfg ora bucket outputPath destObjectName;;
       uploadedUrl ← getSignedUrl cfg ora bucket destObjectName;
       ret (Response_json [("id", id); ("name", name); ("uploadedUrl", uploadedUrl)] 200 []))
    (λ err,
       logger "error" (String_ err);;
       ret (Response_json [("message", String_ err)] 500 [])).

Definition fetch (req : Request) : M Response :=
  if String.eqb (pathname req) "/healthz" then
    ret {| status := 200; resHeaders := []; body := Text "ok" |}
  else if String.eqb (pathname req) "/api/convert" then convert req
  else ret {| status := 404; resHeaders := []; body := Text "Not Found" |}.

End Handler.
End Legacy.

(** ** The cloud revision with CORS, method validation and clean-up *)

Module Cloud.
Section Handler.
Variable cfg : Config.
Variable ora : Oracle.

Definition CORS_HEADERS : list (string * string) :=
  [ ("Access-Control-Allow-Origin", ALLOWED_ORIGIN cfg);
    ("Access-Control-Allow-Methods", "POST, OPTIONS");
    ("Access-Control-Allow-Headers", "Content-Type, Accept");
    ("Access-Control-Max-Age", "600") ].

Fixpoint log_headers (hs : list (string * string)) : M unit :=
  match hs with
  | [] => ret tt
  | (k, v) :: hs' =>
    (if String.eqb (Js.toLowerCase k) "authorization" then ret tt
     else logger "debug" ("  hdr: " +:+ k +:+ ": " +:+ v));;
    log_headers hs'
  end.

(** The diagnostic block at the head of [fetch]; whatever it throws is
    dropped. *)
Definition log_request (req : Request) : M unit :=
  try_catch
    (logger "info" ("[req] " +:+ method req +:+ " " +:+ pathname req);;
     logger "info" ("  content-type: " +:+ show (assoc "content-type" (headers req)));;
     logger "info" ("  content-length: " +:+ show (assoc "content-length" (headers req)));;
     log_headers (headers req))
    (λ e, ret tt).

Definition convert_body (req : Request) : M Response :=
  if negb (String.eqb (method req) "POST")
  then ret (Response_json [("message", "Method not allowed")] 405 CORS_HEADERS)
  else
    formdata ← req_formData req;
    let filenameField := FormData_get formdata "filename" in
    if negb (truthy filenameField) || negb (String.eqb (typeof filenameField) "string")
    then ret (Response_json
                [("message", "You must provide a 'filename' form field pointing to the object in GCS")]
                400 CORS_HEADERS)
    else if negb (is_some (storage cfg)) || negb (Js.nonempty (GCS_BUCKET cfg))
    then ret (Response_json [("message", "GCS is not configured on this server")]
                500 CORS_HEADERS)
    else
      let bucket := default "" (GCS_BUCKET cfg) in
      let originalName :=
        if Js.startsWith (Legacy.as_string filenameField) "models/"
        then Legacy.as_string filenameField
        else "models/" +:+ Legacy.as_string filenameField in
      let id := randomUUID ora in
      let dir := FILES_FOLDER cfg +:+ "/" +:+ id in
      set_dir (Some dir);;
      mkdir ora dir;;
      let parsed := Path.parse originalName in
      let objectDir := Js.or_default (Some (Path.dir parsed)) "" in
      let objectBase := Path.base parsed in
      let objectNameNoExt := Path.name parsed in
      let localObjectDir := dir +:+ "/" +:+ objectDir in
      mkdir ora localObjectDir;;
      let destPath := localObjectDir +:+ "/" +:+ objectBase in
      logger "info" ("Downloading " +:+ originalName +:+ " from GCS bucket " +:+ bucket
                       +:+ " to " +:+ destPath);;
      downloadFromGCS cfg ora bucket originalName destPath;;
      logger "info" ("Converting file " +:+ originalName +:+ "...");;
      let inputPath := destPath in
      let convertedName := objectNameNoExt +:+ ".usdz" in
      name ← convertFile ora inputPath;
      let outputPath := localObjectDir +:+ "/" +:+ convertedName in
      let destObjectName := objectDir +:+ "/" +:+ convertedName in
      logger "info" ("Uploading converted file " +:+ outputPath +:+ " to GCS bucket "
                       +:+ bucket +:+ " as " +:+ destObjectName);;
      uploadToGCS cfg ora bucket outputPath destObjectName;;
      uploadedUrl ← getSignedUrl cfg ora bucket destObjectName;
      ret (Response_json
             [("id", id); ("name", name); ("uploadedUrl", uploadedUrl);
              ("objectPath", destObjectName)]
             200 CORS_HEADERS).

(** The [finally] block. *)
Definition cleanup : M unit :=
  d ← get_dir;
  if Js.nonempty d then
    let dir := default "" d in
    try_catch
      (rm ora dir;;
       logger "info" ("Cleaned up temporary directory " +:+ dir))
      (λ cleanupErr,
         logger "warn" ("Failed to remove temp directory " +:+ dir +:+ ": "
                          +:+ String_ cleanupErr))
  else ret tt.

Definition convert (req : Request) : M Response :=
  set_dir None;;
  try_finally
    (try_catch
       (convert_body req)
       (λ err,
          logger "error" (String_ err);;
          ret (Response_json [("message", String_ err)] 500 CORS_HEADERS)))
    cleanup.

Definition fetch (req : Request) : M Response :=
  log_request req;;
  if String.eqb (method req) "OPTIONS" then
    ret {| status := 204; resHeaders := CORS_HEADERS; body := NoBody |}
  else if String.eqb (pathname req) "/healthz" then
    ret {| status := 200; resHeaders := CORS_HEADERS; body := Text "ok" |}
  else if String.eqb (pathname req) "/api/convert" then convert req
  else ret {| status := 404; resHeaders := CORS_HEADERS; body := Text "Not Found" |}.

End Handler.
End Cloud.

(** ** What a request did besides logging *)

Definition is_log (e : Event) : bool :=
  match e with
  | Log _ _ => true
  | _ => false
  end.

(** The file-system, subprocess and storage effects of a trace. *)
Fixpoint effects (tr : list Event) : list Event :=
  match tr with
  | [] => []
  | e :: tr' => if is_log e then effects tr' else e :: effects tr'
  end.

(** ** Judgements used to state and prove the properties *)

(** [pat] does not occur in [a +:+ pat] before its final position. *)
Fixpoint no_earlier (pat a : string) : bool :=
  match a with
  | EmptyString => true
  | String c a' => negb (String.prefix pat (a +:+ pat)) && no_earlier pat a'
  end.

(** [m] always completes with a value: it never throws. *)
Definition total {A} (m : M A) : Prop := ∀ st, ∃ a st', m st = (Ret a, st').

(** Every value [m] completes with satisfies [Q]. *)
Definition yields {A} (Q : A → Prop) (m : M A) : Prop :=
  ∀ st a st', m st = (Ret a, st') → Q a.

(** Whether a [mkdir] is among the events. *)
Definition made_dir (evs : list Event) : bool :=
  existsb (λ e, match e with Mkdir _ => true | _ => false end) evs.

(** [m] only puts events in front of the trace, events that satisfy
    [ok], and leaves the handler's [dir] variable alone. *)
Definition appends (ok : list Event → Prop) {A} (m : M A) : Prop :=
  ∀ st, ∃ evs, trace (m st).2 = evs ++ trace st
               ∧ var_dir (m st).2 = var_dir st
               ∧ ok evs.

(** Partial correctness with a state: started where [P] holds, [m]
    either throws or completes with a value and a state that satisfy
    [Q]. *)
Definition triple {A} (P : State → Prop) (m : M A) (Q : A → State → Prop) : Prop :=
  ∀ st, P st → match m st with
               | (Ret a, st') => Q a st'
               | (Throw _, _) => True
               end.

(** Any events at all. *)
Definition any_events (evs : list Event) : Prop := True.

(** No [mkdir] among them. *)
Definition no_mkdir (evs : list Event) : Prop := made_dir evs = false.

Section CloudJudgements.
Variable cfg : Config.
Variable ora : Oracle.

(** The [try] block of [/api/convert] with its [catch]. *)
Definition attempt (req : Request) : M Response :=
  try_catch (Cloud.convert_body cfg ora req)
    (λ err, logger "error" (String_ err);;
            ret (Response_json [("message", String_ err)] 500 (Cloud.CORS_HEADERS cfg))).

(** [m] has either made no directory and left [dir] alone, or set [dir]
    to the request directory. *)
Definition marks {A} (m : M A) : Prop :=
  ∀ st, ∃ evs, trace (m st).2 = evs ++ trace st
               ∧ ((made_dir evs = false ∧ var_dir (m st).2 = var_dir st)
                  ∨ var_dir (m st).2 = Some (FILES_FOLDER cfg +:+ "/" +:+ randomUUID ora)).

End CloudJudgements.

Module PathSpec.
Import Path.

(** No separator in [s]. *)
Fixpoint slash_free (s : string) : bool :=
  match s with
  | EmptyString => true
  | String c s' => negb (Ascii.eqb c CHAR_FORWARD_SLASH) && slash_free s'
  end.

(** The loop variables moved [n] characters to the right. *)
Definition shift (n : Z) (s : Scan) : Scan :=
  {| startDot := if startDot s =? -1 then -1 else startDot s + n;
     startPart := startPart s;
     end_ := if end_ s =? -1 then -1 else end_ s + n;
     matchedSlash := matchedSlash s;
     preDotState := preDotState s |}.

(** What the loop keeps true of its variables. *)
Definition wf (s : Scan) : Prop :=
  -1 ≤ startDot s ∧ -1 ≤ end_ s ∧ (end_ s ≠ -1 → matchedSlash s = false).

(** How many separators [s] holds. *)
Fixpoint slashes (s : string) : nat :=
  match s with
  | EmptyString => 0
  | String c s' => (if Ascii.eqb c CHAR_FORWARD_SLASH then 1 else 0) + slashes s'
  end.

(** No separator at the positions [a ≤ i < b] of [p]. *)
Definition clean (p : string) (a b : nat) : Prop :=
  ∀ i, (a ≤ i < b)%nat → String.get i p ≠ Some CHAR_FORWARD_SLASH.

(** What the loop of [parse] keeps true when it is about to read position
    [n - 1]: the component found so far lies between [n] and [end_]. *)
Definition found (p : string) (n : nat) (s : Scan) : Prop :=
  startPart s = 0
  ∧ (end_ s = -1 → startDot s = -1 ∧ matchedSlash s = true)
  ∧ (end_ s ≠ -1 →
     matchedSlash s = false
     ∧ Z.of_nat n ≤ end_ s ≤ Z.of_nat (String.length p)
     ∧ clean p n (Z.to_nat (end_ s))
     ∧ (startDot s = -1 ∨ Z.of_nat n ≤ startDot s < end_ s)).

(** What it has found when it stops: the last component runs from [lo]
    to [end_]. *)
Definition component (p : string) (start : nat) (s : Scan) : Prop :=
  end_ s ≠ -1 →
  ∃ lo : nat,
    (startPart s = 0 → lo = start)
    ∧ (startPart s ≠ 0 → startPart s = Z.of_nat lo)
    ∧ Z.of_nat lo ≤ end_ s ≤ Z.of_nat (String.length p)
    ∧ clean p lo (Z.to_nat (end_ s))
    ∧ (startDot s = -1 ∨ Z.of_nat lo ≤ startDot s < end_ s).

End PathSpec.

(** ** The effects a conversion goes through, in the order they happen *)

(** [m] performs an initial segment of the effects [L], at least [lo] of
    them, and all of them when it completes with a value; it logs besides,
    and it leaves the handler's [dir] variable alone. *)
Definition performs (lo : nat) (L : list Event) {A} (m : M A) : Prop :=
  ∀ st, ∃ k, (lo ≤ k ≤ List.length L)%nat
    ∧ effects (trace (m st).2) = rev (take k L) ++ effects (trace st)
    ∧ var_dir (m st).2 = var_dir st
    ∧ (∀ a, (m st).1 = Ret a → k = List.length L).

Module Steps.

(** The name under which the upload of a request is stored, if the
    request carries one. *)
Definition upload_name (req : Request) : string :=
  match formData req with
  | inr fd => Local.File_name (FormData_get fd "file")
  | inl _ => ""
  end.

(** The object a request names, normalised to lie under [models/]. *)
Definition object_name (req : Request) : string :=
  match formData req with
  | inr fd =>
    let f := Legacy.as_string (FormData_get fd "filename") in
    if Js.startsWith f "models/" then f else "models/" +:+ f
  | inl _ => ""
  end.

Definition converter_argv (input : string) : list string :=
  ["usd_from_gltf"; input; Js.replace input (Path.ext (Path.parse input)) ".usdz"].

(** Local variant: store the upload, run the converter. *)
Definition local (ora : Oracle) (req : Request) : list Event :=
  let filename := Local.FILES_FOLDER +:+ "/" +:+ randomUUID ora +:+ "/" +:+ upload_name req in
  [ Write filename; Spawn (converter_argv filename) ].

(** server/index.ts: make the directory, download, convert, upload, sign. *)
Definition legacy (cfg : Config) (ora : Oracle) (req : Request) : list Event :=
  let bucket := default "" (GCS_BUCKET cfg) in
  let dir := FILES_FOLDER cfg +:+ "/" +:+ randomUUID ora in
  let destPath := dir +:+ "/" +:+ object_name req in
  let name := Path.name (Path.parse destPath) +:+ ".usdz" in
  let destObjectName := "models/" +:+ randomUUID ora +:+ "/" +:+ name in
  [ Mkdir dir;
    GcsDownload bucket (object_name req) destPath;
    Spawn (converter_argv destPath);
    GcsUpload bucket (dir +:+ "/" +:+ name) destObjectName;
    GcsSign bucket destObjectName "read" (Date_now ora + 3600000) ].

(** The revision with clean-up: make the directory and the object's
    directory inside it, download, convert, upload next to the original
    object, sign. *)
Definition cloud (cfg : Config) (ora : Oracle) (req : Request) : list Event :=
  let bucket := default "" (GCS_BUCKET cfg) in
  let dir := FILES_FOLDER cfg +:+ "/" +:+ randomUUID ora in
  let parsed := Path.parse (object_name req) in
  let localObjectDir := dir +:+ "/" +:+ Path.dir parsed in
  let destPath := localObjectDir +:+ "/" +:+ Path.base parsed in
  let convertedName := Path.name parsed +:+ ".usdz" in
  let destObjectName := Path.dir parsed +:+ "/" +:+ convertedName in
  [ Mkdir dir;
    Mkdir localObjectDir;
    GcsDownload bucket (object_name req) destPath;
    Spawn (converter_argv destPath);
    GcsUpload bucket (localObjectDir +:+ "/" +:+ convertedName) destObjectName;
    GcsSign bucket destObjectName "read" (Date_now ora + 3600000) ].

End Steps.

(** ** File names with an extension *)

(** No dot in [s]. *)
Fixpoint dot_free (s : string) : bool :=
  match s with
  | EmptyString => true
  | String c s' => negb (Ascii.eqb c Path.CHAR_DOT) && dot_free s'
  end.

(** No two dots in a row in [s], so that no component of [s] is [..] and
    [s] names nothing above the directory it is looked up in. *)
Fixpoint dotdot_free (s : string) : bool :=
  match s with
  | EmptyString => true
  | String c s' => negb (String.prefix ".." s) && dotdot_free s'
  end.

(** ** What stays on disk *)

(** [m] removes no path that satisfies [K]. *)
Definition preserves (K : string → Prop) {A} (m : M A) : Prop :=
  ∀ st p, K p → p ∈ fs st → p ∈ fs (m st).2.

(** ** The request log *)



(** ** What reaches the bucket *)

(** Every event [m] adds to the trace satisfies [P]. *)
Definition emits (P : Event → Prop) {A} (m : M A) : Prop :=
  ∀ st, ∃ evs, trace (m st).2 = evs ++ trace st ∧ Forall P evs.

(** The bucket is the configured one, what is read lies under [models/],
    and what is signed is signed for reading. *)
Definition confined (cfg : Config) (e : Event) : Prop :=
  match e with
  | GcsDownload b o _ => b = default "" (GCS_BUCKET cfg) ∧ Js.startsWith o "models/" = true
  | GcsUpload b _ _ => b = default "" (GCS_BUCKET cfg)
  | GcsSign b _ action _ => b = default "" (GCS_BUCKET cfg) ∧ action = "read"
  | _ => True
  end.


(** ** Concrete requests and environments used in the examples below *)

Module Sample.

Definition uuid : string := "0b6e4c1a-5d2f-4e8b-9a37-c1f0d2e4a6b8".

Definition sign (b o : string) (expires : Z) : Error + string :=
  inr ("https://storage.googleapis.com/" +:+ b +:+ "/" +:+ o +:+ "?X-Goog-Signature=5c1e").

(** Every call succeeds and the converter writes its output file. *)
Definition ora_ok : Oracle :=
  {| randomUUID := uuid;
     Date_now := 1762128000000;
     mkdir_fails := λ _, None;
     rm_fails := λ _, None;
     rm_leaves := λ _ _, false;
     write_fails := λ _, None;
     spawn_result := λ _, inr {| stderr := ""; wroteOutput := true |};
     download_fails := λ _ _, None;
     upload_fails := λ _ _ _, None;
     sign_result := sign |}.

(** The converter runs, complains and exits without writing anything. *)
Definition ora_no_output : Oracle :=
  {| randomUUID := uuid;
     Date_now := 1762128000000;
     mkdir_fails := λ _, None;
     rm_fails := λ _, None;
     rm_leaves := λ _ _, false;
     write_fails := λ _, None;
     spawn_result :=
       λ _, inr {| stderr := "ERROR: failed to load glTF"; wroteOutput := false |};
     download_fails := λ _ _, None;
     upload_fails := λ _ _ _, None;
     sign_result := sign |}.

(** As [ora_ok], but removing a directory is refused. *)
Definition ora_rm_refused : Oracle :=
  {| randomUUID := uuid;
     Date_now := 1762128000000;
     mkdir_fails := λ _, None;
     rm_fails := λ p, Some (mkError ("EACCES: permission denied, rm '" +:+ p +:+ "'"));
     rm_leaves := λ _ _, true;
     write_fails := λ _, None;
     spawn_result := λ _, inr {| stderr := ""; wroteOutput := true |};
     download_fails := λ _ _, None;
     upload_fails := λ _ _ _, None;
     sign_result := sign |}.


Definition env_bucket : ProcessEnv :=
  {| env_FILES_FOLDER := None; env_LOGS_FOLDER := None;
     env_ALLOWED_ORIGIN := Some "https://viewer.example.com";
     env_GCS_BUCKET := Some "assets" |}.

Definition env_no_bucket : ProcessEnv :=
  {| env_FILES_FOLDER := None; env_LOGS_FOLDER := None;
     env_ALLOWED_ORIGIN := None; env_GCS_BUCKET := None |}.

Definition cfg_bucket : Config := configure env_bucket false.
Definition cfg_no_bucket : Config := configure env_no_bucket false.

(** An empty working directory, nothing done yet. *)
Definition fresh : State := {| fs := ∅; trace := []; var_dir := None |}.

Definition request (m p : string) (fd : list (string * Value)) : Request :=
  {| method := m; pathname := p; searchParams := []; headers := [];
     formData := inr fd |}.

(** A multipart upload of a file called [n]. *)
Definition upload (n : string) : Request :=
  request "POST" "/api/convert" [("file", VFile n)].

(** A conversion request naming the bucket object [o]. *)
Definition by_name (o : string) : Request :=
  request "POST" "/api/convert" [("filename", VString o)].

End Sample.

(** Further requests and environments. *)
Module Cases.

(** A download request for the file [n] of the conversion [i]. *)
Definition download (i n : string) : Request :=
  {| method := "GET"; pathname := "/api/download";
     searchParams := [("id", i); ("name", n)]; headers := [];
     formData := inr [] |}.

(** A request without a body. *)
Definition plain (m p : string) : Request := Sample.request m p [].

Definition not_a_form : Error :=
  {| ename := "TypeError";
     emessage := "Can't decode form data from body because of incorrect MIME type/boundary" |}.

(** A POST whose body is not a form. *)
Definition unreadable : Request :=
  {| method := "POST"; pathname := "/api/convert"; searchParams := [];
     headers := [("content-type", "text/plain")];
     formData := inl not_a_form |}.


(** The bucket does not hold the object. *)
Definition ora_no_object : Oracle :=
  {| randomUUID := Sample.uuid;
     Date_now := 1762128000000;
     mkdir_fails := λ _, None;
     rm_fails := λ _, None;
     rm_leaves := λ _ _, false;
     write_fails := λ _, None;
     spawn_result := λ _, inr {| stderr := ""; wroteOutput := true |};
     download_fails := λ b o, Some (mkError ("No such object: " +:+ b +:+ "/" +:+ o));
     upload_fails := λ _ _ _, None;
     sign_result := Sample.sign |}.

(** Another request is being served: its object has been downloaded. *)
Definition busy : State :=
  {| fs := {[ "/tmp/gltf2usdz/files/41c9d7e2-7f3a-4b60-8d15-2a9e6c0b5f73/models/desk.glb" ]};
     trace := []; var_dir := None |}.

End Cases.

Arguments Path.parse : simpl never.
Arguments Js.replace : simpl never.
Arguments convertFile : simpl never.

(** * Checked examples of the library model *)

Example parse_chair :
  Path.parse "/tmp/gltf2usdz/files/id/models/chair.glb"
  = {| Path.root := "/"; Path.dir := "/tmp/gltf2usdz/files/id/models";
       Path.base := "chair.glb"; Path.ext := ".glb"; Path.name := "chair" |}.
Proof. reflexivity. Qed.

Example parse_rel : Path.parse "models/a/b.tar.gz"
  = {| Path.root := ""; Path.dir := "models/a"; Path.base := "b.tar.gz";
       Path.ext := ".gz"; Path.name := "b.tar" |}.
Proof. reflexivity. Qed.

Example parse_dotfile : Path.parse "/x/.glb"
  = {| Path.root := "/"; Path.dir := "/x"; Path.base := ".glb";
       Path.ext := ""; Path.name := ".glb" |}.
Proof. reflexivity. Qed.

Example parse_dotdot : Path.ext (Path.parse "a/..") = "".
Proof. reflexivity. Qed.

Example parse_trailing : Path.parse "/a/b.c//"
  = {| Path.root := "/"; Path.dir := "/a"; Path.base := "b.c";
       Path.ext := ".c"; Path.name := "b" |}.
Proof. reflexivity. Qed.

Example parse_root : Path.parse "/"
  = {| Path.root := "/"; Path.dir := "/"; Path.base := "";
       Path.ext := ""; Path.name := "" |}.
Proof. reflexivity. Qed.

Example replace_first : Js.replace "/f/a.glb.v2.glb" ".glb" ".usdz" = "/f/a.usdz.v2.glb".
Proof. reflexivity. Qed.

Example replace_empty : Js.replace "/f/a" "" ".usdz" = ".usdz/f/a".
Proof. reflexivity. Qed.

Example ends1 : Js.endsWith "chair.glb" ".glb" = true.
Proof. reflexivity. Qed.

(** * Symbolic execution of the monad *)

Ltac exec :=
  cbv beta iota zeta delta
    [mbind mret M_bind M_ret bind ret throw try_catch try_finally emit
     set_fs get_fs set_dir get_dir fail_if logger req_formData fst snd];
  cbn [fs trace var_dir last].

(** The same, through the runtime services. *)
Ltac exec_io :=
  cbv beta iota zeta delta
    [mbind mret M_bind M_ret bind ret throw try_catch try_finally emit
     set_fs get_fs set_dir get_dir fail_if logger req_formData fst snd
     mkdir rm Bun_write Bun_spawnSync BunFile_exists
     downloadFromGCS uploadToGCS getSignedUrl];
  cbn [fs trace var_dir last].

(** * Storage bridge *)

Section StorageFacts.
Variable cfg : Config.
Variable ora : Oracle.

Lemma downloadFromGCS_uninitialized b o d st :
  storage cfg = None →
  downloadFromGCS cfg ora b o d st = (Throw not_initialized, st).
Proof. intros H. unfold downloadFromGCS. rewrite H. reflexivity. Qed.

Lemma uploadToGCS_uninitialized b l d st :
  storage cfg = None →
  uploadToGCS cfg ora b l d st = (Throw not_initialized, st).
Proof. intros H. unfold uploadToGCS. rewrite H. reflexivity. Qed.

Lemma getSignedUrl_uninitialized b o st :
  storage cfg = None →
  getSignedUrl cfg ora b o st = (Throw not_initialized, st).
Proof. intros H. unfold getSignedUrl. rewrite H. reflexivity. Qed.

End StorageFacts.

Lemma getSignedUrl_initialized cfg ora b o st client :
  storage cfg = Some client →
  getSignedUrl cfg ora b o st =
    (match sign_result ora b o (Date_now ora + 3600000) with
     | inl e => Throw e
     | inr url => Ret url
     end,
     {| fs := fs st;
        trace := GcsSign b o "read" (Date_now ora + 3600000) :: trace st;
        var_dir := var_dir st |}).
Proof.
  intros H. unfold getSignedUrl. rewrite H.
  change (60 * 60 * 1000) with 3600000.
  exec. destruct (sign_result ora b o (Date_now ora + 3600000)); reflexivity.
Qed.

(** C8. Whenever [getSignedUrl] produces a URL, it has asked the SDK for
    exactly one [read] URL, the URL is the one signed for the expiry it
    asked for, and that expiry is the clock reading plus 3,600,000 ms. *)
Theorem signed_url_expires_in_one_hour cfg ora b o st url st' :
  getSignedUrl cfg ora b o st = (Ret url, st') →
  ∃ expires,
    trace st' = GcsSign b o "read" expires :: trace st
    ∧ sign_result ora b o expires = inr url
    ∧ expires - Date_now ora = 3600000.
Proof.
  intros Hrun. destruct (storage cfg) as [client|] eqn:Hst.
  - rewrite (getSignedUrl_initialized cfg ora b o st client Hst) in Hrun.
    exists (Date_now ora + 3600000).
    destruct (sign_result ora b o (Date_now ora + 3600000)) as [e|u]; [discriminate|].
    injection Hrun as <- <-. cbn [trace].
    split; [reflexivity|]. split; [reflexivity | lia].
  - rewrite getSignedUrl_uninitialized in Hrun by exact Hst. discriminate.
Qed.

(** * Logging leaves no other effect *)

Lemma effects_logs logs tr :
  Forall (λ e, is_log e = true) logs → effects (logs ++ tr) = effects tr.
Proof.
  induction 1 as [|e logs He _ IH]; simpl; [reflexivity|].
  rewrite He. exact IH.
Qed.

Lemma log_headers_spec hs st :
  ∃ logs, Cloud.log_headers hs st =
            (Ret tt, {| fs := fs st; trace := logs ++ trace st; var_dir := var_dir st |})
          ∧ Forall (λ e, is_log e = true) logs.
Proof.
  revert st. induction hs as [|[k v] hs IH]; intros st.
  - exists []. destruct st; split; [reflexivity | constructor].
  - simpl. exec.
    destruct (String.eqb (Js.toLowerCase k) "authorization").
    + destruct (IH st) as (logs & -> & Hl). exists logs. split; [reflexivity | exact Hl].
    + destruct (IH {| fs := fs st; trace := Log "debug" ("  hdr: " +:+ k +:+ ": " +:+ v) :: trace st;
                      var_dir := var_dir st |}) as (logs & Hrun & Hl).
      exec. rewrite Hrun.
      exists (logs ++ [Log "debug" ("  hdr: " +:+ k +:+ ": " +:+ v)]).
      split.
      * rewrite <- app_assoc. reflexivity.
      * apply Forall_app. split; [exact Hl | repeat constructor].
Qed.

Lemma log_request_spec req st :
  ∃ logs, Cloud.log_request req st =
            (Ret tt, {| fs := fs st; trace := logs ++ trace st; var_dir := var_dir st |})
          ∧ Forall (λ e, is_log e = true) logs.
Proof.
  unfold Cloud.log_request. exec.
  match goal with |- context [Cloud.log_headers ?h ?s] =>
    destruct (log_headers_spec h s) as (logs & Hrun & Hl); rewrite Hrun end.
  exec.
  eexists (logs ++ [_; _; _]). split.
  - rewrite <- app_assoc. reflexivity.
  - apply Forall_app. split; [exact Hl | repeat constructor].
Qed.

(** * Completion and results *)

Section Judgements.
Context {A : Type}.

Lemma total_ret (a : A) : total (ret a).
Proof. intros st. exists a, st. reflexivity. Qed.

Lemma total_try_catch (m : M A) h : (∀ e, total (h e)) → total (try_catch m h).
Proof.
  intros Hh st. unfold try_catch.
  destruct (m st) as [[a|e] st1]; [exists a, st1; reflexivity | apply Hh].
Qed.

Lemma total_try_finally (m : M A) (f : M unit) :
  (∀ st, ∃ st', f st = (Ret tt, st')) → total m → total (try_finally m f).
Proof.
  intros Hf Hm st. unfold try_finally.
  destruct (Hm st) as (a & st1 & ->).
  destruct (Hf st1) as (st2 & ->).
  exists a, st2. reflexivity.
Qed.

Lemma yields_ret (Q : A → Prop) a : Q a → yields Q (ret a).
Proof. intros HQ st a' st' [= <- _]. exact HQ. Qed.

Lemma yields_throw (Q : A → Prop) e : yields Q (throw e).
Proof. intros st a st' [=]. Qed.

Lemma yields_try_catch (Q : A → Prop) m h :
  yields Q m → (∀ e, yields Q (h e)) → yields Q (try_catch m h).
Proof.
  intros Hm Hh st a st'. unfold try_catch.
  destruct (m st) as [[a1|e] st1] eqn:Hrun.
  - intros [= <- _]. exact (Hm _ _ _ Hrun).
  - apply Hh.
Qed.

Lemma yields_try_finally (Q : A → Prop) m f :
  yields Q m → yields Q (try_finally m f).
Proof.
  intros Hm st a st'. unfold try_finally.
  destruct (m st) as [o st1] eqn:Hrun.
  destruct (f st1) as [[[]|e] st2]; [|intros [=]].
  destruct o; intros [= <- _]. exact (Hm _ _ _ Hrun).
Qed.

Lemma total_yields (Q : A → Prop) m :
  total m → yields Q m → ∀ st, ∃ a st', m st = (Ret a, st') ∧ Q a.
Proof.
  intros Ht Hy st. destruct (Ht st) as (a & st' & Hrun).
  exists a, st'. split; [exact Hrun | exact (Hy _ _ _ Hrun)].
Qed.

End Judgements.

Lemma total_bind {A B} (m : M A) (k : A → M B) :
  total m → (∀ a, total (k a)) → total (m ≫= k).
Proof.
  intros Hm Hk st. unfold mbind, M_bind, bind.
  destruct (Hm st) as (a & st1 & ->). apply Hk.
Qed.

Lemma yields_bind {A B} (Q : B → Prop) (m : M A) (k : A → M B) :
  (∀ a, yields Q (k a)) → yields Q (m ≫= k).
Proof.
  intros Hk st b st'. unfold mbind, M_bind, bind.
  destruct (m st) as [[a|e] st1]; [apply Hk | intros [=]].
Qed.

(** The same, when what [m] hands on is known to satisfy [P]. *)
Lemma yields_bind_with {A B} (P : A → Prop) (Q : B → Prop) (m : M A) (k : A → M B) :
  yields P m → (∀ a, P a → yields Q (k a)) → yields Q (m ≫= k).
Proof.
  intros Hm Hk st b st'. unfold mbind, M_bind, bind.
  destruct (m st) as [[a|e] st1] eqn:Hrun; [|intros [=]].
  apply Hk. exact (Hm _ _ _ Hrun).
Qed.

Lemma total_logger level msg : total (logger level msg).
Proof. intros st. eexists tt, _. reflexivity. Qed.

Lemma total_get_dir : total get_dir.
Proof. intros st. exists (var_dir st), st. reflexivity. Qed.

Lemma total_set_dir d : total (set_dir d).
Proof. intros st. eexists tt, _. reflexivity. Qed.

(** * The cloud handler *)

Section CloudFacts.
Variable cfg : Config.
Variable ora : Oracle.

Lemma total_log_request req : total (Cloud.log_request req).
Proof. apply total_try_catch. intros e. apply total_ret. Qed.

Lemma total_cleanup : total (Cloud.cleanup ora).
Proof.
  apply total_bind; [apply total_get_dir|]. intros d.
  destruct (Js.nonempty d); [|apply total_ret].
  apply total_try_catch. intros e. apply total_logger.
Qed.

(** The handler answers every request: nothing escapes its [catch]. *)
Lemma total_fetch req : total (Cloud.fetch cfg ora req).
Proof.
  apply total_bind; [apply total_log_request|]. intros _.
  repeat case_match; try apply total_ret.
  apply total_bind; [apply total_set_dir|]. intros _.
  apply total_try_finally.
  { intros st. destruct (total_cleanup st) as ([] & st' & ->). exists st'. reflexivity. }
  apply total_try_catch. intros e.
  apply total_bind; [apply total_logger|]. intros _. apply total_ret.
Qed.

Lemma yields_cors_convert_body req :
  yields (λ r, resHeaders r = Cloud.CORS_HEADERS cfg) (Cloud.convert_body cfg ora req).
Proof.
  unfold Cloud.convert_body.
  repeat first
    [ apply yields_ret; reflexivity
    | apply yields_bind; intros ?
    | case_match ].
Qed.

Lemma yields_cors_fetch req :
  yields (λ r, resHeaders r = Cloud.CORS_HEADERS cfg) (Cloud.fetch cfg ora req).
Proof.
  apply yields_bind. intros _.
  repeat case_match; try (apply yields_ret; reflexivity).
  apply yields_bind. intros _.
  apply yields_try_finally, yields_try_catch.
  - apply yields_cors_convert_body.
  - intros e. apply yields_bind. intros _. apply yields_ret. reflexivity.
Qed.

(** C9. Whatever the request (preflight, health check, conversion,
    unknown path) and whatever the environment does, the handler
    completes with a response, and that response carries the four CORS
    headers, [Access-Control-Allow-Origin] being the configured origin. *)
Theorem Cloud_every_response_has_cors req st :
  ∃ r st', Cloud.fetch cfg ora req st = (Ret r, st')
    ∧ resHeaders r = Cloud.CORS_HEADERS cfg
    ∧ assoc "Access-Control-Allow-Origin" (resHeaders r) = Some (ALLOWED_ORIGIN cfg)
    ∧ assoc "Access-Control-Allow-Methods" (resHeaders r) = Some "POST, OPTIONS"
    ∧ assoc "Access-Control-Allow-Headers" (resHeaders r) = Some "Content-Type, Accept"
    ∧ assoc "Access-Control-Max-Age" (resHeaders r) = Some "600".
Proof.
  destruct (total_yields _ _ (total_fetch req) (yields_cors_fetch req) st)
    as (r & st' & Hrun & Hh).
  exists r, st'. rewrite Hh. repeat split; first [exact Hrun | reflexivity].
Qed.

End CloudFacts.

(** * Requests turned away before any directory is made *)

Section CloudEarly.
Variable cfg : Config.
Variable ora : Oracle.

Ltac start_fetch req st :=
  unfold Cloud.fetch;
  let logs := fresh "logs" in
  let Hrun := fresh "Hrun" in
  let Hlogs := fresh "Hlogs" in
  destruct (log_request_spec req st) as (logs & Hrun & Hlogs);
  unfold mbind at 1, M_bind at 1, bind at 1; rewrite Hrun.

Ltac early Hlogs :=
  eexists _, _; split; [reflexivity |];
  split; [reflexivity | simpl; apply effects_logs, Hlogs].

(** C10. A request to [/api/convert] that is not a POST, or whose
    [filename] field is missing, empty or not a string, or that arrives
    while storage is unconfigured, is answered without touching the disk:
    the files are the same afterwards and the request performed no
    [mkdir], no [rm] and no other effect than logging. *)
Theorem Cloud_rejected_request_leaves_disk req st :
  pathname req = "/api/convert" →
  (method req ≠ "POST"
   ∨ (∃ fd, formData req = inr fd
            ∧ (truthy (FormData_get fd "filename") = false
               ∨ typeof (FormData_get fd "filename") ≠ "string"))
   ∨ storage cfg = None
   ∨ Js.nonempty (GCS_BUCKET cfg) = false) →
  ∃ r st', Cloud.fetch cfg ora req st = (Ret r, st')
           ∧ fs st' = fs st
           ∧ effects (trace st') = effects (trace st).
Proof.
  intros Hpath Hbad. start_fetch req st.
  rewrite Hpath.
  destruct (String.eqb (method req) "OPTIONS"); [early Hlogs|].
  change (String.eqb "/api/convert" "/healthz") with false.
  change (String.eqb "/api/convert" "/api/convert") with true.
  cbv iota.
  unfold Cloud.convert, Cloud.convert_body, Cloud.cleanup.
  destruct (String.eqb (method req) "POST") eqn:Hm; simpl negb; cbv iota;
    [|exec; early Hlogs].
  unfold req_formData.
  destruct (formData req) as [e|fd] eqn:Hfd; [exec; early Hlogs|].
  destruct (negb (truthy (FormData_get fd "filename"))
            || negb (String.eqb (typeof (FormData_get fd "filename")) "string")) eqn:Hfield.
  { exec. rewrite Hfield. early Hlogs. }
  destruct (negb (is_some (storage cfg)) || negb (Js.nonempty (GCS_BUCKET cfg))) eqn:Hcfg.
  { exec. rewrite Hfield. early Hlogs. }
  exfalso.
  apply orb_false_elim in Hfield as [Ht Hs], Hcfg as [Hst Hb].
  apply negb_false_iff in Ht, Hs, Hst, Hb.
  destruct Hbad as [Hbad|[(fd' & Hfd' & Hbad)|[Hbad|Hbad]]].
  - apply String.eqb_eq in Hm. contradiction.
  - assert (fd' = fd) as -> by congruence.
    destruct Hbad as [Hbad|Hbad]; [congruence|].
    apply String.eqb_eq in Hs. contradiction.
  - rewrite Hbad in Hst. discriminate.
  - congruence.
Qed.

(** With no storage client, a well-formed POST gets the configuration
    error. *)
Lemma Cloud_unconfigured_500 req st fd s :
  storage cfg = None →
  method req = "POST" →
  pathname req = "/api/convert" →
  formData req = inr fd →
  FormData_get fd "filename" = VString s →
  s ≠ "" →
  ∃ st', Cloud.fetch cfg ora req st =
           (Ret (Response_json [("message", "GCS is not configured on this server")]
                   500 (Cloud.CORS_HEADERS cfg)), st')
         ∧ fs st' = fs st
         ∧ effects (trace st') = effects (trace st).
Proof.
  intros Hst Hm Hpath Hfd Hget Hs. start_fetch req st.
  rewrite Hpath, Hm.
  unfold Cloud.convert, Cloud.convert_body, Cloud.cleanup, req_formData.
  rewrite Hm, Hfd, Hst. simpl. exec. rewrite Hget. simpl.
  destruct s as [|c s]; [contradiction|]. simpl.
  eexists. split; [reflexivity|]. split; [reflexivity|].
  simpl. apply effects_logs, Hlogs.
Qed.

Lemma Legacy_unconfigured_500 req st fd s :
  storage cfg = None →
  pathname req = "/api/convert" →
  formData req = inr fd →
  FormData_get fd "filename" = VString s →
  s ≠ "" →
  Legacy.fetch cfg ora req st =
    (Ret (Response_json [("message", "GCS is not configured on this server")] 500 []), st).
Proof.
  intros Hst Hpath Hfd Hget Hs.
  unfold Legacy.fetch, Legacy.convert, req_formData.
  rewrite Hpath, Hfd, Hst. simpl. exec. rewrite Hget. simpl.
  destruct s as [|c s]; [contradiction|]. reflexivity.
Qed.

(** C6. When the storage client was not initialised, each of
    [downloadFromGCS], [uploadToGCS] and [getSignedUrl] throws
    "GCS client not initialized" before doing anything, and a POST to
    [/api/convert] that names an object is answered with status 500 and
    the body [{message: "GCS is not configured on this server"}], in the
    revision with CORS and in server/index.ts alike. *)
Theorem unconfigured_storage_fails_fast :
  storage cfg = None →
  (∀ b o d st, downloadFromGCS cfg ora b o d st = (Throw not_initialized, st))
  ∧ (∀ b l d st, uploadToGCS cfg ora b l d st = (Throw not_initialized, st))
  ∧ (∀ b o st, getSignedUrl cfg ora b o st = (Throw not_initialized, st))
  ∧ (∀ req st fd s,
       method req = "POST" → pathname req = "/api/convert" →
       formData req = inr fd → FormData_get fd "filename" = VString s → s ≠ "" →
       ∃ r st', Cloud.fetch cfg ora req st = (Ret r, st')
                ∧ status r = 500
                ∧ body r = Json [("message", "GCS is not configured on this server")])
  ∧ (∀ req st fd s,
       method req = "POST" → pathname req = "/api/convert" →
       formData req = inr fd → FormData_get fd "filename" = VString s → s ≠ "" →
       ∃ r st', Legacy.fetch cfg ora req st = (Ret r, st')
                ∧ status r = 500
                ∧ body r = Json [("message", "GCS is not configured on this server")]).
Proof.
  intros Hst. repeat split.
  - intros. apply downloadFromGCS_uninitialized, Hst.
  - intros. apply uploadToGCS_uninitialized, Hst.
  - intros. apply getSignedUrl_uninitialized, Hst.
  - intros req st fd s Hm Hp Hfd Hget Hs.
    destruct (Cloud_unconfigured_500 req st fd s Hst Hm Hp Hfd Hget Hs) as (st' & Hrun & _).
    eexists _, st'. split; [exact Hrun|]. split; reflexivity.
  - intros req st fd s Hm Hp Hfd Hget Hs.
    eexists _, st. split; [exact (Legacy_unconfigured_500 req st fd s Hst Hp Hfd Hget Hs)|].
    split; reflexivity.
Qed.

End CloudEarly.

Lemma configure_without_bucket env ctor :
  Js.nonempty (env_GCS_BUCKET env) = false → storage (configure env ctor) = None.
Proof. intros H. unfold configure. simpl. rewrite H. reflexivity. Qed.

(** * The converter wrapper *)

Section ConverterFacts.
Variable ora : Oracle.

(** Once the subprocess has run, [convertFile] completes with the
    [.usdz] name whatever is on disk: [!outputFile.exists()] negates a
    promise, which is always truthy, so the guarded [throw] is dead. *)
Lemma convertFile_returns filepath st r :
  spawn_result ora ["usd_from_gltf"; filepath;
                    Js.replace filepath (Path.ext (Path.parse filepath)) ".usdz"] = inr r →
  ∃ st', convertFile ora filepath st
         = (Ret (Path.name (Path.parse filepath) +:+ ".usdz"), st').
Proof.
  intros Hr. unfold convertFile. exec_io. rewrite Hr.
  destruct (wroteOutput r); exec;
    destruct (truthy (VString (stderr r))); exec; eexists; reflexivity.
Qed.

(** The subprocess is the only effect besides logging: one synchronous
    spawn of [usd_from_gltf] with the input path and the derived output
    path, in that order. *)
Lemma convertFile_spawns filepath st :
  let argv := ["usd_from_gltf"; filepath;
               Js.replace filepath (Path.ext (Path.parse filepath)) ".usdz"] in
  effects (trace (convertFile ora filepath st).2) = Spawn argv :: effects (trace st).
Proof.
  intros argv. unfold convertFile. exec_io. fold argv.
  destruct (spawn_result ora argv) as [e|r]; [reflexivity|].
  destruct (wroteOutput r); exec;
    destruct (truthy (VString (stderr r))); exec; reflexivity.
Qed.

(** The download route of the local variant awaits the same check, and
    there a missing file is reported. *)
Lemma Local_download_missing req st i n :
  pathname req = "/api/download" →
  assoc "id" (searchParams req) = Some i →
  assoc "name" (searchParams req) = Some n →
  Fs.exists_ (fs st) (Local.FILES_FOLDER +:+ "/" +:+ i +:+ "/" +:+ n) = false →
  ∃ st', Local.fetch ora req st
         = (Ret (Response_json [("message", "Failed to download the file.")] 500 []), st').
Proof.
  intros Hp Hi Hn Hex. unfold Local.fetch, Local.download. rewrite Hp, Hi, Hn.
  simpl. exec_io. unfold show. rewrite Hex. simpl. eexists. reflexivity.
Qed.

End ConverterFacts.

(** C1 (the code departs from it). A [chair.glb] is uploaded to the
    local variant and the converter exits without writing anything:
    [convertFile] does not throw, and the handler answers 200 with
    [{id, name: "chair.usdz"}] although no such file exists. *)
Theorem Local_reports_success_without_output :
  let run := Local.fetch Sample.ora_no_output (Sample.upload "chair.glb") Sample.fresh in
  run.1 = Ret (Response_json [("id", Sample.uuid); ("name", "chair.usdz")] 200 [])
  ∧ effects (trace run.2) =
      [ Spawn ["usd_from_gltf";
               "/usr/app/gltf2usdz/files/0b6e4c1a-5d2f-4e8b-9a37-c1f0d2e4a6b8/chair.glb";
               "/usr/app/gltf2usdz/files/0b6e4c1a-5d2f-4e8b-9a37-c1f0d2e4a6b8/chair.usdz"];
        Write "/usr/app/gltf2usdz/files/0b6e4c1a-5d2f-4e8b-9a37-c1f0d2e4a6b8/chair.glb" ]
  ∧ Fs.exists_ (fs run.2)
      "/usr/app/gltf2usdz/files/0b6e4c1a-5d2f-4e8b-9a37-c1f0d2e4a6b8/chair.usdz" = false.
Proof. vm_compute. repeat split. Qed.

(** C4 (the code departs from it). An upload called
    [robot.glb.v2.glb] passes the extension check and is stored; its
    extension is [.glb], but [replace] rewrites the first occurrence of
    [.glb]: the converter is told to write [robot.usdz.v2.glb], not the
    input path with its trailing extension replaced, while the name handed
    back is [robot.glb.v2.usdz]. *)
Theorem convertFile_replaces_first_occurrence :
  let input := "/usr/app/gltf2usdz/files/0b6e4c1a-5d2f-4e8b-9a37-c1f0d2e4a6b8/robot.glb.v2.glb" in
  let run := Local.fetch Sample.ora_ok (Sample.upload "robot.glb.v2.glb") Sample.fresh in
  Path.ext (Path.parse input) = ".glb"
  ∧ run.1 = Ret (Response_json [("id", Sample.uuid); ("name", "robot.glb.v2.usdz")] 200 [])
  ∧ effects (trace run.2) =
      [ Spawn ["usd_from_gltf"; input;
               "/usr/app/gltf2usdz/files/0b6e4c1a-5d2f-4e8b-9a37-c1f0d2e4a6b8/robot.usdz.v2.glb"];
        Write input ]
  ∧ Fs.exists_ (fs run.2)
      "/usr/app/gltf2usdz/files/0b6e4c1a-5d2f-4e8b-9a37-c1f0d2e4a6b8/robot.usdz.v2.glb" = true
  ∧ Fs.exists_ (fs run.2)
      "/usr/app/gltf2usdz/files/0b6e4c1a-5d2f-4e8b-9a37-c1f0d2e4a6b8/robot.glb.v2.usdz" = false.
Proof. vm_compute. repeat split. Qed.

(** An object without extension, in the cloud revision: [ext] is empty,
    and [replace] puts [.usdz] in front of the whole path. *)
Example convertFile_without_extension :
  (convertFile Sample.ora_ok "/tmp/gltf2usdz/files/7/models/chair" Sample.fresh).1
  = Ret "chair.usdz"
  ∧ effects (trace (convertFile Sample.ora_ok "/tmp/gltf2usdz/files/7/models/chair"
                      Sample.fresh).2)
    = [ Spawn ["usd_from_gltf"; "/tmp/gltf2usdz/files/7/models/chair";
               ".usdz/tmp/gltf2usdz/files/7/models/chair"] ].
Proof. vm_compute. split; reflexivity. Qed.

(** * The local-disk handler *)

Section LocalFacts.
Variable ora : Oracle.

(** C2, as the code has it. An upload whose name ends neither in
    [.gltf] nor in [.glb] is answered with status 500 and the message
    "Error: You must upload a glb/gltf file."; nothing is written and no
    subprocess is spawned: the request only logs two lines. *)
Theorem Local_rejects_other_extensions req st fd n :
  pathname req = "/api/convert" →
  formData req = inr fd →
  FormData_get fd "file" = VFile n →
  Js.endsWith n ".gltf" = false →
  Js.endsWith n ".glb" = false →
  Local.fetch ora req st =
    (Ret (Response_json [("message", "Error: You must upload a glb/gltf file.")] 500 []),
     {| fs := fs st;
        trace := Log "error" "You must upload a glb/gltf file."
                 :: Log "info" ("Converting file " +:+ n +:+ "...")
                 :: trace st;
        var_dir := var_dir st |}).
Proof.
  intros Hp Hfd Hget Hgltf Hglb.
  unfold Local.fetch, Local.convert, req_formData, Local.file_name.
  rewrite Hp, Hfd, String.eqb_refl. exec. rewrite Hget. exec.
  cbn [truthy instanceof_File Local.File_name negb orb default].
  rewrite Hgltf, Hglb. reflexivity.
Qed.

End LocalFacts.

(** C2 as stated fails: uploading [notes.txt] is answered with 500, which
    is not a 4xx status. *)
Lemma Local_txt_upload_is_not_4xx :
  ∃ r, (Local.fetch Sample.ora_ok (Sample.upload "notes.txt") Sample.fresh).1 = Ret r
       ∧ ¬ (400 ≤ status r < 500).
Proof.
  eexists. split; [vm_compute; reflexivity|]. simpl. lia.
Qed.

(** * Strings: prefixes, suffixes and slices *)

Section StringFacts.

Lemma length_app (a b : string) :
  String.length (a +:+ b) = (String.length a + String.length b)%nat.
Proof. induction a as [|c a IH]; simpl; [reflexivity | rewrite IH; reflexivity]. Qed.

Lemma append_assoc (a b c : string) : (a +:+ b) +:+ c = a +:+ (b +:+ c).
Proof.
  induction a as [|x a IH]; [reflexivity | exact (f_equal (String x) IH)].
Qed.

Lemma get_app_r (a b : string) k :
  String.get (String.length a + k) (a +:+ b) = String.get k b.
Proof. induction a as [|c a IH]; simpl; [reflexivity | exact IH]. Qed.

Lemma substring_app_r (a b : string) i n :
  String.substring (String.length a + i) n (a +:+ b) = String.substring i n b.
Proof. induction a as [|c a IH]; simpl; [reflexivity | exact IH]. Qed.

Lemma substring_all (s : string) : String.substring 0 (String.length s) s = s.
Proof. induction s as [|c s IH]; simpl; [reflexivity | rewrite IH; reflexivity]. Qed.

Lemma substring_app_l (a b : string) :
  String.substring 0 (String.length a) (a +:+ b) = a.
Proof.
  induction a as [|c a IH]; simpl; [destruct b; reflexivity | rewrite IH; reflexivity].
Qed.

Lemma replace_unfold s pat rep :
  Js.replace s pat rep =
  if String.prefix pat s then
    rep +:+ String.substring (String.length pat) (String.length s - String.length pat) s
  else match s with
       | EmptyString => EmptyString
       | String c s' => String c (Js.replace s' pat rep)
       end.
Proof. destruct s; reflexivity. Qed.

Lemma append_empty_r (s : string) : s +:+ "" = s.
Proof.
  induction s as [|c s IH]; [reflexivity | exact (f_equal (String c) IH)].
Qed.

Lemma substring_none (s : string) : String.substring (String.length s) 0 s = "".
Proof. induction s as [|c s IH]; [reflexivity | exact IH]. Qed.

Lemma prefix_refl (s : string) : String.prefix s s = true.
Proof. apply String.prefix_correct, substring_all. Qed.

(** Where the pattern first occurs at the very end, [replace] swaps the
    ending. *)
Lemma replace_trailing a pat rep :
  no_earlier pat a = true → Js.replace (a +:+ pat) pat rep = a +:+ rep.
Proof.
  induction a as [|c a IH]; intros H.
  - change ("" +:+ pat) with pat. change ("" +:+ rep) with rep.
    rewrite replace_unfold, prefix_refl, Nat.sub_diag, substring_none.
    apply append_empty_r.
  - cbn [no_earlier] in H. apply andb_true_iff in H as [Hhere Hrest].
    apply negb_true_iff in Hhere.
    change (String c a +:+ pat) with (String c (a +:+ pat)) in *.
    change (String c a +:+ rep) with (String c (a +:+ rep)).
    rewrite replace_unfold, Hhere, (IH Hrest). reflexivity.
Qed.

(** [(s + t).endsWith(t)] *)
Lemma endsWith_app (s t : string) : Js.endsWith (s +:+ t) t = true.
Proof.
  unfold Js.endsWith. rewrite length_app.
  destruct (Nat.leb_spec (String.length t) (String.length s + String.length t)); [|lia].
  replace (String.length s + String.length t - String.length t)%nat
    with (String.length s + 0)%nat by lia.
  rewrite substring_app_r, substring_all. apply String.eqb_refl.
Qed.

(** Slicing behind a prefix is slicing the rest. *)
Lemma slice_app_r (a b : string) (x y : Z) :
  0 ≤ x → 0 ≤ y →
  Js.slice (a +:+ b) (Z.of_nat (String.length a) + x) (Z.of_nat (String.length a) + y)
  = Js.slice b x y.
Proof.
  intros Hx Hy. unfold Js.slice. rewrite length_app.
  destruct (Z.ltb_spec (Z.of_nat (String.length a) + x) 0); [lia|].
  destruct (Z.ltb_spec (Z.of_nat (String.length a) + y) 0); [lia|].
  destruct (Z.ltb_spec x 0); [lia|].
  destruct (Z.ltb_spec y 0); [lia|].
  set (la := String.length a). set (lb := String.length b).
  replace (Z.to_nat (Z.min (Z.of_nat la + x) (Z.of_nat (la + lb))))
    with (la + Z.to_nat (Z.min x (Z.of_nat lb)))%nat by lia.
  replace (Z.to_nat (Z.min (Z.of_nat la + y) (Z.of_nat (la + lb))
                     - Z.min (Z.of_nat la + x) (Z.of_nat (la + lb))))
    with (Z.to_nat (Z.min y (Z.of_nat lb) - Z.min x (Z.of_nat lb))) by lia.
  apply substring_app_r.
Qed.

End StringFacts.

(** * [path.parse] looks at the last component only *)

Module PathFacts.
Import Path PathSpec.

Lemma wf_scan0 : wf scan0.
Proof. unfold wf, scan0; simpl. repeat split; [lia | lia | intros H; contradiction]. Qed.

(** Settle every integer test the context decides. *)
Ltac ztests :=
  repeat match goal with
  | |- context [Z.eqb ?a ?b] =>
    first [ replace (Z.eqb a b) with true by (symmetry; apply Z.eqb_eq; lia)
          | replace (Z.eqb a b) with false by (symmetry; apply Z.eqb_neq; lia) ]
  end;
  cbn [negb andb orb startDot startPart end_ matchedSlash preDotState].

Ltac scan_cases s :=
  destruct s as [sd sp e m p];
  cbn [startDot startPart end_ matchedSlash preDotState] in *;
  destruct (Z.eq_dec e (-1)), (Z.eq_dec sd (-1)), (Z.eq_dec p 1); subst.

Lemma see_seen c i s :
  0 ≤ i → wf s →
  wf (see c i s) ∧ end_ (see c i s) ≠ -1 ∧ matchedSlash (see c i s) = false
  ∧ startPart (see c i s) = startPart s.
Proof.
  intros Hi (Hd & He & Hm). unfold see, wf.
  scan_cases s; destruct (Ascii.eqb c CHAR_DOT); ztests; ztests;
    repeat split; first [lia | auto].
Qed.

Lemma see_shift c i n s :
  0 ≤ i → 0 ≤ n → wf s → see c (i + n) (shift n s) = shift n (see c i s).
Proof.
  intros Hi Hn (Hd & He & _). unfold see, shift.
  scan_cases s; destruct (Ascii.eqb c CHAR_DOT); ztests; ztests; ztests;
    first [reflexivity | f_equal; lia].
Qed.

Lemma get_slash_free base j c :
  slash_free base = true → String.get j base = Some c →
  Ascii.eqb c CHAR_FORWARD_SLASH = false.
Proof.
  revert j. induction base as [|b base IH]; intros j Hf Hg; [discriminate|].
  simpl in Hf. apply andb_true_iff in Hf as [Hb Hf].
  destruct j as [|j]; simpl in Hg.
  - injection Hg as <-. apply negb_true_iff, Hb.
  - exact (IH j Hf Hg).
Qed.

Lemma get_in_range (s : string) j :
  (j < String.length s)%nat → ∃ c, String.get j s = Some c.
Proof.
  revert j. induction s as [|b s IH]; intros j Hj; simpl in Hj; [lia|].
  destruct j as [|j]; simpl; [eauto | apply IH; lia].
Qed.

Section Component.
Variables (d base : string) (start : nat).
Hypothesis Hfree : slash_free base = true.
Hypothesis Hstart : (start ≤ String.length d)%nat.

Let path := d +:+ "/" +:+ base.
Let n := S (String.length d).

Lemma get_path j : String.get (n + j) path = String.get j base.
Proof.
  unfold path, n. replace (S (String.length d) + j)%nat
    with (String.length d + S j)%nat by lia.
  rewrite get_app_r. reflexivity.
Qed.

(** Scanning the last component inside [path] is scanning it alone. *)
Lemma scan_component j s :
  (j ≤ String.length base)%nat → wf s →
  scan path start (n + j) (shift (Z.of_nat n) s)
  = scan path start n (shift (Z.of_nat n) (scan base 0 j s)).
Proof.
  revert s. induction j as [|j IH]; intros s Hj Hwf.
  - rewrite Nat.add_0_r. reflexivity.
  - replace (n + S j)%nat with (S (n + j)) by lia.
    destruct (get_in_range base j) as [c Hc]; [lia|].
    pose proof (get_slash_free _ _ _ Hfree Hc) as Hns.
    cbn [scan]. rewrite get_path, Hc, Hns.
    destruct (Nat.ltb_spec (n + j) start); [unfold n in *; lia|].
    destruct (Nat.ltb_spec j 0); [lia|].
    replace (Z.of_nat (n + j)) with (Z.of_nat j + Z.of_nat n) by lia.
    rewrite see_shift by (auto; lia).
    apply IH; [lia|]. apply see_seen; [lia | exact Hwf].
Qed.

Lemma scan_alone j s :
  (j ≤ String.length base)%nat → wf s →
  wf (scan base 0 j s)
  ∧ startPart (scan base 0 j s) = startPart s
  ∧ ((0 < j)%nat → end_ (scan base 0 j s) ≠ -1 ∧ matchedSlash (scan base 0 j s) = false).
Proof.
  revert s. induction j as [|j IH]; intros s Hj Hwf.
  - simpl. repeat split; try apply Hwf; lia.
  - destruct (get_in_range base j) as [c Hc]; [lia|].
    pose proof (get_slash_free _ _ _ Hfree Hc) as Hns.
    cbn [scan]. rewrite Hc, Hns.
    destruct (Nat.ltb_spec j 0); [lia|].
    destruct (see_seen c (Z.of_nat j) s) as (Hwf' & He & Hm & Hp); [lia | exact Hwf |].
    destruct (IH (see c (Z.of_nat j) s)) as (Hwf'' & Hp' & Hlast); [lia | exact Hwf' |].
    split; [exact Hwf''|]. split; [congruence|]. intros _.
    destruct j as [|j]; [simpl; auto|]. apply Hlast. lia.
Qed.

(** The whole loop over [path]: the component's own scan, moved to where
    the component starts, and stopped by the separator before it. *)
Lemma scan_path :
  base ≠ "" →
  let sf := scan base 0 (String.length base) scan0 in
  scan path start (String.length path) scan0
  = {| startDot := startDot (shift (Z.of_nat n) sf);
       startPart := Z.of_nat n;
       end_ := end_ (shift (Z.of_nat n) sf);
       matchedSlash := false;
       preDotState := preDotState sf |}
  ∧ wf sf ∧ startPart sf = 0 ∧ end_ sf ≠ -1.
Proof.
  intros Hne sf.
  assert (0 < String.length base)%nat as Hlen by (destruct base; [contradiction | simpl; lia]).
  destruct (scan_alone (String.length base) scan0) as (Hwf & Hsp & Hlast);
    [lia | exact wf_scan0 |].
  destruct (Hlast Hlen) as [Hend Hms]. fold sf in Hwf, Hsp, Hend, Hms.
  split; [|auto].
  replace (String.length path) with (n + String.length base)%nat
    by (unfold path, n; rewrite !length_app; simpl; lia).
  change scan0 with (shift (Z.of_nat n) scan0) at 1.
  rewrite scan_component by (auto using wf_scan0). fold sf.
  unfold n at 1. cbn [scan].
  destruct (Nat.ltb_spec (String.length d) start); [lia|].
  replace (String.get (String.length d) path) with (Some CHAR_FORWARD_SLASH).
  2:{ unfold path. rewrite <- (Nat.add_0_r (String.length d)) at 1.
      rewrite get_app_r. reflexivity. }
  change (Ascii.eqb CHAR_FORWARD_SLASH CHAR_FORWARD_SLASH) with true.
  cbn [shift matchedSlash]. rewrite Hms. cbn [negb].
  cbn [startDot end_ preDotState]. f_equal. unfold n. lia.
Qed.

End Component.

(** The name, the extension and the base of a path are those of its last
    component; its directory is what stands before the last separator. *)
Theorem parse_component d base :
  d ≠ "" → base ≠ "" → slash_free base = true →
  name (parse (d +:+ "/" +:+ base)) = name (parse base)
  ∧ ext (parse (d +:+ "/" +:+ base)) = ext (parse base)
  ∧ Path.base (parse (d +:+ "/" +:+ base)) = Path.base (parse base)
  ∧ dir (parse (d +:+ "/" +:+ base)) = d.
Proof.
  intros Hd Hb Hfree.
  destruct d as [|c0 d']; [contradiction|].
  destruct base as [|b0 base']; [contradiction|].
  set (dd := String c0 d'). set (bb := String b0 base').
  set (start := if Ascii.eqb c0 CHAR_FORWARD_SLASH then 1%nat else 0%nat).
  assert (start ≤ String.length dd)%nat as Hstart
    by (unfold start, dd; destruct (Ascii.eqb c0 CHAR_FORWARD_SLASH); simpl; lia).
  destruct (scan_path dd bb start Hfree Hstart Hb) as (Hscan & Hwf & Hsp & Hend).
  assert (Ascii.eqb b0 CHAR_FORWARD_SLASH = false) as Hb0
    by (simpl in Hfree; apply andb_true_iff in Hfree as [H _]; apply negb_true_iff, H).
  set (n := Z.of_nat (S (String.length dd))) in *.
  assert (1 ≤ n) as Hn by (unfold n; lia).
  assert (parse (dd +:+ "/" +:+ bb) =
          let s := scan (dd +:+ "/" +:+ bb) start (String.length (dd +:+ "/" +:+ bb)) scan0 in
          let isAbsolute := Ascii.eqb c0 CHAR_FORWARD_SLASH in
          let root_ := if isAbsolute then "/" else "" in
          let dir_ :=
            if 0 <? startPart s then Js.slice (dd +:+ "/" +:+ bb) 0 (startPart s - 1)
            else if isAbsolute then "/" else "" in
          if negb (end_ s =? -1) then
            let start' := if (startPart s =? 0) && isAbsolute then 1 else startPart s in
            if (startDot s =? -1) || (preDotState s =? 0) ||
               ((preDotState s =? 1) && (startDot s =? end_ s - 1)
                  && (startDot s =? startPart s + 1)) then
              let b := Js.slice (dd +:+ "/" +:+ bb) start' (end_ s) in
              {| root := root_; dir := dir_; base := b; ext := ""; name := b |}
            else
              {| root := root_; dir := dir_;
                 base := Js.slice (dd +:+ "/" +:+ bb) start' (end_ s);
                 ext := Js.slice (dd +:+ "/" +:+ bb) (startDot s) (end_ s);
                 name := Js.slice (dd +:+ "/" +:+ bb) start' (startDot s) |}
          else {| root := root_; dir := dir_; base := ""; ext := ""; name := "" |}) as ->
    by reflexivity.
  assert (parse bb =
          let s := scan bb 0 (String.length bb) scan0 in
          if negb (end_ s =? -1) then
            let start' := startPart s in
            if (startDot s =? -1) || (preDotState s =? 0) ||
               ((preDotState s =? 1) && (startDot s =? end_ s - 1)
                  && (startDot s =? startPart s + 1)) then
              let b := Js.slice bb start' (end_ s) in
              {| root := ""; dir := if 0 <? startPart s then Js.slice bb 0 (startPart s - 1) else "";
                 base := b; ext := ""; name := b |}
            else
              {| root := ""; dir := if 0 <? startPart s then Js.slice bb 0 (startPart s - 1) else "";
                 base := Js.slice bb start' (end_ s);
                 ext := Js.slice bb (startDot s) (end_ s);
                 name := Js.slice bb start' (startDot s) |}
          else {| root := ""; dir := if 0 <? startPart s then Js.slice bb 0 (startPart s - 1) else "";
                  base := ""; ext := ""; name := "" |}) as ->.
  { unfold parse, bb. rewrite Hb0. cbn [andb]. rewrite andb_false_r. reflexivity. }
  cbv zeta. rewrite Hscan. clear Hscan.
  set (sf := scan bb 0 (String.length bb) scan0) in *.
  assert (∀ x y, 0 ≤ x → 0 ≤ y →
            Js.slice (dd +:+ "/" +:+ bb) (n + x) (n + y) = Js.slice bb x y) as Hslice.
  { intros x y Hx Hy.
    rewrite <- append_assoc.
    replace n with (Z.of_nat (String.length (dd +:+ "/")))
      by (unfold n; rewrite length_app; simpl; lia).
    apply slice_app_r; assumption. }
  destruct Hwf as (Hsd & He & _).
  unfold shift. cbn [startDot startPart end_ matchedSlash preDotState].
  destruct sf as [sd sp e m p].
  cbn [startDot startPart end_ matchedSlash preDotState] in *. subst sp.
  assert (dir_ok : Js.slice (dd +:+ "/" +:+ bb) 0 (n - 1) = dd).
  { unfold Js.slice, n. rewrite length_app.
    replace (0 <? 0) with false by reflexivity.
    destruct (Z.ltb_spec (Z.of_nat (S (String.length dd)) - 1) 0); [lia|].
    replace (Z.to_nat (Z.min 0 _)) with 0%nat by lia.
    replace (Z.to_nat (_ - _)) with (String.length dd) by lia.
    apply substring_app_l. }
  destruct (Z.eq_dec sd (-1)), (Z.eq_dec p 0), (Z.eq_dec p 1),
           (Z.eq_dec sd (e - 1)), (Z.eq_dec sd 1); subst;
    ztests; ztests; ztests;
    replace (0 <? n) with true by (symmetry; apply Z.ltb_lt; lia);
    cbn [name ext Path.base dir];
    rewrite ?dir_ok;
    repeat split;
    try (rewrite <- (Hslice 0 _) by lia; f_equal; lia);
    try (rewrite <- (Hslice _ _) by lia; f_equal; lia).
Qed.

End PathFacts.

Example parse_component_chair id :
  Path.name (Path.parse (("/srv/files" +:+ "/" +:+ id) +:+ "/" +:+ "chair.glb")) = "chair".
Proof.
  destruct (PathFacts.parse_component ("/srv/files" +:+ "/" +:+ id) "chair.glb")
    as (-> & _); [discriminate | discriminate | reflexivity | reflexivity].
Qed.

(** * Successful conversions in the local variant *)

Section LocalSuccess.
Variable ora : Oracle.

Lemma yields_convertFile filepath :
  yields (λ n, n = Path.name (Path.parse filepath) +:+ ".usdz") (convertFile ora filepath).
Proof.
  unfold convertFile.
  repeat first
    [ apply yields_ret; reflexivity
    | apply yields_bind; intros ? ].
Qed.

Lemma yields_usdz_convert req :
  yields (λ r, status r = 200 →
               ∃ n, json_field "name" r = Some n ∧ Js.endsWith n ".usdz" = true)
         (Local.convert ora req).
Proof.
  unfold Local.convert. apply yields_try_catch.
  - apply yields_bind; intros fd.
    apply yields_bind; intros n.
    apply yields_bind; intros _.
    case_match; [apply yields_throw|].
    apply yields_bind; intros _.
    eapply yields_bind_with; [apply yields_convertFile|].
    intros name ->. apply yields_ret. intros _.
    eexists. split; [reflexivity | apply endsWith_app].
  - intros e. apply yields_bind; intros _. apply yields_ret. discriminate.
Qed.

(** The path the upload is stored at, seen as directory and file name. *)
Lemma Local_filename id n :
  Local.FILES_FOLDER +:+ "/" +:+ id +:+ "/" +:+ n
  = (Local.FILES_FOLDER +:+ "/" +:+ id) +:+ "/" +:+ n.
Proof. rewrite !append_assoc. reflexivity. Qed.

Lemma Local_converts_chair req st fd :
  pathname req = "/api/convert" →
  formData req = inr fd →
  FormData_get fd "file" = VFile "chair.glb" →
  write_fails ora (Local.FILES_FOLDER +:+ "/" +:+ randomUUID ora +:+ "/" +:+ "chair.glb") = None →
  (∀ argv, ∃ res, spawn_result ora argv = inr res) →
  ∃ st', Local.fetch ora req st =
           (Ret (Response_json [("id", randomUUID ora); ("name", "chair.usdz")] 200 []), st').
Proof.
  intros Hp Hfd Hget Hw Hspawn.
  unfold Local.fetch, Local.convert, req_formData, Local.file_name.
  rewrite Hp, Hfd, String.eqb_refl. exec. rewrite Hget. exec.
  cbn [truthy instanceof_File Local.File_name negb orb default].
  change (Js.endsWith "chair.glb" ".gltf") with false.
  change (Js.endsWith "chair.glb" ".glb") with true.
  cbn [negb orb]. unfold Bun_write. exec. rewrite Hw. exec.
  match goal with |- context [convertFile ora ?p ?s] =>
    destruct (Hspawn ["usd_from_gltf"; p; Js.replace p (Path.ext (Path.parse p)) ".usdz"])
      as [res Hres];
    destruct (convertFile_returns ora p s res Hres) as [st' ->]
  end.
  rewrite Local_filename.
  destruct (PathFacts.parse_component
              (Local.FILES_FOLDER +:+ "/" +:+ randomUUID ora) "chair.glb")
    as (-> & _); [discriminate | discriminate | reflexivity |].
  eexists. reflexivity.
Qed.

(** What a 200 answer names, for an upload called [n]. *)
Lemma yields_stem_convert req fd n :
  formData req = inr fd →
  FormData_get fd "file" = VFile n →
  n ≠ "" →
  PathSpec.slash_free n = true →
  yields (λ r, status r = 200 →
               json_field "name" r = Some (Path.name (Path.parse n) +:+ ".usdz"))
         (Local.convert ora req).
Proof.
  intros Hfd Hget Hn Hfree.
  unfold Local.convert, req_formData. rewrite Hfd.
  apply yields_try_catch.
  - eapply (yields_bind_with (λ a, a = fd)); [apply yields_ret; reflexivity|].
    intros a Ha. subst a. rewrite Hget.
    apply yields_bind; intros shown.
    apply yields_bind; intros _.
    case_match; [apply yields_throw|].
    apply yields_bind; intros _.
    eapply yields_bind_with; [apply yields_convertFile|].
    intros name ->. apply yields_ret. intros _.
    cbn [Local.File_name]. rewrite Local_filename.
    destruct (PathFacts.parse_component
                (Local.FILES_FOLDER +:+ "/" +:+ randomUUID ora) n)
      as (-> & _); [discriminate | exact Hn | exact Hfree |].
    reflexivity.
  - intros e. apply yields_bind; intros _. apply yields_ret. discriminate.
Qed.

(** C7. In the local variant every 200 answer of [/api/convert] carries
    a [name] that ends in [.usdz]. For an upload called [chair.glb] a 200
    answer carries [name: "chair.usdz"] whatever the request id, and that
    answer is given as soon as the file could be stored and the converter
    could be started. *)
Theorem Local_success_names_usdz :
  (∀ req st r st',
     pathname req = "/api/convert" →
     Local.fetch ora req st = (Ret r, st') →
     status r = 200 →
     ∃ n, json_field "name" r = Some n ∧ Js.endsWith n ".usdz" = true)
  ∧ (∀ req st fd r st',
       pathname req = "/api/convert" →
       formData req = inr fd →
       FormData_get fd "file" = VFile "chair.glb" →
       Local.fetch ora req st = (Ret r, st') →
       status r = 200 →
       json_field "name" r = Some "chair.usdz")
  ∧ (∀ req st fd,
       pathname req = "/api/convert" →
       formData req = inr fd →
       FormData_get fd "file" = VFile "chair.glb" →
       write_fails ora (Local.FILES_FOLDER +:+ "/" +:+ randomUUID ora +:+ "/" +:+ "chair.glb") = None →
       (∀ argv, ∃ res, spawn_result ora argv = inr res) →
       ∃ r st', Local.fetch ora req st = (Ret r, st')
                ∧ status r = 200
                ∧ json_field "name" r = Some "chair.usdz").
Proof.
  split; [|split].
  - intros req st r st' Hp Hrun Hok.
    unfold Local.fetch in Hrun. rewrite Hp, String.eqb_refl in Hrun.
    exact (yields_usdz_convert req st r st' Hrun Hok).
  - intros req st fd r st' Hp Hfd Hget Hrun Hok.
    unfold Local.fetch in Hrun. rewrite Hp, String.eqb_refl in Hrun.
    refine (yields_stem_convert req fd "chair.glb" Hfd Hget _ _ st r st' Hrun Hok);
      [discriminate | reflexivity].
  - intros req st fd Hp Hfd Hget Hw Hspawn.
    destruct (Local_converts_chair req st fd Hp Hfd Hget Hw Hspawn) as [st' Hrun].
    eexists _, st'. split; [exact Hrun|]. split; reflexivity.
Qed.

End LocalSuccess.

(** * The URL the SDK signs *)

Section SignedUrls.
Variable cfg : Config.
Variable ora : Oracle.

Lemma yields_getSignedUrl b o :
  yields (λ url, sign_result ora b o (Date_now ora + 3600000) = inr url)
         (getSignedUrl cfg ora b o).
Proof.
  intros st url st' Hrun.
  destruct (storage cfg) as [client|] eqn:Hst.
  - rewrite (getSignedUrl_initialized cfg ora b o st client Hst) in Hrun.
    destruct (sign_result ora b o (Date_now ora + 3600000)); congruence.
  - rewrite getSignedUrl_uninitialized in Hrun by exact Hst. discriminate.
Qed.

End SignedUrls.

(** * Clean-up of the per-request directory *)



Lemma made_dir_app a b : made_dir (a ++ b) = made_dir a || made_dir b.
Proof. apply existsb_app. Qed.

Lemma nonempty_dir a b : Js.nonempty (Some (a +:+ "/" +:+ b)) = true.
Proof. induction a as [|c a IH]; reflexivity. Qed.

Lemma remove_tree_gone d files p : Fs.under d p = true → p ∉ Fs.remove_tree d files.
Proof.
  intros Hu Hin. unfold Fs.remove_tree in Hin.
  apply elem_of_filter in Hin as [Hkeep _]. congruence.
Qed.

Lemma under_self d : Fs.under d d = true.
Proof. unfold Fs.under. rewrite String.eqb_refl. reflexivity. Qed.

(** ** What a computation may do to the trace and to [dir] *)

Section Appends.
Variable ok : list Event → Prop.
Hypothesis ok_nil : ok [].
Hypothesis ok_app : ∀ a b, ok a → ok b → ok (b ++ a).

Lemma appends_ret {A} (a : A) : appends ok (ret a).
Proof. intros st. exists []. auto. Qed.

Lemma appends_throw {A} e : appends ok (@throw A e).
Proof. intros st. exists []. auto. Qed.

Lemma appends_get_fs : appends ok get_fs.
Proof. intros st. exists []. auto. Qed.

Lemma appends_set_fs files : appends ok (set_fs files).
Proof. intros st. exists []. auto. Qed.

Lemma appends_fail_if o : appends ok (fail_if o).
Proof. destruct o; [apply appends_throw | apply appends_ret]. Qed.

Lemma appends_emit e : ok [e] → appends ok (emit e).
Proof. intros He st. exists [e]. auto. Qed.

Lemma appends_bind {A B} (m : M A) (k : A → M B) :
  appends ok m → (∀ a, appends ok (k a)) → appends ok (m ≫= k).
Proof.
  intros Hm Hk st. unfold mbind, M_bind, bind.
  destruct (Hm st) as (evs & Ht & Hd & Hok).
  destruct (m st) as [[a|e] st1]; cbn [snd] in *; [|eauto].
  destruct (Hk a st1) as (evs' & Ht' & Hd' & Hok').
  exists (evs' ++ evs). rewrite Ht', Ht, Hd', Hd, app_assoc. auto.
Qed.

Lemma appends_try_catch {A} (m : M A) h :
  appends ok m → (∀ e, appends ok (h e)) → appends ok (try_catch m h).
Proof.
  intros Hm Hh st. unfold try_catch.
  destruct (Hm st) as (evs & Ht & Hd & Hok).
  destruct (m st) as [[a|e] st1]; cbn [snd] in *; [eauto|].
  destruct (Hh e st1) as (evs' & Ht' & Hd' & Hok').
  exists (evs' ++ evs). rewrite Ht', Ht, Hd', Hd, app_assoc. auto.
Qed.

End Appends.

Lemma no_mkdir_app a b : no_mkdir a → no_mkdir b → no_mkdir (b ++ a).
Proof. unfold no_mkdir. intros Ha Hb. rewrite made_dir_app, Ha, Hb. reflexivity. Qed.

Ltac appends_any :=
  repeat first
    [ apply appends_ret; exact I
    | apply appends_throw; exact I
    | apply appends_get_fs; exact I
    | apply appends_set_fs; exact I
    | apply appends_fail_if; exact I
    | apply appends_emit; exact I
    | apply appends_bind; [intros; exact I | | intros ?]
    | case_match ].

Section Services.
Variable cfg : Config.
Variable ora : Oracle.

Lemma appends_logger ok level msg : ok [Log level msg] → appends ok (logger level msg).
Proof. apply appends_emit. Qed.

Lemma appends_mkdir p : appends any_events (mkdir ora p).
Proof. unfold mkdir. appends_any. Qed.

Lemma appends_convertFile p : appends any_events (convertFile ora p).
Proof. unfold convertFile, Bun_spawnSync, BunFile_exists, logger. appends_any. Qed.

Lemma appends_downloadFromGCS b o p : appends any_events (downloadFromGCS cfg ora b o p).
Proof. unfold downloadFromGCS. appends_any. Qed.

Lemma appends_uploadToGCS b l o : appends any_events (uploadToGCS cfg ora b l o).
Proof. unfold uploadToGCS. appends_any. Qed.

Lemma appends_getSignedUrl b o : appends any_events (getSignedUrl cfg ora b o).
Proof. unfold getSignedUrl. appends_any. Qed.

Lemma appends_req_formData req : appends no_mkdir (req_formData req).
Proof.
  unfold req_formData.
  destruct (formData req); [apply appends_throw | apply appends_ret]; reflexivity.
Qed.

End Services.

Section CloudCleanup.
Variable cfg : Config.
Variable ora : Oracle.

Let d : string := FILES_FOLDER cfg +:+ "/" +:+ randomUUID ora.

(** The [finally] block when the directory variable is set: one [rm] is
    attempted and one line is logged, "cleaned up" when the promise
    resolved and a warning when it rejected; on disk is what the [rm]
    left. *)
Lemma cleanup_set st :
  var_dir st = Some d →
  ∃ st',
    Cloud.cleanup ora st = (Ret tt, st')
    ∧ trace st'
      = [ match rm_fails ora d with
          | None => Log "info" ("Cleaned up temporary directory " +:+ d)
          | Some e => Log "warn" ("Failed to remove temp directory " +:+ d +:+ ": "
                                    +:+ String_ e)
          end;
          Rm d ] ++ trace st
    ∧ fs st' = Fs.remove_but (rm_leaves ora d) d (fs st)
    ∧ var_dir st' = var_dir st.
Proof.
  intros Hd. unfold Cloud.cleanup. exec. rewrite Hd.
  unfold d at 1. rewrite nonempty_dir. fold d.
  change (default "" (Some d)) with d.
  exec_io. destruct (rm_fails ora d) as [e|];
    eexists; (split; [reflexivity|]); repeat split; exact Hd.
Qed.


Lemma remove_but_tree keep dir files :
  Fs.remove_tree dir files ⊆ Fs.remove_but keep dir files.
Proof.
  intros p Hp. unfold Fs.remove_tree in Hp. apply elem_of_filter in Hp as [Hout Hp].
  apply elem_of_filter. auto.
Qed.

(** ... and when it is still [null]: nothing happens. *)
Lemma cleanup_unset st :
  var_dir st = None → Cloud.cleanup ora st = (Ret tt, st).
Proof. intros Hd. unfold Cloud.cleanup. exec. rewrite Hd. reflexivity. Qed.

Lemma marks_quiet {A} (m : M A) : appends no_mkdir m → marks cfg ora m.
Proof. intros Hm st. destruct (Hm st) as (evs & Ht & Hd & Hok). eauto. Qed.

Lemma marks_bind {A B} (m : M A) (k : A → M B) :
  appends no_mkdir m → (∀ a, marks cfg ora (k a)) → marks cfg ora (m ≫= k).
Proof.
  intros Hm Hk st. unfold mbind, M_bind, bind.
  destruct (Hm st) as (evs & Ht & Hd & Hok).
  destruct (m st) as [[a|e] st1]; cbn [snd] in *; [|eauto].
  destruct (Hk a st1) as (evs' & Ht' & Hcase).
  exists (evs' ++ evs). rewrite Ht', Ht, app_assoc. split; [reflexivity|].
  destruct Hcase as [[Hq Hv]|Hv]; [left | right; exact Hv].
  rewrite made_dir_app, Hq, Hv, Hd. auto.
Qed.

Lemma marks_set_dir {A} (k : M A) :
  appends any_events k → marks cfg ora (set_dir (Some d);; k).
Proof.
  intros Hk st. unfold mbind, M_bind, bind, set_dir.
  destruct (Hk {| fs := fs st; trace := trace st; var_dir := Some d |})
    as (evs & Ht & Hd & _).
  exists evs. split; [exact Ht | right; exact Hd].
Qed.

Lemma marks_try_catch {A} (m : M A) h :
  marks cfg ora m → (∀ e, appends no_mkdir (h e)) → marks cfg ora (try_catch m h).
Proof.
  intros Hm Hh st. unfold try_catch.
  destruct (Hm st) as (evs & Ht & Hcase).
  destruct (m st) as [[a|e] st1]; cbn [snd] in *; [eauto|].
  destruct (Hh e st1) as (evs' & Ht' & Hd' & Hok').
  exists (evs' ++ evs). rewrite Ht', Ht, app_assoc. split; [reflexivity|].
  rewrite Hd'. destruct Hcase as [[Hq Hv]|Hv]; [left | right; exact Hv].
  rewrite made_dir_app, Hq, Hok'. auto.
Qed.

Lemma marks_convert_body req : marks cfg ora (Cloud.convert_body cfg ora req).
Proof.
  unfold Cloud.convert_body. fold d.
  case_match; [apply marks_quiet, appends_ret; reflexivity|].
  apply marks_bind; [apply appends_req_formData|]. intros fd.
  case_match; [apply marks_quiet, appends_ret; reflexivity|].
  case_match; [apply marks_quiet, appends_ret; reflexivity|].
  apply marks_set_dir.
  repeat first
    [ apply appends_ret; exact I
    | apply appends_logger; exact I
    | apply appends_mkdir
    | apply appends_convertFile
    | apply appends_downloadFromGCS
    | apply appends_uploadToGCS
    | apply appends_getSignedUrl
    | apply appends_bind; [intros; exact I | | intros ?] ].
Qed.

Lemma total_attempt req : total (attempt cfg ora req).
Proof.
  apply total_try_catch. intros e.
  apply total_bind; [apply total_logger | intros _; apply total_ret].
Qed.

(** The [try] block with its [catch] always ends with a response, and it
    has either made no directory or set the variable to [d]. *)
Lemma attempt_spec req st :
  ∃ r st1 evs,
    attempt cfg ora req st = (Ret r, st1)
    ∧ trace st1 = evs ++ trace st
    ∧ ((made_dir evs = false ∧ var_dir st1 = var_dir st) ∨ var_dir st1 = Some d).
Proof.
  destruct (total_attempt req st) as (r & st1 & Hrun).
  assert (marks cfg ora (attempt cfg ora req)) as Hm.
  { apply marks_try_catch; [apply marks_convert_body|]. intros e.
    apply appends_bind; [exact no_mkdir_app | |].
    - apply appends_logger. reflexivity.
    - intros _. apply appends_ret. reflexivity. }
  destruct (Hm st) as (evs & Ht & Hcase). rewrite Hrun in Ht, Hcase.
  exists r, st1, evs. auto.
Qed.

End CloudCleanup.

(** * Separators in what [path.parse] returns *)

Section Slashes.
Import Path PathSpec.

Lemma slashes_app a b : slashes (a +:+ b) = (slashes a + slashes b)%nat.
Proof.
  induction a as [|c a IH]; [reflexivity|].
  change (String c a +:+ b) with (String c (a +:+ b)).
  cbn [slashes]. rewrite IH. lia.
Qed.

Lemma clean_substring p a n :
  clean p a (a + n) → slashes (String.substring a n p) = 0%nat.
Proof.
  revert a n. induction p as [|c p IH]; intros a n Hc.
  - destruct a, n; reflexivity.
  - destruct a as [|a].
    + destruct n as [|n]; [reflexivity|]. cbn [String.substring slashes].
      destruct (Ascii.eqb_spec c CHAR_FORWARD_SLASH) as [->|_].
      * exfalso. apply (Hc 0%nat); [lia | reflexivity].
      * rewrite (IH 0%nat n); [reflexivity|].
        intros i Hi. apply (Hc (S i)). lia.
    + cbn [String.substring]. apply IH.
      intros i Hi. apply (Hc (S i)). lia.
Qed.

Lemma clean_slice p lo hi a b :
  clean p lo hi → (hi ≤ String.length p)%nat →
  Z.of_nat lo ≤ a → 0 ≤ b ≤ Z.of_nat hi →
  slashes (Js.slice p a b) = 0%nat.
Proof.
  intros Hc Hhi Ha Hb. unfold Js.slice.
  destruct (Z.ltb_spec a 0); [lia|].
  destruct (Z.ltb_spec b 0); [lia|].
  apply clean_substring. intros i Hi. apply Hc. lia.
Qed.
End Slashes.

Module PathRange.
Import Path PathSpec.

Lemma see_found p i c s :
  String.get i p = Some c →
  Ascii.eqb c CHAR_FORWARD_SLASH = false →
  (i < String.length p)%nat →
  found p (S i) s →
  found p i (see c (Z.of_nat i) s).
Proof.
  intros Hget Hc Hi (Hsp & Hnone & Hsome).
  assert (clean p i (S i)) as Hhere.
  { intros j Hj. replace j with i by lia. rewrite Hget. intros [= ->].
    discriminate Hc. }
  assert (∀ e, clean p (S i) e → clean p i e) as Hext.
  { intros e He j Hj. destruct (Nat.eq_dec j i) as [->|]; [apply Hhere; lia | apply He; lia]. }
  unfold see, found.
  destruct s as [sd sp e m q]. cbn [startDot startPart end_ matchedSlash preDotState] in *.
  subst sp.
  destruct (Z.eq_dec e (-1)) as [->|He].
  - destruct (Hnone eq_refl) as [-> ->].
    destruct (Ascii.eqb c CHAR_DOT); PathFacts.ztests; PathFacts.ztests;
      (split; [reflexivity|]); (split; [lia|]); intros _;
      (split; [reflexivity|]); (split; [lia|]);
      (split; [replace (Z.to_nat (Z.of_nat i + 1)) with (S i) by lia; exact Hhere | lia]).
  - destruct (Hsome He) as (Hm & Hb & Hcl & Hsd).
    destruct (Ascii.eqb c CHAR_DOT), (Z.eq_dec sd (-1)), (Z.eq_dec q 1); subst;
      PathFacts.ztests; PathFacts.ztests;
      (split; [reflexivity|]); (split; [lia|]); intros _;
      (split; [reflexivity|]); (split; [lia|]); (split; [apply Hext, Hcl | lia]).
Qed.

Lemma scan_found p start n s :
  (n ≤ String.length p)%nat → (start ≤ n)%nat →
  found p n s → component p start (scan p start n s).
Proof.
  revert s. induction n as [|i IH]; intros s Hn Hstart Hf.
  - cbn [scan]. destruct Hf as (Hsp & _ & Hsome). intros He.
    destruct (Hsome He) as (_ & Hb & Hcl & Hsd).
    exists 0%nat. repeat split; try lia; auto.
  - cbn [scan]. destruct (Nat.ltb_spec i start).
    + destruct Hf as (Hsp & _ & Hsome). intros He.
      destruct (Hsome He) as (_ & Hb & Hcl & Hsd).
      exists (S i). repeat split; try lia; auto.
    + destruct (PathFacts.get_in_range p i) as [c Hget]; [lia|]. rewrite Hget.
      destruct (Ascii.eqb c CHAR_FORWARD_SLASH) eqn:Hc.
      * destruct Hf as (Hsp & Hnone & Hsome).
        destruct (matchedSlash s) eqn:Hm; cbn [negb].
        -- apply IH; [lia | lia |]. split; [exact Hsp|].
           split; [intros He; rewrite Hm; apply Hnone, He|].
           intros He. destruct (Hsome He) as [Hm' _]. discriminate.
        -- intros He. cbn [end_] in He. destruct (Hsome He) as (_ & Hb & Hcl & Hsd).
           exists (S i). cbn [startDot startPart end_].
           repeat split; try lia; auto.
      * apply IH; [lia | lia |]. apply see_found; auto.
Qed.

Lemma found_scan0 p n : found p n scan0.
Proof.
  unfold found, scan0; cbn. split; [reflexivity|]. split; [auto|]. intros H; contradiction.
Qed.

(** Neither the name, nor the extension, nor the base that [parse]
    returns holds a separator. *)
Theorem parse_clean p :
  slashes (name (parse p)) = 0%nat
  ∧ slashes (ext (parse p)) = 0%nat
  ∧ slashes (base (parse p)) = 0%nat.
Proof.
  destruct p as [|c0 p']; [repeat split|].
  set (p := String c0 p').
  set (start := if Ascii.eqb c0 CHAR_FORWARD_SLASH then 1%nat else 0%nat).
  assert (start ≤ String.length p)%nat as Hstart
    by (unfold start, p; destruct (Ascii.eqb c0 CHAR_FORWARD_SLASH); simpl; lia).
  pose proof (scan_found p start (String.length p) scan0 (Nat.le_refl _) Hstart
                (found_scan0 p _)) as Hcomp.
  unfold parse, p. cbv zeta. fold p. fold start.
  set (s := scan p start (String.length p) scan0) in *.
  destruct (Z.eq_dec (end_ s) (-1)) as [He|He].
  { rewrite He. repeat split. }
  replace (end_ s =? -1) with false by (symmetry; apply Z.eqb_neq, He).
  cbn [negb].
  destruct (Hcomp He) as (lo & Hlo0 & Hlo1 & Hb & Hcl & Hsd).
  assert ((if (startPart s =? 0) && Ascii.eqb c0 CHAR_FORWARD_SLASH then 1 else startPart s)
          = Z.of_nat lo) as ->.
  { destruct (Z.eq_dec (startPart s) 0) as [H0|H0].
    - rewrite H0, (Hlo0 H0). unfold start.
      destruct (Ascii.eqb c0 CHAR_FORWARD_SLASH); reflexivity.
    - replace (startPart s =? 0) with false by (symmetry; apply Z.eqb_neq, H0).
      apply Hlo1, H0. }
  assert (Z.to_nat (end_ s) ≤ String.length p)%nat as Hhi by lia.
  destruct (Z.eq_dec (startDot s) (-1)) as [Hd|Hd].
  { rewrite Hd. cbn [Z.eqb orb name ext base].
    repeat split; try reflexivity; apply (clean_slice p lo (Z.to_nat (end_ s))); auto; lia. }
  destruct Hsd as [Hsd|Hsd]; [contradiction|].
  case_match; cbn [name ext base];
    repeat split; try reflexivity;
    apply (clean_slice p lo (Z.to_nat (end_ s))); auto; lia.
Qed.

End PathRange.

(** * Partial correctness with a state *)

Section Triples.

Lemma triple_ret {A} (P : State → Prop) (a : A) (Q : A → State → Prop) :
  (∀ st, P st → Q a st) → triple P (ret a) Q.
Proof. intros H st HP. apply H, HP. Qed.

Lemma triple_throw {A} P e (Q : A → State → Prop) : triple P (throw e) Q.
Proof. intros st HP. exact I. Qed.

Lemma triple_bind {A B} P (R : A → State → Prop) (Q : B → State → Prop)
    (m : M A) (k : A → M B) :
  triple P m R → (∀ a, triple (R a) (k a) Q) → triple P (m ≫= k) Q.
Proof.
  intros Hm Hk st HP. unfold mbind, M_bind, bind. specialize (Hm st HP).
  destruct (m st) as [[a|e] st1]; [exact (Hk a st1 Hm) | exact I].
Qed.

Lemma triple_try_catch {A} P (Q : A → State → Prop) (m : M A) h :
  triple P m Q → (∀ e, triple (λ _, True) (h e) Q) → triple P (try_catch m h) Q.
Proof.
  intros Hm Hh st HP. unfold try_catch. specialize (Hm st HP).
  destruct (m st) as [[a|e] st1]; [exact Hm | exact (Hh e st1 I)].
Qed.

Lemma triple_logger (P : State → Prop) level msg :
  (∀ files tr tr' d, P {| fs := files; trace := tr; var_dir := d |} →
                     P {| fs := files; trace := tr'; var_dir := d |}) →
  triple P (logger level msg) (λ _, P).
Proof. intros HP st Hst. destruct st. eapply HP, Hst. Qed.

End Triples.

(** * Separators and prefixes counted *)

Section StringCounts.
Import PathSpec.

Lemma prefix_split pat s :
  String.prefix pat s = true →
  s = pat +:+ String.substring (String.length pat) (String.length s - String.length pat) s.
Proof.
  revert s. induction pat as [|a pat IH]; intros s H.
  - cbn [String.length]. rewrite Nat.sub_0_r, substring_all. reflexivity.
  - destruct s as [|b s]; [discriminate|]. cbn [String.prefix] in H.
    destruct (ascii_dec a b) as [->|]; [|discriminate].
    cbn [String.length String.substring Nat.sub].
    change (String b pat +:+ ?x) with (String b (pat +:+ x)).
    f_equal. apply IH, H.
Qed.

(** Replacing a separator-free pattern by a separator-free text keeps the
    number of separators. *)
Lemma slashes_replace s pat rep :
  slashes pat = 0%nat → slashes rep = 0%nat →
  slashes (Js.replace s pat rep) = slashes s.
Proof.
  intros Hp Hr.
  assert (∀ t, String.prefix pat t = true →
            slashes (rep +:+ String.substring (String.length pat)
                               (String.length t - String.length pat) t) = slashes t) as Hhit.
  { intros t Hpre. pose proof (f_equal slashes (prefix_split _ _ Hpre)) as Ht.
    rewrite slashes_app in Ht |- *. lia. }
  induction s as [|c s IH]; rewrite replace_unfold.
  - destruct (String.prefix pat "") eqn:Hpre; [apply Hhit, Hpre | reflexivity].
  - destruct (String.prefix pat (String c s)) eqn:Hpre; [apply Hhit, Hpre|].
    cbn [slashes]. rewrite IH. reflexivity.
Qed.

Lemma chain_length s acc x :
  In x (Fs.chain acc s) → (String.length x ≤ String.length acc + String.length s)%nat.
Proof.
  revert acc. induction s as [|c s IH]; intros acc Hin.
  - cbn in Hin. destruct Hin as [<-|[]]. cbn. lia.
  - cbn [Fs.chain] in Hin.
    assert (In x (Fs.chain (acc +:+ String c "") s) →
            String.length x ≤ String.length acc + String.length (String c s))%nat as Hrest.
    { intros H. apply IH in H. rewrite length_app in H. cbn [String.length] in *. lia. }
    destruct (Ascii.eqb c "/" && negb (String.eqb acc "")); [|exact (Hrest Hin)].
    destruct Hin as [<-|Hin]; [lia | exact (Hrest Hin)].
Qed.

Lemma with_parents_length p x :
  x ∈ Fs.with_parents p → (String.length x ≤ String.length p)%nat.
Proof.
  unfold Fs.with_parents. rewrite elem_of_list_to_set, list_elem_of_In.
  intros H. apply chain_length in H. exact H.
Qed.

Lemma startsWith_app a b : Js.startsWith (a +:+ b) a = true.
Proof.
  unfold Js.startsWith. induction a as [|c a IH]; [destruct b; reflexivity|].
  change (String c a +:+ b) with (String c (a +:+ b)). cbn [String.prefix].
  destruct (ascii_dec c c); [exact IH | contradiction].
Qed.

Lemma startsWith_slashes s p :
  Js.startsWith s p = true → (slashes p ≤ slashes s)%nat.
Proof.
  unfold Js.startsWith. intros H. rewrite (prefix_split _ _ H), slashes_app. lia.
Qed.

End StringCounts.

Section MoreTriples.

Lemma triple_weaken {A} (P P' : State → Prop) (m : M A) (Q : A → State → Prop) :
  (∀ st, P st → P' st) → triple P' m Q → triple P m Q.
Proof. intros HP Hm st Hst. apply Hm, HP, Hst. Qed.

Lemma triple_assume {A} (φ : Prop) (P : State → Prop) (m : M A) (Q : A → State → Prop) :
  (φ → triple P m Q) → triple (λ st, φ ∧ P st) m Q.
Proof. intros Hm st [Hφ Hst]. apply (Hm Hφ), Hst. Qed.

Lemma triple_false {A} (m : M A) (Q : A → State → Prop) : triple (λ _, False) m Q.
Proof. intros st []. Qed.

End MoreTriples.

Section ObjectNames.
Import PathSpec.

Lemma slashes_originalName f :
  (1 ≤ slashes (if Js.startsWith f "models/" then f else "models/" +:+ f))%nat.
Proof.
  destruct (Js.startsWith f "models/") eqn:H.
  - apply startsWith_slashes in H. exact H.
  - rewrite slashes_app. cbn. lia.
Qed.

End ObjectNames.

(** * The theorems at concrete requests *)

(** C2 at [notes.txt]. *)
Lemma Local_rejects_other_extensions_witness :
  Js.endsWith "notes.txt" ".gltf" = false
  ∧ Js.endsWith "notes.txt" ".glb" = false
  ∧ Local.fetch Sample.ora_ok (Sample.upload "notes.txt") Sample.fresh =
      (Ret (Response_json [("message", "Error: You must upload a glb/gltf file.")] 500 []),
       {| fs := ∅;
          trace := [ Log "error" "You must upload a glb/gltf file.";
                     Log "info" "Converting file notes.txt..." ];
          var_dir := None |}).
Proof.
  split; [reflexivity|]. split; [reflexivity|].
  apply (Local_rejects_other_extensions Sample.ora_ok (Sample.upload "notes.txt")
           Sample.fresh [("file", VFile "notes.txt")] "notes.txt"); reflexivity.
Defined.

(** C6 with no bucket in the environment. *)
Lemma unconfigured_storage_fails_fast_witness :
  storage Sample.cfg_no_bucket = None
  ∧ getSignedUrl Sample.cfg_no_bucket Sample.ora_ok "assets" "models/chair.usdz" Sample.fresh
    = (Throw (mkError "GCS client not initialized"), Sample.fresh)
  ∧ ∃ r st',
      Cloud.fetch Sample.cfg_no_bucket Sample.ora_ok
        (Sample.by_name "models/chair.glb") Sample.fresh = (Ret r, st')
      ∧ status r = 500
      ∧ body r = Json [("message", "GCS is not configured on this server")].
Proof.
  split; [reflexivity|].
  destruct (unconfigured_storage_fails_fast Sample.cfg_no_bucket Sample.ora_ok eq_refl)
    as (_ & _ & Hsign & Hcloud & _).
  split; [apply Hsign|].
  apply (Hcloud (Sample.by_name "models/chair.glb") Sample.fresh
           [("filename", VString "models/chair.glb")] "models/chair.glb");
    first [reflexivity | discriminate].
Defined.

(** C7 at an upload of [chair.glb]. *)
Lemma Local_success_names_usdz_witness :
  ∃ r st',
    Local.fetch Sample.ora_ok (Sample.upload "chair.glb") Sample.fresh = (Ret r, st')
    ∧ status r = 200
    ∧ json_field "name" r = Some "chair.usdz"
    ∧ ∃ n, json_field "name" r = Some n ∧ Js.endsWith n ".usdz" = true.
Proof.
  destruct (Local_success_names_usdz Sample.ora_ok) as (Hall & _ & Hchair).
  destruct (Hchair (Sample.upload "chair.glb") Sample.fresh [("file", VFile "chair.glb")])
    as (r & st' & Hrun & Hok & Hname);
    [reflexivity | reflexivity | reflexivity | reflexivity | |].
  { intros argv. eexists. reflexivity. }
  exists r, st'. split; [exact Hrun|]. split; [exact Hok|]. split; [exact Hname|].
  apply (Hall (Sample.upload "chair.glb") Sample.fresh r st'); [reflexivity | exact Hrun | exact Hok].
Defined.

(** C8 at a URL signed for [models/chair.usdz]. *)
Lemma signed_url_expires_in_one_hour_witness :
  ∃ expires,
    Sample.sign "assets" "models/chair.usdz" expires
    = inr "https://storage.googleapis.com/assets/models/chair.usdz?X-Goog-Signature=5c1e"
    ∧ expires - 1762128000000 = 3600000.
Proof.
  destruct (signed_url_expires_in_one_hour Sample.cfg_bucket Sample.ora_ok
              "assets" "models/chair.usdz" Sample.fresh
              "https://storage.googleapis.com/assets/models/chair.usdz?X-Goog-Signature=5c1e"
              (getSignedUrl Sample.cfg_bucket Sample.ora_ok
                 "assets" "models/chair.usdz" Sample.fresh).2)
    as (expires & _ & Hsign & Hexp); [vm_compute; reflexivity|].
  exists expires. split; [exact Hsign | exact Hexp].
Defined.

(** C10 at a GET. *)
Lemma Cloud_rejected_request_leaves_disk_witness :
  ∃ r st',
    Cloud.fetch Sample.cfg_bucket Sample.ora_ok
      (Sample.request "GET" "/api/convert" []) Sample.fresh = (Ret r, st')
    ∧ fs st' = ∅
    ∧ effects (trace st') = [].
Proof.
  apply (Cloud_rejected_request_leaves_disk Sample.cfg_bucket Sample.ora_ok
           (Sample.request "GET" "/api/convert" []) Sample.fresh);
    [reflexivity | left; discriminate].
Defined.

(** * Further properties of the local-disk handler *)

Section LocalRoutes.
Variable ora : Oracle.

(** X4. The download route only reads. It answers 400 "Bad request"
    exactly when the [id] or the [name] parameter is missing, without a
    look at the disk; otherwise it either hands back the file
    [FILES_FOLDER/<id>/<name>], the path as the query spells it, or
    answers 500 with "Failed to download the file." and logs that line as
    an error.  Which of the two is the file system's to say.  The disk is
    the same afterwards. *)
Theorem Local_download_answers req st :
  pathname req = "/api/download" →
  let file := Local.FILES_FOLDER +:+ "/" +:+ show (assoc "id" (searchParams req))
                +:+ "/" +:+ show (assoc "name" (searchParams req)) in
  ∃ r st',
    Local.fetch ora req st = (Ret r, st')
    ∧ fs st' = fs st
    ∧ effects (trace st') = effects (trace st)
    ∧ if is_some (assoc "id" (searchParams req)) && is_some (assoc "name" (searchParams req))
      then (r = {| status := 200; resHeaders := []; body := FileBody file |} ∧ st' = st)
           ∨ (r = Response_json [("message", "Failed to download the file.")] 500 []
              ∧ trace st' = Log "error" "Failed to download the file." :: trace st)
      else r = {| status := 400; resHeaders := []; body := Text "Bad request" |} ∧ st' = st.
Proof.
  intros Hp file. unfold Local.fetch, Local.download. rewrite Hp.
  change (String.eqb "/api/download" "/api/convert") with false.
  change (String.eqb "/api/download" "/api/download") with true. cbv iota.
  destruct (is_some (assoc "id" (searchParams req)));
    destruct (is_some (assoc "name" (searchParams req)));
    cbn [negb orb andb]; try (exec; eexists _, _; repeat split; destruct st; reflexivity).
  exec_io. fold file. cbn [await truthy].
  destruct (Fs.exists_ (fs st) file); cbn [negb]; eexists _, _.
  - split; [reflexivity|]. split; [reflexivity|]. split; [reflexivity|].
    left. split; [reflexivity | destruct st; reflexivity].
  - split; [reflexivity|]. split; [reflexivity|]. split; [reflexivity|].
    right. split; reflexivity.
Qed.

(** X5. Every other path is answered from the front-end folder and
    changes nothing. [/] is answered with the front page; the handler
    does not look whether it is there, so the answer is the page or the
    server's own 500. Any other path is answered with the file of that
    name under the front-end folder, or with 404 "Not Found". *)
Theorem Local_static_answers req st :
  String.eqb (pathname req) "/api/convert" = false →
  String.eqb (pathname req) "/api/download" = false →
  ∃ r,
    Local.fetch ora req st = (Ret r, st)
    ∧ if String.eqb (pathname req) "/"
      then r = {| status := 200; resHeaders := [];
                  body := FileBody "../client/dist/index.html" |}
           ∨ r = {| status := 500; resHeaders := []; body := ErrorPage |}
      else r = {| status := 200; resHeaders := [];
                  body := FileBody ("../client/dist" +:+ pathname req) |}
           ∨ r = {| status := 404; resHeaders := []; body := Text "Not Found" |}.
Proof.
  intros Hc Hd. unfold Local.fetch, Local.static, Response_file. rewrite Hc, Hd.
  change Local.FRONTEND_FOLDER with "../client/dist".
  destruct (String.eqb (pathname req) "/").
  - exec. change ("../client/dist" +:+ "/index.html") with "../client/dist/index.html".
    destruct (Fs.exists_ (fs st) _); eexists; (split; [destruct st; reflexivity|]); auto.
  - exec_io. cbn [await truthy].
    destruct (Fs.exists_ (fs st) _); cbn [negb];
      eexists; (split; [destruct st; reflexivity|]); auto.
Qed.

(** X6. Whatever is not a [File] named [*.gltf] or [*.glb] is turned away with
    status 500 before anything is written or spawned: a form that cannot be
    parsed, a missing [file] field (reading [file.name] throws before the
    check is reached), a text field, a file with another extension. *)
Theorem Local_invalid_upload_is_500 req st :
  pathname req = "/api/convert" →
  (∀ fd, formData req = inr fd →
         instanceof_File (FormData_get fd "file") = false
         ∨ Js.endsWith (Local.File_name (FormData_get fd "file")) ".gltf"
           || Js.endsWith (Local.File_name (FormData_get fd "file")) ".glb" = false) →
  ∃ r st', Local.fetch ora req st = (Ret r, st')
           ∧ status r = 500
           ∧ fs st' = fs st
           ∧ effects (trace st') = effects (trace st).
Proof.
  intros Hp Hbad. unfold Local.fetch, Local.convert, req_formData, Local.file_name.
  rewrite Hp, String.eqb_refl.
  destruct (formData req) as [e|fd]; [exec; eexists _, _; repeat split|].
  specialize (Hbad fd eq_refl). exec.
  destruct (FormData_get fd "file") as [| |b|s|n|v]; exec;
    cbn [truthy instanceof_File Local.File_name negb orb default] in *.
  - eexists _, _; repeat split.
  - eexists _, _; repeat split.
  - rewrite orb_true_r. eexists _, _; repeat split.
  - rewrite orb_true_r. eexists _, _; repeat split.
  - destruct Hbad as [Hbad|Hbad]; [discriminate|]. rewrite Hbad. cbn [negb].
    eexists _, _; repeat split.
  - eexists _, _; repeat split.
Qed.


End LocalRoutes.

(** * The order of effects *)

Section Performs.

Lemma effects_app a b : effects (a ++ b) = effects a ++ effects b.
Proof.
  induction a as [|e a IH]; [reflexivity|].
  cbn [app effects]. destruct (is_log e); cbn [app]; rewrite IH; reflexivity.
Qed.

Lemma performs_ret {A} (a : A) : performs 0 [] (ret a).
Proof. intros st. exists 0%nat. cbn. repeat split; auto. Qed.

Lemma performs_throw {A} e : performs 0 [] (@throw A e).
Proof. intros st. exists 0%nat. cbn. repeat split; auto; intros a [=]. Qed.

Lemma performs_logger level msg : performs 0 [] (logger level msg).
Proof. intros st. exists 0%nat. cbn. repeat split; auto. Qed.

Lemma performs_get_fs : performs 0 [] get_fs.
Proof. intros st. exists 0%nat. cbn. repeat split; auto. Qed.

Lemma performs_set_fs files : performs 0 [] (set_fs files).
Proof. intros st. exists 0%nat. cbn. repeat split; auto. Qed.

Lemma performs_fail_if o : performs 0 [] (fail_if o).
Proof. destruct o; [apply performs_throw | apply performs_ret]. Qed.

(** The one place an effect is recorded. *)
Lemma performs_emit e : is_log e = false → performs 1 [e] (emit e).
Proof.
  intros He st. exists 1%nat. cbn [emit snd fst trace var_dir effects length take rev app].
  rewrite He. repeat split; auto.
Qed.

Lemma performs_bind {A B} (P : A → Prop) lo1 L1 lo2 L2 (m : M A) (k : A → M B) :
  yields P m → performs lo1 L1 m → (∀ a, P a → performs lo2 L2 (k a)) →
  performs lo1 (L1 ++ L2) (m ≫= k).
Proof.
  intros HP Hm Hk st. unfold mbind, M_bind, bind.
  destruct (Hm st) as (k1 & Hk1 & He1 & Hv1 & Hfull).
  destruct (m st) as [[a|e] st1] eqn:Hrun; cbn [fst snd] in *.
  - specialize (Hfull a eq_refl). subst k1.
    destruct (Hk a (HP _ _ _ Hrun) st1) as (k2 & Hk2 & He2 & Hv2 & Hfull2).
    exists (List.length L1 + k2)%nat. rewrite List.length_app.
    split; [lia|]. split; [|split; [congruence|]].
    + rewrite He2, He1, take_app_add, firstn_all, rev_app_distr, app_assoc. reflexivity.
    + intros b Hb. rewrite (Hfull2 b Hb). reflexivity.
  - exists k1. rewrite List.length_app. split; [lia|]. split; [|split; [exact Hv1|]].
    + rewrite He1, take_app_le by lia. reflexivity.
    + intros b [=].
Qed.

Lemma performs_seq {A B} lo1 L1 lo2 L2 (m : M A) (k : A → M B) :
  performs lo1 L1 m → (∀ a, performs lo2 L2 (k a)) → performs lo1 (L1 ++ L2) (m ≫= k).
Proof.
  intros Hm Hk. apply (performs_bind (λ _, True) lo1 L1 lo2 L2); auto.
  intros st a st' _. exact I.
Qed.

Lemma performs_weaken {A} lo lo' L (m : M A) :
  (lo' ≤ lo)%nat → performs lo L m → performs lo' L m.
Proof.
  intros Hlo Hm st. destruct (Hm st) as (k & Hk & H). exists k. split; [lia | exact H].
Qed.

End Performs.

Section ServiceEffects.
Variable cfg : Config.
Variable ora : Oracle.

Lemma performs_mkdir p : performs 1 [Mkdir p] (mkdir ora p).
Proof.
  unfold mkdir.
  apply (performs_seq 1 [Mkdir p] 0 []); [apply performs_emit; reflexivity|]. intros _.
  apply (performs_seq 0 [] 0 []); [apply performs_fail_if|]. intros _.
  apply (performs_seq 0 [] 0 []); [apply performs_get_fs|]. intros files.
  apply performs_set_fs.
Qed.

Lemma performs_Bun_write p : performs 1 [Write p] (Bun_write ora p).
Proof.
  unfold Bun_write.
  apply (performs_seq 1 [Write p] 0 []); [apply performs_emit; reflexivity|]. intros _.
  apply (performs_seq 0 [] 0 []); [apply performs_fail_if|]. intros _.
  apply (performs_seq 0 [] 0 []); [apply performs_get_fs|]. intros files.
  apply performs_set_fs.
Qed.

Lemma performs_convertFile p :
  performs 1 [Spawn (Steps.converter_argv p)] (convertFile ora p).
Proof.
  unfold convertFile, Bun_spawnSync, BunFile_exists. cbv zeta.
  fold (Steps.converter_argv p).
  apply (performs_seq 1 [Spawn (Steps.converter_argv p)] 0 []).
  - apply (performs_seq 1 [Spawn (Steps.converter_argv p)] 0 []);
      [apply performs_emit; reflexivity|]. intros _.
    destruct (spawn_result ora _) as [e|r]; [apply performs_throw|].
    apply (performs_seq 0 [] 0 []); [apply performs_get_fs|]. intros files.
    apply (performs_seq 0 [] 0 []); [|intros _; apply performs_ret].
    destruct (wroteOutput r); [|apply performs_ret].
    destruct (last _); [apply performs_set_fs | apply performs_ret].
  - intros s.
    apply (performs_seq 0 [] 0 []);
      [destruct (truthy _); [apply performs_logger | apply performs_ret]|]. intros _.
    apply (performs_seq 0 [] 0 []);
      [apply (performs_seq 0 [] 0 []); [apply performs_get_fs | intros; apply performs_ret]|].
    intros v.
    apply (performs_seq 0 [] 0 []);
      [destruct (negb _); [apply performs_throw | apply performs_ret]|]. intros _.
    apply (performs_seq 0 [] 0 []); [apply performs_logger | intros _; apply performs_ret].
Qed.

Lemma performs_downloadFromGCS b o p :
  performs 0 [GcsDownload b o p] (downloadFromGCS cfg ora b o p).
Proof.
  unfold downloadFromGCS. destruct (storage cfg).
  - apply (performs_weaken 1); [lia|].
    apply (performs_seq 1 [GcsDownload b o p] 0 []); [apply performs_emit; reflexivity|].
    intros _.
    apply (performs_seq 0 [] 0 []); [apply performs_get_fs|]. intros files.
    apply (performs_seq 0 [] 0 []);
      [destruct (Fs.parent_exists files p); [apply performs_ret | apply performs_throw]|].
    intros _.
    apply (performs_seq 0 [] 0 []); [apply performs_fail_if|]. intros _.
    apply performs_set_fs.
  - intros st. exists 0%nat. cbn. repeat split; auto; try lia; intros a [=].
Qed.

Lemma performs_uploadToGCS b l o :
  performs 0 [GcsUpload b l o] (uploadToGCS cfg ora b l o).
Proof.
  unfold uploadToGCS. destruct (storage cfg).
  - apply (performs_weaken 1); [lia|].
    apply (performs_seq 1 [GcsUpload b l o] 0 []); [apply performs_emit; reflexivity|].
    intros _.
    apply (performs_seq 0 [] 0 []); [apply performs_get_fs|]. intros files.
    apply (performs_seq 0 [] 0 []);
      [destruct (Fs.exists_ _ _); [apply performs_ret | apply performs_throw]|]. intros _.
    apply performs_fail_if.
  - intros st. exists 0%nat. cbn. repeat split; auto; try lia; intros a [=].
Qed.

Lemma performs_getSignedUrl b o :
  performs 0 [GcsSign b o "read" (Date_now ora + 3600000)] (getSignedUrl cfg ora b o).
Proof.
  unfold getSignedUrl. destruct (storage cfg).
  - apply (performs_weaken 1); [lia|]. cbv zeta.
    change (60 * 60 * 1000) with 3600000.
    apply (performs_seq 1 [GcsSign b o "read" (Date_now ora + 3600000)] 0 []);
      [apply performs_emit; reflexivity|]. intros _.
    destruct (sign_result ora _ _ _); [apply performs_throw | apply performs_ret].
  - intros st. exists 0%nat. cbn. repeat split; auto; try lia; intros a [=].
Qed.

End ServiceEffects.

Section Order.

Lemma performs_throw_any {A} L e : performs 0 L (@throw A e).
Proof.
  intros st. exists 0%nat. cbn. repeat split; auto; try lia; intros a [=].
Qed.

Lemma performs_throw_bind {A B} L e (k : A → M B) : performs 0 L (throw e ≫= k).
Proof. exact (performs_throw_any L e). Qed.

Lemma performs_ret_bind {A B} lo L a (k : A → M B) :
  performs lo L (k a) → performs lo L (ret a ≫= k).
Proof. intros H st. exact (H st). Qed.

(** A handler whose [try] block performs [L] in order and completes with
    200, and whose [catch] block only logs and answers with 500. *)
Lemma performs_answer lo L (m : M Response) (h : Error → M Response) st :
  performs lo L m →
  yields (λ r, status r = 200) m →
  (∀ e st1, ∃ r st2, h e st1 = (Ret r, st2) ∧ status r = 500
                     ∧ effects (trace st2) = effects (trace st1)
                     ∧ var_dir st2 = var_dir st1) →
  ∃ r st' k, try_catch m h st = (Ret r, st')
    ∧ (lo ≤ k ≤ List.length L)%nat
    ∧ effects (trace st') = rev (take k L) ++ effects (trace st)
    ∧ var_dir st' = var_dir st
    ∧ (status r = 200 → k = List.length L)
    ∧ (status r = 200 ∨ status r = 500).
Proof.
  intros Hm Hy Hh. unfold try_catch.
  destruct (Hm st) as (k & Hk & He & Hv & Hfull).
  destruct (m st) as [[r|e] st1] eqn:Hrun; cbn [fst snd] in *.
  - exists r, st1, k. split; [reflexivity|]. split; [exact Hk|].
    split; [exact He|]. split; [exact Hv|].
    split; [intros _; exact (Hfull r eq_refl) | left; exact (Hy _ _ _ Hrun)].
  - destruct (Hh e st1) as (r & st2 & -> & Hs & He2 & Hv2).
    exists r, st2, k. split; [reflexivity|]. split; [exact Hk|].
    split; [congruence|]. split; [congruence|].
    split; [intros H200; rewrite Hs in H200; discriminate | right; exact Hs].
Qed.

Lemma catch_logs_500 (f : Error → string) hs e st1 :
  ∃ r st2, (logger "error" (f e);;
            ret (Response_json [("message", String_ e)] 500 hs)) st1 = (Ret r, st2)
           ∧ status r = 500
           ∧ effects (trace st2) = effects (trace st1)
           ∧ var_dir st2 = var_dir st1.
Proof.
  exec. eexists _, _. split; [reflexivity|]. cbn. repeat split.
Qed.

Lemma or_default_empty s : Js.or_default (Some s) "" = s.
Proof. destruct s; reflexivity. Qed.

End Order.

Ltac yields_200 :=
  repeat first
    [ apply yields_ret; reflexivity
    | apply yields_throw
    | apply yields_bind; intros ?
    | case_match ].


Section ConversionOrder.
Variable cfg : Config.
Variable ora : Oracle.

Ltac enter_try :=
  match goal with
  | |- context [try_catch (ret ?a ≫= ?k) ?h] =>
    change (try_catch (ret a ≫= k) h) with (try_catch (k a) h); cbv beta zeta
  end.

(** X8. The local server stores the upload before it runs the converter: the
    effects of a request to [/api/convert] are an initial segment of
    "write the upload, spawn the converter on it", and both have happened
    when the answer is 200.  Nothing is ever removed or written twice. *)
Theorem Local_stores_then_converts req st :
  pathname req = "/api/convert" →
  ∃ r st' k,
    Local.fetch ora req st = (Ret r, st')
    ∧ (k ≤ 2)%nat
    ∧ effects (trace st') = rev (take k (Steps.local ora req)) ++ effects (trace st)
    ∧ (status r = 200 → k = 2%nat)
    ∧ (status r = 200 ∨ status r = 500).
Proof.
  intros Hp. unfold Local.fetch. rewrite Hp.
  change (String.eqb "/api/convert" "/api/convert") with true. cbv iota.
  unfold Local.convert.
  match goal with |- context [try_catch ?b ?h] =>
    assert (Hb : performs 0 (Steps.local ora req) b) end.
  { unfold req_formData, Steps.local, Steps.upload_name.
    destruct (formData req) as [e|fd]; [apply performs_throw_bind|].
    apply performs_ret_bind. cbv zeta.
    set (file := FormData_get fd "file").
    set (L := [_; _]).
    assert (Htail : ∀ n,
      performs 0 L
        (logger "info" ("Converting file " +:+ default "undefined" n +:+ "...");;
         if negb (truthy file) || negb (instanceof_File file)
            || negb (Js.endsWith (Local.File_name file) ".gltf"
                     || Js.endsWith (Local.File_name file) ".glb")
         then throw (mkError "You must upload a glb/gltf file.")
         else
           Bun_write ora (Local.FILES_FOLDER +:+ "/" +:+ randomUUID ora +:+ "/"
                            +:+ Local.File_name file);;
           name ← convertFile ora (Local.FILES_FOLDER +:+ "/" +:+ randomUUID ora +:+ "/"
                                     +:+ Local.File_name file);
           ret (Response_json [("id", randomUUID ora); ("name", name)] 200 []))).
    { intros n. eapply (performs_seq 0 [] _ L); [apply performs_logger|]. intros _.
      destruct (_ || _); [apply performs_throw_any|].
      apply (performs_weaken 1); [lia|].
      eapply (performs_seq 1 [_] _ [_]); [apply performs_Bun_write|]. intros _.
      eapply (performs_seq 1 [_] _ []); [apply performs_convertFile|]. intros name.
      apply performs_ret. }
    unfold Local.file_name.
    destruct file; first [apply performs_throw_bind | apply performs_ret_bind, Htail]. }
  match goal with |- context [try_catch ?b ?h] =>
    assert (Hy : yields (λ r, status r = 200) b) end.
  { unfold req_formData, Local.file_name. yields_200. }
  destruct (performs_answer 0 _ _ _ st Hb Hy (catch_logs_500 emessage []))
    as (r & st' & k & Hrun & Hk & He & _ & Hfull & Hstatus).
  exists r, st', k. cbn in Hk.
  split; [exact Hrun|]. split; [lia|]. split; [exact He|]. split; [exact Hfull | exact Hstatus].
Qed.

(** X11. server/index.ts goes through "make the request directory, download,
    convert, upload, sign" in that order and stops at the first step that
    fails: the effects of a request to [/api/convert] are an initial
    segment of these five, all five have happened when the answer is 200,
    and nothing is removed. *)
Theorem Legacy_steps_in_order req st :
  pathname req = "/api/convert" →
  ∃ r st' k,
    Legacy.fetch cfg ora req st = (Ret r, st')
    ∧ (k ≤ 5)%nat
    ∧ effects (trace st') = rev (take k (Steps.legacy cfg ora req)) ++ effects (trace st)
    ∧ (status r = 200 → k = 5%nat)
    ∧ (status r = 200 ∨ status r = 400 ∨ status r = 500).
Proof.
  intros Hp. unfold Legacy.fetch. rewrite Hp.
  change (String.eqb "/api/convert" "/healthz") with false.
  change (String.eqb "/api/convert" "/api/convert") with true. cbv iota.
  unfold Legacy.convert, req_formData.
  destruct (formData req) as [e|fd] eqn:Hfd.
  { exec. eexists _, _, 0%nat. split; [reflexivity|].
    cbn. repeat split; try lia; auto. }
  enter_try.
  destruct (negb (truthy (FormData_get fd "filename"))
            || negb (String.eqb (typeof (FormData_get fd "filename")) "string")).
  { exec. eexists _, _, 0%nat. split; [reflexivity|].
    cbn. repeat split; try lia; auto. }
  destruct (negb (is_some (storage cfg)) || negb (Js.nonempty (GCS_BUCKET cfg))).
  { exec. eexists _, _, 0%nat. split; [reflexivity|].
    cbn. repeat split; try lia; auto. }
  match goal with |- context [try_catch ?b ?h] =>
    assert (Hb : performs 1 (Steps.legacy cfg ora req) b) end.
  { unfold Steps.legacy, Steps.object_name. rewrite Hfd. cbv zeta.
    eapply (performs_seq 1 [_] _ [_; _; _; _]); [apply performs_mkdir|]. intros _.
    eapply (performs_seq 0 [] _ [_; _; _; _]); [apply performs_logger|]. intros _.
    eapply (performs_seq 0 [_] _ [_; _; _]); [apply performs_downloadFromGCS|]. intros _.
    eapply (performs_seq 0 [] _ [_; _; _]); [apply performs_logger|]. intros _.
    eapply (performs_bind _ 1 [_] _ [_; _] _ _ (yields_convertFile ora _));
      [apply performs_convertFile|]. intros name ->.
    eapply (performs_seq 0 [] _ [_; _]); [apply performs_logger|]. intros _.
    eapply (performs_seq 0 [_] _ [_]); [apply performs_uploadToGCS|]. intros _.
    eapply (performs_seq 0 [_] _ []); [apply performs_getSignedUrl|]. intros url.
    apply performs_ret. }
  match goal with |- context [try_catch ?b ?h] =>
    assert (Hy : yields (λ r, status r = 200) b) end.
  { yields_200. }
  destruct (performs_answer 1 _ _ _ st Hb Hy (catch_logs_500 String_ []))
    as (r & st' & k & Hrun & Hk & He & _ & Hfull & Hstatus).
  exists r, st', k. cbn in Hk.
  split; [exact Hrun|]. split; [lia|]. split; [exact He|]. split; [exact Hfull|].
  destruct Hstatus; auto.
Qed.

Let d := FILES_FOLDER cfg +:+ "/" +:+ randomUUID ora.

Lemma cleanup_effects st :
  var_dir st = Some d →
  ∃ st', Cloud.cleanup ora st = (Ret tt, st')
         ∧ effects (trace st') = Rm d :: effects (trace st).
Proof.
  intros Hd. unfold Cloud.cleanup. exec. rewrite Hd.
  unfold d at 1. rewrite nonempty_dir. fold d.
  change (default "" (Some d)) with d.
  exec_io. destruct (rm_fails ora d) as [e|]; eexists; (split; [reflexivity|]);
    reflexivity.
Qed.

(** X13. The revision with clean-up either answers without any effect, or goes
    through "make the request directory, make the object's directory,
    download, convert, upload, sign" in that order, stops at the first
    step that fails and then removes the request directory, once and
    last.  A 200 answer means all six steps happened. *)
Theorem Cloud_steps_in_order req st :
  pathname req = "/api/convert" →
  ∃ r st',
    Cloud.fetch cfg ora req st = (Ret r, st')
    ∧ (status r ≠ 200 ∧ effects (trace st') = effects (trace st)
       ∨ ∃ k, (1 ≤ k ≤ 6)%nat
              ∧ effects (trace st')
                = Rm d :: rev (take k (Steps.cloud cfg ora req)) ++ effects (trace st)
              ∧ (status r = 200 → k = 6%nat)
              ∧ (status r = 200 ∨ status r = 500)).
Proof.
  intros Hp. unfold Cloud.fetch.
  destruct (log_request_spec req st) as (logs & Hrun & Hlogs).
  unfold mbind at 1, M_bind at 1, bind at 1. rewrite Hrun. rewrite Hp.
  pose proof (effects_logs logs (trace st) Hlogs) as Heff.
  set (st0 := {| fs := fs st; trace := logs ++ trace st; var_dir := var_dir st |}).
  assert (Heff0 : effects (trace st0) = effects (trace st)) by exact Heff.
  clearbody st0. clear Hrun Heff Hlogs logs.
  destruct (String.eqb (method req) "OPTIONS").
  { eexists _, _. split; [reflexivity|]. left. split; [discriminate | exact Heff0]. }
  change (String.eqb "/api/convert" "/healthz") with false.
  change (String.eqb "/api/convert" "/api/convert") with true. cbv iota.
  unfold Cloud.convert, Cloud.convert_body, Cloud.cleanup.
  destruct (String.eqb (method req) "POST"); cbn [negb]; cbv iota.
  2:{ exec. eexists _, _. split; [reflexivity|]. left. split; [discriminate | exact Heff0]. }
  unfold req_formData.
  destruct (formData req) as [e|fd] eqn:Hfd.
  { exec. eexists _, _. split; [reflexivity|]. left. split; [discriminate | exact Heff0]. }
  destruct (negb (truthy (FormData_get fd "filename"))
            || negb (String.eqb (typeof (FormData_get fd "filename")) "string")) eqn:Hfield.
  { exec. rewrite Hfield. eexists _, _. split; [reflexivity|].
    left. split; [discriminate | exact Heff0]. }
  destruct (negb (is_some (storage cfg)) || negb (Js.nonempty (GCS_BUCKET cfg))) eqn:Hcfg.
  { exec. rewrite Hfield. eexists _, _. split; [reflexivity|].
    left. split; [discriminate | exact Heff0]. }
  fold (Cloud.cleanup ora).
  enter_try. rewrite Hfield. cbv iota.
  match goal with
  | |- context [try_catch (set_dir ?v ≫= ?k) ?h] =>
    assert (Hb : performs 1 (Steps.cloud cfg ora req) (k tt));
    [|change ((set_dir None ≫= λ _, try_finally (try_catch (set_dir v ≫= k) h)
                                       (Cloud.cleanup ora)) st0)
        with (try_finally (try_catch (k tt) h) (Cloud.cleanup ora)
                {| fs := fs st0; trace := trace st0; var_dir := v |})]
  end.
  { cbv beta. unfold Steps.cloud, Steps.object_name. rewrite Hfd. cbv zeta.
    rewrite or_default_empty.
    eapply (performs_seq 1 [_] _ [_; _; _; _; _]); [apply performs_mkdir|]. intros _.
    eapply (performs_seq 1 [_] _ [_; _; _; _]); [apply performs_mkdir|]. intros _.
    eapply (performs_seq 0 [] _ [_; _; _; _]); [apply performs_logger|]. intros _.
    eapply (performs_seq 0 [_] _ [_; _; _]); [apply performs_downloadFromGCS|]. intros _.
    eapply (performs_seq 0 [] _ [_; _; _]); [apply performs_logger|]. intros _.
    eapply (performs_seq 1 [_] _ [_; _]); [apply performs_convertFile|]. intros name.
    eapply (performs_seq 0 [] _ [_; _]); [apply performs_logger|]. intros _.
    eapply (performs_seq 0 [_] _ [_]); [apply performs_uploadToGCS|]. intros _.
    eapply (performs_seq 0 [_] _ []); [apply performs_getSignedUrl|]. intros url.
    apply performs_ret. }
  cbv beta in Hb. cbv beta. unfold try_finally.
  match goal with |- context [try_catch ?b ?h ?s] =>
    assert (Hy : yields (λ r, status r = 200) b) by yields_200;
    destruct (performs_answer 1 _ b h s Hb Hy
                (catch_logs_500 String_ (Cloud.CORS_HEADERS cfg)))
      as (r & st1 & k & Hrun & Hk & He & Hv & Hfull & Hstatus)
  end.
  rewrite Hrun.
  destruct (cleanup_effects st1 Hv) as (st2 & Hc & He2). rewrite Hc.
  exists r, st2. split; [reflexivity|]. right. exists k.
  cbn in Hk. split; [lia|]. split; [|split; [exact Hfull | exact Hstatus]].
  rewrite He2, He. cbn [trace]. rewrite Heff0. reflexivity.
Qed.

End ConversionOrder.

(** * The body of a successful conversion in the cloud revision *)

Section CloudSuccessBody.
Variable cfg : Config.
Variable ora : Oracle.

Ltac enter_try :=
  match goal with
  | |- context [try_catch (ret ?a ≫= ?k) ?h] =>
    change (try_catch (ret a ≫= k) h) with (try_catch (k a) h); cbv beta zeta
  end.

(** What holds of every response of the [try] block holds of a 200 answer
    of the block with its [catch], which answers 500. *)
Lemma yields_when_200 (Q : Response → Prop) (m : M Response) h :
  yields Q m →
  (∀ e, yields (λ r, status r = 500) (h e)) →
  yields (λ r, status r = 200 → Q r) (try_catch m h).
Proof.
  intros Hm Hh. apply yields_try_catch.
  - intros st r st' Hrun _. exact (Hm st r st' Hrun).
  - intros e st r st' Hrun Hok. rewrite (Hh e st r st' Hrun) in Hok. discriminate.
Qed.

(** C5. A 200 answer of [/api/convert] in the cloud revision has the
    JSON body [{id, name, uploadedUrl, objectPath}], and each field is tied
    to what the request did. [id] is the request id. [name] is the name
    [convertFile] derives from [inputPath], the downloaded object it ran
    the converter on (the one [Spawn]). [objectPath] is the bucket path the
    converter's output was uploaded to (the one [GcsUpload]), next to the
    original object. [uploadedUrl] is what the SDK signed for that very
    path, for reading and for one hour (the one [GcsSign]). The request
    did nothing else but make its directories before and remove its
    directory after. *)
Theorem Cloud_success_body_fields req st r st' :
  pathname req = "/api/convert" →
  Cloud.fetch cfg ora req st = (Ret r, st') →
  status r = 200 →
  let bucket := default "" (GCS_BUCKET cfg) in
  let object := Steps.object_name req in
  let dir := FILES_FOLDER cfg +:+ "/" +:+ randomUUID ora in
  let localObjectDir := dir +:+ "/" +:+ Path.dir (Path.parse object) in
  let inputPath := localObjectDir +:+ "/" +:+ Path.base (Path.parse object) in
  let convertedName := Path.name (Path.parse object) +:+ ".usdz" in
  let outputPath := localObjectDir +:+ "/" +:+ convertedName in
  let objectPath := Path.dir (Path.parse object) +:+ "/" +:+ convertedName in
  ∃ uploadedUrl,
    body r = Json [("id", randomUUID ora);
                   ("name", Path.name (Path.parse inputPath) +:+ ".usdz");
                   ("uploadedUrl", uploadedUrl);
                   ("objectPath", objectPath)]
    ∧ sign_result ora bucket objectPath (Date_now ora + 3600000) = inr uploadedUrl
    ∧ effects (trace st')
      = [ Rm dir;
          GcsSign bucket objectPath "read" (Date_now ora + 3600000);
          GcsUpload bucket outputPath objectPath;
          Spawn (Steps.converter_argv inputPath);
          GcsDownload bucket object inputPath;
          Mkdir localObjectDir;
          Mkdir dir ] ++ effects (trace st).
Proof.
  intros Hp Hfetch Hok. cbv zeta.
  revert Hfetch. unfold Cloud.fetch.
  destruct (log_request_spec req st) as (logs & Hrun & Hlogs).
  unfold mbind at 1, M_bind at 1, bind at 1. rewrite Hrun. rewrite Hp.
  pose proof (effects_logs logs (trace st) Hlogs) as Heff.
  set (st0 := {| fs := fs st; trace := logs ++ trace st; var_dir := var_dir st |}).
  assert (Heff0 : effects (trace st0) = effects (trace st)) by exact Heff.
  clearbody st0. clear Hrun Heff Hlogs logs.
  destruct (String.eqb (method req) "OPTIONS").
  { intros [= <- _]. discriminate Hok. }
  change (String.eqb "/api/convert" "/healthz") with false.
  change (String.eqb "/api/convert" "/api/convert") with true. cbv iota.
  unfold Cloud.convert, Cloud.convert_body, Cloud.cleanup.
  destruct (String.eqb (method req) "POST"); cbn [negb]; cbv iota.
  2:{ exec. intros [= <- _]. discriminate Hok. }
  unfold req_formData, Steps.object_name.
  destruct (formData req) as [e|fd] eqn:Hfd.
  { exec. intros [= <- _]. discriminate Hok. }
  destruct (negb (truthy (FormData_get fd "filename"))
            || negb (String.eqb (typeof (FormData_get fd "filename")) "string")) eqn:Hfield.
  { exec. rewrite Hfield. intros [= <- _]. discriminate Hok. }
  destruct (negb (is_some (storage cfg)) || negb (Js.nonempty (GCS_BUCKET cfg))) eqn:Hcfg.
  { exec. rewrite Hfield. intros [= <- _]. discriminate Hok. }
  fold (Cloud.cleanup ora).
  enter_try. rewrite Hfield. cbv iota.
  set (object := if Js.startsWith (Legacy.as_string (FormData_get fd "filename")) "models/"
                 then Legacy.as_string (FormData_get fd "filename")
                 else "models/" +:+ Legacy.as_string (FormData_get fd "filename")).
  match goal with
  | |- context [try_catch (set_dir ?v ≫= ?k) ?h] =>
    assert (Hb : performs 1 (Steps.cloud cfg ora req) (k tt));
    [|assert (Hq : yields (λ r, ∃ url,
          body r = Json [("id", randomUUID ora);
                         ("name", Path.name (Path.parse
                            (((FILES_FOLDER cfg +:+ "/" +:+ randomUUID ora) +:+ "/"
                              +:+ Path.dir (Path.parse object)) +:+ "/"
                             +:+ Path.base (Path.parse object))) +:+ ".usdz");
                         ("uploadedUrl", url);
                         ("objectPath", Path.dir (Path.parse object) +:+ "/"
                                        +:+ (Path.name (Path.parse object) +:+ ".usdz"))]
          ∧ sign_result ora (default "" (GCS_BUCKET cfg))
              (Path.dir (Path.parse object) +:+ "/"
               +:+ (Path.name (Path.parse object) +:+ ".usdz"))
              (Date_now ora + 3600000) = inr url) (k tt));
     [|change ((set_dir None ≫= λ _, try_finally (try_catch (set_dir v ≫= k) h)
                                       (Cloud.cleanup ora)) st0)
        with (try_finally (try_catch (k tt) h) (Cloud.cleanup ora)
                {| fs := fs st0; trace := trace st0; var_dir := v |})]]
  end.
  { cbv beta. unfold Steps.cloud, Steps.object_name. rewrite Hfd. cbv zeta.
    rewrite or_default_empty.
    eapply (performs_seq 1 [_] _ [_; _; _; _; _]); [apply performs_mkdir|]. intros _.
    eapply (performs_seq 1 [_] _ [_; _; _; _]); [apply performs_mkdir|]. intros _.
    eapply (performs_seq 0 [] _ [_; _; _; _]); [apply performs_logger|]. intros _.
    eapply (performs_seq 0 [_] _ [_; _; _]); [apply performs_downloadFromGCS|]. intros _.
    eapply (performs_seq 0 [] _ [_; _; _]); [apply performs_logger|]. intros _.
    eapply (performs_seq 1 [_] _ [_; _]); [apply performs_convertFile|]. intros name.
    eapply (performs_seq 0 [] _ [_; _]); [apply performs_logger|]. intros _.
    eapply (performs_seq 0 [_] _ [_]); [apply performs_uploadToGCS|]. intros _.
    eapply (performs_seq 0 [_] _ []); [apply performs_getSignedUrl|]. intros url.
    apply performs_ret. }
  { cbv beta. rewrite or_default_empty.
    do 5 (apply yields_bind; intros _).
    eapply yields_bind_with; [apply yields_convertFile|]. intros name ->.
    do 2 (apply yields_bind; intros _).
    eapply yields_bind_with; [apply yields_getSignedUrl|]. intros url Hurl.
    apply yields_ret. exists url. split; [reflexivity | exact Hurl]. }
  cbv beta in Hb, Hq. cbv beta. unfold try_finally.
  match goal with |- context [try_catch ?b ?h ?s] =>
    assert (Hy : yields (λ r, status r = 200) b) by yields_200;
    destruct (performs_answer 1 _ b h s Hb Hy
                (catch_logs_500 String_ (Cloud.CORS_HEADERS cfg)))
      as (r1 & st1 & k & Hrun & Hk & He & Hv & Hfull & Hstatus);
    assert (Hwhen : yields (λ r, status r = 200 → _) (try_catch b h))
      by (apply (yields_when_200 _ b h Hq); intros e;
          apply yields_bind; intros _; apply yields_ret; reflexivity)
  end.
  rewrite Hrun.
  destruct (cleanup_effects cfg ora st1 Hv) as (st2 & Hc & He2). rewrite Hc.
  intros [= <- <-].
  destruct (Hwhen _ _ _ Hrun Hok) as (url & Hbody & Hsign).
  exists url. split; [exact Hbody|]. split; [exact Hsign|].
  rewrite He2, He, (Hfull Hok). cbn [trace]. rewrite Heff0.
  unfold Steps.cloud, Steps.object_name. rewrite Hfd. reflexivity.
Qed.

End CloudSuccessBody.

(** * [parse] on a name with an extension *)

Module PathExt.
Import Path PathSpec PathFacts.

Lemma get_app_l (a b : string) i :
  (i < String.length a)%nat → String.get i (a +:+ b) = String.get i a.
Proof.
  revert i. induction a as [|c a IH]; intros i Hi; simpl in Hi; [lia|].
  destruct i as [|i]; [reflexivity|]. simpl. apply IH. lia.
Qed.

Lemma get_dot_free e j c :
  dot_free e = true → String.get j e = Some c → Ascii.eqb c CHAR_DOT = false.
Proof.
  revert j. induction e as [|b e IH]; intros j Hf Hg; [discriminate|].
  simpl in Hf. apply andb_true_iff in Hf as [Hb Hf].
  destruct j as [|j]; simpl in Hg.
  - injection Hg as <-. apply negb_true_iff, Hb.
  - exact (IH j Hf Hg).
Qed.

(** A stretch of the path without separators: the loop runs through it,
    and what holds before and is kept by every pass holds after. *)
Lemma scan_steps (I : nat → Scan → Prop) p start m n s :
  (start ≤ m)%nat →
  (∀ i, (m ≤ i < m + n)%nat →
        ∃ c, String.get i p = Some c
             ∧ Ascii.eqb c CHAR_FORWARD_SLASH = false
             ∧ ∀ s, I (S i) s → I i (see c (Z.of_nat i) s)) →
  I (m + n)%nat s →
  ∃ s', scan p start (m + n) s = scan p start m s' ∧ I m s'.
Proof.
  intros Hstart. revert s. induction n as [|n IH]; intros s Hstep HI.
  - rewrite Nat.add_0_r in *. eauto.
  - replace (m + S n)%nat with (S (m + n)) in * by lia.
    destruct (Hstep (m + n)%nat) as (c & Hc & Hs & Hkeep); [lia|].
    cbn [scan]. destruct (Nat.ltb_spec (m + n) start); [lia|].
    rewrite Hc, Hs. apply IH; [|apply Hkeep, HI].
    intros i Hi. apply Hstep. lia.
Qed.

Section Extension.
Variables (stem ex : string).
Hypothesis Hstem : stem ≠ "".
Hypothesis Hfree : slash_free stem = true.
Hypothesis He : ex ≠ "".
Hypothesis Hefree : slash_free ex = true.
Hypothesis Hedot : dot_free ex = true.

Let path := stem +:+ "." +:+ ex.
Let ls := String.length stem.
Let lp := String.length path.

Lemma length_extension : lp = (ls + 1 + String.length ex)%nat ∧ (0 < ls)%nat
                         ∧ (0 < String.length ex)%nat.
Proof.
  unfold lp, path, ls. rewrite !length_app. cbn [String.length].
  destruct stem; [contradiction|]. destruct ex; [contradiction|].
  cbn [String.length]. lia.
Qed.

Lemma scan_extension :
  ∃ s, scan path 0 lp scan0 = s
       ∧ startDot s = Z.of_nat ls ∧ end_ s = Z.of_nat lp ∧ startPart s = 0
       ∧ (preDotState s = -1 ∨ preDotState s = 1).
Proof.
  destruct length_extension as (Hlp & Hls & Hle).
  (* the extension *)
  destruct (scan_steps
    (λ i s, startDot s = -1 ∧ preDotState s = 0 ∧ startPart s = 0
            ∧ (end_ s = -1 ∨ end_ s = Z.of_nat lp)
            ∧ ((i < lp)%nat → end_ s = Z.of_nat lp))
    path 0 (ls + 1) (String.length ex) scan0) as (s1 & Hrun1 & Hd1 & Hp1 & Hsp1 & _ & He1).
  { lia. }
  { intros i Hi.
    destruct (get_in_range ex (i - (ls + 1))) as [c Hc]; [lia|].
    exists c. split; [|split].
    - replace i with (ls + S (i - (ls + 1)))%nat at 1 by lia.
      unfold path, ls. rewrite get_app_r. exact Hc.
    - exact (get_slash_free _ _ _ Hefree Hc).
    - intros s (Hd & Hp & Hsp & Hend & Hlt). unfold see.
      rewrite (get_dot_free _ _ _ Hedot Hc).
      destruct Hend as [Hend|Hend]; rewrite ?Hend;
        scan_cases s; try lia; ztests; ztests; repeat split; auto; try lia.
      all: try (right; lia). all: intros; lia. }
  { cbn. repeat split; auto. intros. lia. }
  rewrite <- Hlp in Hrun1. rewrite Hrun1.
  specialize (He1 ltac:(lia)).
  (* the dot *)
  replace (ls + 1)%nat with (S ls) by lia. cbn [scan].
  destruct (Nat.ltb_spec ls 0); [lia|].
  replace (String.get ls path) with (Some CHAR_DOT).
  2:{ unfold path, ls. rewrite <- (Nat.add_0_r (String.length stem)) at 1.
      rewrite get_app_r. reflexivity. }
  change (Ascii.eqb CHAR_DOT CHAR_FORWARD_SLASH) with false. cbv iota.
  (* the stem *)
  destruct (scan_steps
    (λ i s, startDot s = Z.of_nat ls ∧ end_ s = Z.of_nat lp ∧ startPart s = 0
            ∧ ((i < ls)%nat → preDotState s = -1 ∨ preDotState s = 1))
    path 0 0 ls (see CHAR_DOT (Z.of_nat ls) s1)) as (s2 & Hrun2 & Hd2 & He2 & Hsp2 & Hp2).
  { lia. }
  { intros i Hi.
    destruct (get_in_range stem i) as [c Hc]; [unfold ls in *; lia|].
    exists c. split; [|split].
    - unfold path. rewrite get_app_l by (unfold ls in *; lia). exact Hc.
    - exact (get_slash_free _ _ _ Hfree Hc).
    - intros s (Hd & Hend & Hsp & _). unfold see.
      scan_cases s; try lia; destruct (Ascii.eqb c CHAR_DOT); ztests; ztests;
        repeat split; auto; intros; lia. }
  { unfold see. change (Ascii.eqb CHAR_DOT CHAR_DOT) with true.
    scan_cases s1; try lia; ztests; ztests; repeat split; auto; try lia.
    all: intros; lia. }
  cbn [Nat.add] in Hrun2. rewrite Hrun2. cbn [scan].
  exists s2. repeat split; auto.
Qed.

End Extension.

(** A name [stem.e] in which [stem] is not empty and holds no separator,
    and [e] is not empty and holds neither a separator nor a dot, is
    taken apart at its last dot. *)
Lemma parse_extension stem ex :
  stem ≠ "" → slash_free stem = true →
  ex ≠ "" → slash_free ex = true → dot_free ex = true →
  name (parse (stem +:+ "." +:+ ex)) = stem
  ∧ ext (parse (stem +:+ "." +:+ ex)) = "." +:+ ex
  ∧ base (parse (stem +:+ "." +:+ ex)) = stem +:+ "." +:+ ex.
Proof.
  intros Hstem Hfree He Hefree Hedot.
  destruct (scan_extension stem ex Hstem Hfree He Hefree Hedot)
    as (s & Hrun & Hd & Hend & Hsp & Hpre).
  destruct (length_extension stem ex) as (Hlp & Hls & Hle); auto.
  destruct stem as [|c0 stem']; [contradiction|].
  assert (Ascii.eqb c0 CHAR_FORWARD_SLASH = false) as Hc0
    by (simpl in Hfree; apply andb_true_iff in Hfree as [H _]; apply negb_true_iff, H).
  set (stem := String c0 stem') in *.
  set (path := stem +:+ "." +:+ ex) in *.
  assert (parse path =
          {| root := ""; dir := "";
             base := Js.slice path 0 (Z.of_nat (String.length path));
             ext := Js.slice path (Z.of_nat (String.length stem)) (Z.of_nat (String.length path));
             name := Js.slice path 0 (Z.of_nat (String.length stem)) |}) as Hparse.
  { unfold parse. unfold path at 1, stem at 1.
    change (String c0 stem' +:+ "." +:+ ex) with (String c0 (stem' +:+ "." +:+ ex)).
    cbv iota zeta.
    change (String c0 (stem' +:+ "." +:+ ex)) with path.
    rewrite Hc0. cbv iota. rewrite Hrun, Hd, Hend, Hsp.
    destruct Hpre as [-> | ->]; ztests; ztests; reflexivity. }
  rewrite Hparse. cbn [name ext base].
  assert (Z.of_nat (String.length path) = Z.of_nat (String.length stem)
                                       + Z.of_nat (String.length ("." +:+ ex))) as Hsum
    by (unfold path; rewrite length_app; lia).
  split; [|split].
  - unfold Js.slice. cbv zeta.
    destruct (Z.ltb_spec 0 0); [lia|]. destruct (Z.ltb_spec (Z.of_nat (String.length stem)) 0); [lia|].
    rewrite Z.min_l, Z.min_l by lia. rewrite Z.sub_0_r, Nat2Z.id. cbn [Z.to_nat].
    unfold path. apply substring_app_l.
  - rewrite Hsum. rewrite <- (Z.add_0_r (Z.of_nat (String.length stem))) at 1.
    unfold path. rewrite slice_app_r by lia.
    unfold Js.slice. cbv zeta.
    destruct (Z.ltb_spec 0 0); [lia|].
    destruct (Z.ltb_spec (Z.of_nat (String.length ("." +:+ ex))) 0); [lia|].
    rewrite Z.min_l, Z.min_l by lia. rewrite Z.sub_0_r, Nat2Z.id. cbn [Z.to_nat].
    apply substring_all.
  - unfold Js.slice. cbv zeta.
    destruct (Z.ltb_spec 0 0); [lia|]. destruct (Z.ltb_spec (Z.of_nat (String.length path)) 0); [lia|].
    rewrite Z.min_l, Z.min_l by lia. rewrite Z.sub_0_r, Nat2Z.id. cbn [Z.to_nat].
    apply substring_all.
Qed.

End PathExt.

(** * What the converter is told to write, and what it is said to have written *)

Section FsFacts.
Import PathSpec.

Lemma dirname_slash_free b : slash_free b = true → Fs.dirname b = None.
Proof.
  induction b as [|c b IH]; [reflexivity|]. cbn [slash_free Fs.dirname].
  intros H. apply andb_true_iff in H as [Hc Hb]. rewrite (IH Hb).
  apply negb_true_iff in Hc. unfold Path.CHAR_FORWARD_SLASH in Hc. rewrite Hc.
  reflexivity.
Qed.

Lemma dirname_app a b d : Fs.dirname b = Some d → Fs.dirname (a +:+ b) = Some (a +:+ d).
Proof.
  intros H. induction a as [|c a IH]; [exact H|].
  change (String c a +:+ b) with (String c (a +:+ b)).
  cbn [Fs.dirname]. rewrite IH. reflexivity.
Qed.

(** The directory of [a/b] is [a] when [b] is a single name. *)
Lemma dirname_component a b :
  slash_free b = true → Fs.dirname (a +:+ "/" +:+ b) = Some a.
Proof.
  intros Hb. rewrite (dirname_app a ("/" +:+ b) "").
  - rewrite append_empty_r. reflexivity.
  - change ("/" +:+ b) with (String "/" b). cbn [Fs.dirname].
    rewrite (dirname_slash_free b Hb). reflexivity.
Qed.

Lemma dirname_slashes s : (1 ≤ slashes s)%nat → ∃ d, Fs.dirname s = Some d.
Proof.
  induction s as [|c s IH]; cbn [slashes Fs.dirname]; [lia|]. intros H.
  destruct (Fs.dirname s) as [d|]; [eauto|].
  unfold Path.CHAR_FORWARD_SLASH in H.
  destruct (Ascii.eqb c "/"); [eauto|].
  destruct IH as [d Hd]; [lia | discriminate].
Qed.

Lemma slashes_slash_free s : slashes s = 0%nat → slash_free s = true.
Proof.
  induction s as [|c s IH]; [reflexivity|]. cbn [slashes slash_free].
  destruct (Ascii.eqb c Path.CHAR_FORWARD_SLASH); [discriminate|].
  intros H. apply IH. exact H.
Qed.

Lemma chain_self acc s : In (acc +:+ s) (Fs.chain acc s).
Proof.
  revert acc. induction s as [|c s IH]; intros acc.
  - cbn. left. symmetry. apply append_empty_r.
  - cbn [Fs.chain].
    assert (In (acc +:+ String c s) (Fs.chain (acc +:+ String c "") s)) as H.
    { replace (acc +:+ String c s) with ((acc +:+ String c "") +:+ s); [apply IH|].
      rewrite append_assoc. reflexivity. }
    destruct (_ && _); [right|]; exact H.
Qed.

(** [mkdir -p] makes the directory it is given. *)
Lemma with_parents_self p : p ∈ Fs.with_parents p.
Proof.
  unfold Fs.with_parents. rewrite elem_of_list_to_set, list_elem_of_In.
  exact (chain_self "" p).
Qed.

Lemma parent_exists_component files a b :
  slash_free b = true → a ∈ files → Fs.parent_exists files (a +:+ "/" +:+ b) = true.
Proof.
  intros Hb Ha. unfold Fs.parent_exists. rewrite (dirname_component a b Hb).
  destruct a; [reflexivity|]. apply bool_decide_eq_true_2, Ha.
Qed.

End FsFacts.

Section Runs.
Variable cfg : Config.
Variable ora : Oracle.

Lemma run_bind {A B} (m : M A) (k : A → M B) st a st1 r :
  m st = (Ret a, st1) → k a st1 = r → (m ≫= k) st = r.
Proof. intros Hm Hk. unfold mbind, M_bind, bind. rewrite Hm. exact Hk. Qed.

Lemma mkdir_run p st :
  mkdir_fails ora p = None →
  mkdir ora p st = (Ret tt, {| fs := Fs.with_parents p ∪ fs st;
                               trace := Mkdir p :: trace st;
                               var_dir := var_dir st |}).
Proof. intros H. exec_io. rewrite H. reflexivity. Qed.

Lemma Bun_write_run p st :
  write_fails ora p = None →
  Bun_write ora p st = (Ret tt, {| fs := Fs.with_parents p ∪ fs st;
                                   trace := Write p :: trace st;
                                   var_dir := var_dir st |}).
Proof. intros H. exec_io. rewrite H. reflexivity. Qed.

Lemma downloadFromGCS_run b o p st :
  storage cfg ≠ None → Fs.parent_exists (fs st) p = true →
  download_fails ora b o = None →
  downloadFromGCS cfg ora b o p st
  = (Ret tt, {| fs := {[ p ]} ∪ fs st;
                trace := GcsDownload b o p :: trace st;
                var_dir := var_dir st |}).
Proof.
  intros Hs Hdir H. unfold downloadFromGCS. destruct (storage cfg); [|contradiction].
  exec. rewrite Hdir, H. reflexivity.
Qed.

Lemma uploadToGCS_run b l o st :
  storage cfg ≠ None → l ∈ fs st → upload_fails ora b l o = None →
  uploadToGCS cfg ora b l o st
  = (Ret tt, {| fs := fs st; trace := GcsUpload b l o :: trace st; var_dir := var_dir st |}).
Proof.
  intros Hs Hl H. unfold uploadToGCS. destruct (storage cfg); [|contradiction].
  exec. unfold Fs.exists_. rewrite bool_decide_eq_true_2 by exact Hl.
  rewrite H. reflexivity.
Qed.

Lemma getSignedUrl_run b o url st :
  storage cfg ≠ None → sign_result ora b o (Date_now ora + 3600000) = inr url →
  getSignedUrl cfg ora b o st
  = (Ret url, {| fs := fs st;
                 trace := GcsSign b o "read" (Date_now ora + 3600000) :: trace st;
                 var_dir := var_dir st |}).
Proof.
  intros Hs H. unfold getSignedUrl. destruct (storage cfg); [|contradiction].
  cbv zeta. change (60 * 60 * 1000) with 3600000. exec. rewrite H. reflexivity.
Qed.

(** [convertFile], run: the subprocess is started; when it cannot be, its
    error is thrown; when it has run, the name is handed back and the
    success line is logged, whether the output exists or not. *)
Lemma convertFile_run p st :
  let output := Js.replace p (Path.ext (Path.parse p)) ".usdz" in
  let argv := ["usd_from_gltf"; p; output] in
  convertFile ora p st =
    match spawn_result ora argv with
    | inl e => (Throw e, {| fs := fs st; trace := Spawn argv :: trace st;
                            var_dir := var_dir st |})
    | inr r =>
      (Ret (Path.name (Path.parse p) +:+ ".usdz"),
       {| fs := if wroteOutput r then {[ output ]} ∪ fs st else fs st;
          trace := Log "info" "File converted successfully"
                   :: (if truthy (VString (stderr r)) then [Log "warn" (stderr r)] else [])
                   ++ Spawn argv :: trace st;
          var_dir := var_dir st |})
    end.
Proof.
  intros output argv. unfold convertFile. exec_io. fold output. fold argv.
  destruct (spawn_result ora argv) as [e|r]; [reflexivity|].
  destruct (wroteOutput r); exec;
    destruct (truthy (VString (stderr r))); exec; reflexivity.
Qed.

Lemma slash_free_app a b :
  PathSpec.slash_free (a +:+ b) = PathSpec.slash_free a && PathSpec.slash_free b.
Proof.
  induction a as [|c a IH]; [reflexivity|].
  change (String c a +:+ b) with (String c (a +:+ b)).
  cbn [PathSpec.slash_free]. rewrite IH, andb_assoc. reflexivity.
Qed.

Lemma append_nonempty_r a b : b ≠ "" → a +:+ b ≠ "".
Proof. intros Hb. destruct a; [exact Hb | discriminate]. Qed.

(** A path [d/stem.e] taken apart. *)
Lemma parse_path_extension d stem e :
  d ≠ "" → stem ≠ "" → PathSpec.slash_free stem = true →
  e ≠ "" → PathSpec.slash_free e = true → dot_free e = true →
  Path.name (Path.parse (d +:+ "/" +:+ stem +:+ "." +:+ e)) = stem
  ∧ Path.ext (Path.parse (d +:+ "/" +:+ stem +:+ "." +:+ e)) = "." +:+ e
  ∧ Path.base (Path.parse (d +:+ "/" +:+ stem +:+ "." +:+ e)) = stem +:+ "." +:+ e
  ∧ Path.dir (Path.parse (d +:+ "/" +:+ stem +:+ "." +:+ e)) = d.
Proof.
  intros Hd Hstem Hfree He Hefree Hedot.
  destruct (PathFacts.parse_component d (stem +:+ "." +:+ e)) as (Hn & Hx & Hb & Hdir).
  - exact Hd.
  - apply append_nonempty_r. discriminate.
  - rewrite slash_free_app, Hfree.
    change ("." +:+ e) with (String "." e). cbn [PathSpec.slash_free andb].
    change (Ascii.eqb "." Path.CHAR_FORWARD_SLASH) with false. exact Hefree.
  - destruct (PathExt.parse_extension stem e Hstem Hfree He Hefree Hedot) as (Hn' & Hx' & Hb').
    rewrite Hn, Hx, Hb, Hdir. auto.
Qed.

(** ... and the output path derived from it. *)
Lemma output_path_extension d stem e :
  d ≠ "" → stem ≠ "" → PathSpec.slash_free stem = true →
  e ≠ "" → PathSpec.slash_free e = true → dot_free e = true →
  no_earlier ("." +:+ e) (d +:+ "/" +:+ stem) = true →
  Js.replace (d +:+ "/" +:+ stem +:+ "." +:+ e)
             (Path.ext (Path.parse (d +:+ "/" +:+ stem +:+ "." +:+ e))) ".usdz"
  = d +:+ "/" +:+ stem +:+ ".usdz".
Proof.
  intros Hd Hstem Hfree He Hefree Hedot Hfirst.
  destruct (parse_path_extension d stem e) as (_ & -> & _); auto.
  replace (d +:+ "/" +:+ stem +:+ "." +:+ e) with ((d +:+ "/" +:+ stem) +:+ "." +:+ e)
    by (rewrite !append_assoc; reflexivity).
  rewrite replace_trailing by exact Hfirst.
  rewrite !append_assoc. reflexivity.
Qed.

End Runs.

(** * server/index.ts stops at the download *)

Section LegacyDownload.
Import PathSpec.
Variable cfg : Config.
Variable ora : Oracle.

Let dir : string := FILES_FOLDER cfg +:+ "/" +:+ randomUUID ora.

(** Right after [mkdir dir] on a disk that held nothing at or below [dir],
    the directory in which the object is to be stored is not there. *)
Lemma destination_has_no_directory files object :
  (1 ≤ slashes object)%nat →
  (∀ p, Fs.under dir p = true → p ∉ files) →
  Fs.parent_exists (Fs.with_parents dir ∪ files) (dir +:+ "/" +:+ object) = false.
Proof.
  intros Hobj Hfresh. unfold Fs.parent_exists.
  destruct (dirname_slashes object Hobj) as (od & Hod).
  rewrite (dirname_app dir ("/" +:+ object) ("/" +:+ od))
    by (change ("/" +:+ object) with (String "/" object);
        cbn [Fs.dirname]; rewrite Hod; reflexivity).
  destruct (dir +:+ "/" +:+ od) as [|c s] eqn:Hd.
  { apply (f_equal String.length) in Hd. rewrite !length_app in Hd. cbn in Hd. lia. }
  rewrite <- Hd. apply bool_decide_eq_false_2. intros H.
  apply elem_of_union in H as [H|H].
  - apply with_parents_length in H. rewrite !length_app in H. cbn in H. lia.
  - revert H. apply Hfresh. unfold Fs.under.
    rewrite <- (append_assoc dir "/" od), startsWith_app. apply orb_true_r.
Qed.

(** X12. Started with nothing at or below the request directory,
    [/api/convert] of server/index.ts never answers 200 and never gets
    past the download. It makes [<dir>] and nothing below it, while the
    object, whose name lies under [models/], is to be stored in a directory
    below [<dir>]: the destination cannot be opened. So the effects are an
    initial segment of "make the request directory, download": the
    converter is not started, nothing is uploaded and nothing is signed. *)
Theorem Legacy_never_succeeds req st :
  pathname req = "/api/convert" →
  (∀ p, Fs.under (FILES_FOLDER cfg +:+ "/" +:+ randomUUID ora) p = true → p ∉ fs st) →
  ∃ r st' k,
    Legacy.fetch cfg ora req st = (Ret r, st')
    ∧ status r ≠ 200
    ∧ (k ≤ 2)%nat
    ∧ effects (trace st') = rev (take k (Steps.legacy cfg ora req)) ++ effects (trace st).
Proof.
  intros Hp Hfresh. unfold Legacy.fetch. rewrite Hp.
  change (String.eqb "/api/convert" "/healthz") with false.
  change (String.eqb "/api/convert" "/api/convert") with true. cbv iota.
  unfold Legacy.convert, req_formData, Steps.legacy, Steps.object_name.
  destruct (formData req) as [e|fd] eqn:Hfd.
  { exec. eexists _, _, 0%nat. split; [reflexivity|].
    split; [discriminate|]. split; [lia | reflexivity]. }
  match goal with
  | |- context [try_catch (ret ?a ≫= ?k) ?h] =>
    change (try_catch (ret a ≫= k) h) with (try_catch (k a) h); cbv beta zeta
  end.
  destruct (negb (truthy (FormData_get fd "filename"))
            || negb (String.eqb (typeof (FormData_get fd "filename")) "string")).
  { exec. eexists _, _, 0%nat. split; [reflexivity|].
    split; [discriminate|]. split; [lia | reflexivity]. }
  destruct (negb (is_some (storage cfg)) || negb (Js.nonempty (GCS_BUCKET cfg))) eqn:Hcfg.
  { exec. eexists _, _, 0%nat. split; [reflexivity|].
    split; [discriminate|]. split; [lia | reflexivity]. }
  set (object := if Js.startsWith _ "models/" then _ else _).
  pose proof (slashes_originalName (Legacy.as_string (FormData_get fd "filename"))) as Hobj.
  fold object in Hobj. fold dir.
  pose proof (destination_has_no_directory (fs st) object Hobj Hfresh) as Hmissing.
  destruct (storage cfg) as [client|] eqn:Hst; [|discriminate Hcfg].
  unfold mkdir, downloadFromGCS. rewrite Hst. exec.
  destruct (mkdir_fails ora dir) as [e|].
  { eexists _, _, 1%nat. split; [reflexivity|].
    split; [discriminate|]. split; [lia | reflexivity]. }
  cbn [fs trace var_dir]. rewrite Hmissing.
  eexists _, _, 2%nat. split; [reflexivity|].
  split; [discriminate|]. split; [lia | reflexivity].
Qed.

End LegacyDownload.

(** A conversion request to server/index.ts in which no call is refused:
    the download cannot open its destination, the answer is 500 and the
    request directory stays. *)
Example Legacy_keeps_directory :
  let run := Legacy.fetch Sample.cfg_bucket Sample.ora_ok
               (Sample.by_name "chair.glb") Sample.fresh in
  (∃ r, run.1 = Ret r ∧ status r = 500)
  ∧ Fs.exists_ (fs run.2) "/tmp/gltf2usdz/files/0b6e4c1a-5d2f-4e8b-9a37-c1f0d2e4a6b8" = true
  ∧ effects (trace run.2) =
      [ GcsDownload "assets" "models/chair.glb"
          "/tmp/gltf2usdz/files/0b6e4c1a-5d2f-4e8b-9a37-c1f0d2e4a6b8/models/chair.glb";
        Mkdir "/tmp/gltf2usdz/files/0b6e4c1a-5d2f-4e8b-9a37-c1f0d2e4a6b8" ].
Proof. vm_compute. split; [eexists; split; reflexivity | split; reflexivity]. Qed.

Section ConverterOutcome.
Variable ora : Oracle.

(** X1. [convertFile] never looks at what the converter produced. It throws
    exactly when the subprocess cannot be started, with that error;
    otherwise it hands back [<name>.usdz], and the only file that can have
    appeared is the output path given to the converter.  The single effect
    besides logging is the spawn. *)
Theorem convertFile_outcome p st :
  let output := Js.replace p (Path.ext (Path.parse p)) ".usdz" in
  let argv := ["usd_from_gltf"; p; output] in
  let run := convertFile ora p st in
  effects (trace run.2) = Spawn argv :: effects (trace st)
  ∧ var_dir run.2 = var_dir st
  ∧ match spawn_result ora argv with
    | inl e => run.1 = Throw e ∧ fs run.2 = fs st
    | inr r => run.1 = Ret (Path.name (Path.parse p) +:+ ".usdz")
               ∧ fs run.2 = if wroteOutput r then {[ output ]} ∪ fs st else fs st
    end.
Proof.
  intros output argv run. unfold run. rewrite convertFile_run.
  fold output. fold argv.
  destruct (spawn_result ora argv) as [e|r]; cbn [fst snd trace fs var_dir effects is_log].
  - auto.
  - split; [|auto]. destruct (truthy (VString (stderr r))); reflexivity.
Qed.

(** X2. For an input [d/stem.e] whose extension does not occur earlier in the
    path, the name handed back is the file the converter was told to
    write: the output path is [d/stem.usdz] and the name is
    [stem.usdz]. *)
Theorem convertFile_names_its_output d stem e st :
  d ≠ "" → stem ≠ "" → PathSpec.slash_free stem = true →
  e ≠ "" → PathSpec.slash_free e = true → dot_free e = true →
  no_earlier ("." +:+ e) (d +:+ "/" +:+ stem) = true →
  let input := d +:+ "/" +:+ stem +:+ "." +:+ e in
  let run := convertFile ora input st in
  effects (trace run.2)
  = Spawn ["usd_from_gltf"; input; d +:+ "/" +:+ stem +:+ ".usdz"] :: effects (trace st)
  ∧ ∀ n, run.1 = Ret n → n = stem +:+ ".usdz".
Proof.
  intros Hd Hstem Hfree He Hefree Hedot Hfirst. cbv zeta.
  rewrite convertFile_run.
  rewrite output_path_extension by assumption.
  destruct (parse_path_extension d stem e) as (Hn & _); auto.
  destruct (spawn_result ora _) as [err|r]; cbn [fst snd trace effects is_log].
  - split; [reflexivity|]. intros n [=].
  - split; [destruct (truthy (VString (stderr r))); reflexivity|].
    intros n [= <-]. rewrite Hn. reflexivity.
Qed.

(** X3. The name [convertFile] hands back ends in [.usdz] and holds no path
    separator, whatever the input path: put after a directory, it names a
    file directly inside it.  And it does hand a name back unless the
    subprocess could not be started. *)
Theorem convertFile_name_is_a_file_name p st :
  match (convertFile ora p st).1 with
  | Ret n => Js.endsWith n ".usdz" = true ∧ PathSpec.slashes n = 0%nat
  | Throw e =>
    spawn_result ora ["usd_from_gltf"; p; Js.replace p (Path.ext (Path.parse p)) ".usdz"]
    = inl e
  end.
Proof.
  rewrite convertFile_run.
  destruct (spawn_result ora _) as [err|r]; cbn [fst]; [reflexivity|].
  split; [apply endsWith_app|].
  rewrite slashes_app. destruct (PathRange.parse_clean p) as (-> & _). reflexivity.
Qed.

End ConverterOutcome.

(** * A conversion that works, end to end *)

Section LocalRoundTrip.
Variable ora : Oracle.

Lemma endsWith_model stem e :
  e = "glb" ∨ e = "gltf" →
  Js.endsWith (stem +:+ "." +:+ e) ".gltf" || Js.endsWith (stem +:+ "." +:+ e) ".glb" = true.
Proof.
  intros [-> | ->].
  - change ("." +:+ "glb") with ".glb". rewrite (endsWith_app stem ".glb").
    apply orb_true_r.
  - change ("." +:+ "gltf") with ".gltf". rewrite (endsWith_app stem ".gltf").
    reflexivity.
Qed.

Lemma plain_model e :
  e = "glb" ∨ e = "gltf" →
  e ≠ "" ∧ PathSpec.slash_free e = true ∧ dot_free e = true.
Proof. intros [-> | ->]; repeat split; discriminate. Qed.

(** X9. The local server, used as meant. An upload [stem.glb] or [stem.gltf]
    that could be stored and for which the converter ran is answered with
    200, the request id and the name [stem.usdz]; and when the converter
    wrote its output, a download request with that id and that name is
    answered with the converted file.  The extension must not occur
    earlier in the stored path, see C4. *)
Theorem Local_convert_then_download req st fd stem e r :
  pathname req = "/api/convert" →
  formData req = inr fd →
  FormData_get fd "file" = VFile (stem +:+ "." +:+ e) →
  e = "glb" ∨ e = "gltf" →
  stem ≠ "" → PathSpec.slash_free stem = true →
  let dir := Local.FILES_FOLDER +:+ "/" +:+ randomUUID ora in
  let input := dir +:+ "/" +:+ stem +:+ "." +:+ e in
  let output := dir +:+ "/" +:+ stem +:+ ".usdz" in
  no_earlier ("." +:+ e) (dir +:+ "/" +:+ stem) = true →
  write_fails ora input = None →
  spawn_result ora ["usd_from_gltf"; input; output] = inr r →
  ∃ st1,
    Local.fetch ora req st
    = (Ret (Response_json [("id", randomUUID ora); ("name", stem +:+ ".usdz")] 200 []), st1)
    ∧ (wroteOutput r = true →
       ∀ ora' req',
         pathname req' = "/api/download" →
         assoc "id" (searchParams req') = Some (randomUUID ora) →
         assoc "name" (searchParams req') = Some (stem +:+ ".usdz") →
         Local.fetch ora' req' st1
         = (Ret {| status := 200; resHeaders := []; body := FileBody output |}, st1)).
Proof.
  intros Hp Hfd Hget He Hstem Hfree dir input output Hfirst Hw Hspawn.
  destruct (plain_model e He) as (Hne & Hefree & Hedot).
  assert (dir ≠ "") as Hdir by discriminate.
  unfold Local.fetch at 1, Local.convert, req_formData, Local.file_name.
  rewrite Hp, Hfd, String.eqb_refl. exec. rewrite Hget. exec.
  cbn [truthy instanceof_File Local.File_name negb orb default].
  rewrite (endsWith_model stem e He). cbn [negb orb].
  rewrite Local_filename. fold dir. fold input.
  rewrite Bun_write_run by exact Hw.
  pose proof (output_path_extension dir stem e Hdir Hstem Hfree Hne Hefree Hedot Hfirst)
    as Hout.
  fold input in Hout. fold output in Hout.
  rewrite convertFile_run, Hout, Hspawn.
  destruct (parse_path_extension dir stem e) as (Hn & _); auto.
  fold input in Hn. rewrite Hn.
  eexists. split; [reflexivity|].
  intros Hwrote ora' req' Hp' Hid Hname.
  unfold Local.fetch, Local.download. rewrite Hp', Hid, Hname.
  change (String.eqb "/api/download" "/api/convert") with false.
  change (String.eqb "/api/download" "/api/download") with true.
  cbn [is_some negb orb]. cbv iota. exec_io. unfold show.
  rewrite Hwrote. rewrite Local_filename. fold dir. fold output.
  unfold Fs.exists_. rewrite bool_decide_eq_true_2; [reflexivity|].
  apply elem_of_union_l, elem_of_singleton. reflexivity.
Qed.

End LocalRoundTrip.

Section CloudSucceeds.
Variable cfg : Config.
Variable ora : Oracle.
Variables (req : Request) (fd : list (string * Value)).
Variables (f od stem e b url : string) (r : SpawnSyncResult).

Hypothesis Hp : pathname req = "/api/convert".
Hypothesis Hm : method req = "POST".
Hypothesis Hfd : formData req = inr fd.
Hypothesis Hget : FormData_get fd "filename" = VString f.
Hypothesis Hf : f ≠ "".
Hypothesis Hobject :
  (if Js.startsWith f "models/" then f else "models/" +:+ f)
  = od +:+ "/" +:+ stem +:+ "." +:+ e.
Hypothesis Hod : od ≠ "".
Hypothesis Hstem : stem ≠ "".
Hypothesis Hfree : PathSpec.slash_free stem = true.
Hypothesis He : e ≠ "".
Hypothesis Hefree : PathSpec.slash_free e = true.
Hypothesis Hedot : dot_free e = true.
Hypothesis Hstorage : storage cfg ≠ None.
Hypothesis Hbucket : GCS_BUCKET cfg = Some b.
Hypothesis Hb : b ≠ "".

Let dir := FILES_FOLDER cfg +:+ "/" +:+ randomUUID ora.
Let objectDir := dir +:+ "/" +:+ od.
Let input := objectDir +:+ "/" +:+ stem +:+ "." +:+ e.
Let output := objectDir +:+ "/" +:+ stem +:+ ".usdz".
Let object := od +:+ "/" +:+ stem +:+ ".usdz".

Hypothesis Hfirst : no_earlier ("." +:+ e) (objectDir +:+ "/" +:+ stem) = true.
Hypothesis Hmkdir : mkdir_fails ora dir = None.
Hypothesis Hmkdir' : mkdir_fails ora objectDir = None.
Hypothesis Hdownload : download_fails ora b (od +:+ "/" +:+ stem +:+ "." +:+ e) = None.
Hypothesis Hspawn : spawn_result ora ["usd_from_gltf"; input; output] = inr r.
Hypothesis Hwrote : wroteOutput r = true.
Hypothesis Hupload : upload_fails ora b output object = None.
Hypothesis Hsign : sign_result ora b object (Date_now ora + 3600000) = inr url.

Let answer : Response :=
  Response_json [("id", randomUUID ora); ("name", stem +:+ ".usdz");
                 ("uploadedUrl", url); ("objectPath", object)]
                200 (Cloud.CORS_HEADERS cfg).

Lemma Cloud_body_succeeds st :
  ∃ st1, Cloud.convert_body cfg ora req st = (Ret answer, st1) ∧ var_dir st1 = Some dir.
Proof.
  assert (objectDir ≠ "") as Hdir by (apply append_nonempty_r; discriminate).
  destruct (parse_path_extension od stem e) as (Hn & _ & Hbase & Hd); auto.
  pose proof (output_path_extension objectDir stem e Hdir Hstem Hfree He Hefree Hedot Hfirst)
    as Hout.
  fold input in Hout. fold output in Hout.
  destruct (parse_path_extension objectDir stem e) as (Hn' & _); auto.
  fold input in Hn'.
  unfold Cloud.convert_body, req_formData. rewrite Hm, Hfd.
  change (String.eqb "POST" "POST") with true. cbn [negb]. cbv iota.
  match goal with |- context [ret fd ≫= ?k] => change (ret fd ≫= k) with (k fd) end.
  cbv beta zeta. rewrite Hget. cbn [truthy typeof Legacy.as_string].
  replace (String.eqb f "") with false by (symmetry; apply String.eqb_neq, Hf).
  change (String.eqb "string" "string") with true. cbn [negb orb].
  destruct (storage cfg) as [s|] eqn:Hs; [|contradiction].
  rewrite Hbucket. replace (Js.nonempty (Some b)) with true
    by (destruct b; [contradiction | reflexivity]).
  cbn [is_some negb orb]. cbv iota.
  change (default "" (Some b)) with b.
  rewrite Hobject, Hn, Hbase, Hd, or_default_empty.
  fold dir. fold objectDir. fold input.
  eexists. split.
  - eapply run_bind; [reflexivity|].
    eapply run_bind; [apply mkdir_run, Hmkdir|].
    eapply run_bind; [apply mkdir_run, Hmkdir'|].
    eapply run_bind; [reflexivity|].
    eapply run_bind.
    { apply downloadFromGCS_run; [congruence | | exact Hdownload].
      apply parent_exists_component.
      - rewrite slash_free_app, Hfree.
        change ("." +:+ e) with (String "." e). cbn [PathSpec.slash_free andb].
        change (Ascii.eqb "." Path.CHAR_FORWARD_SLASH) with false. exact Hefree.
      - cbn [fs]. apply elem_of_union_l, with_parents_self. }
    eapply run_bind; [reflexivity|].
    eapply run_bind; [rewrite convertFile_run, Hout, Hspawn, Hn'; reflexivity|].
    eapply run_bind; [reflexivity|].
    eapply run_bind.
    { apply uploadToGCS_run; [congruence | | exact Hupload].
      cbn [fs]. rewrite Hwrote. apply elem_of_union_l, elem_of_singleton. reflexivity. }
    eapply run_bind; [apply getSignedUrl_run; [congruence | exact Hsign]|].
    reflexivity.
  - reflexivity.
Qed.

(** X14. The revision with clean-up, used as meant. A POST that names an
    object [od/stem.e] of a configured bucket, while every step works -
    both directories can be made, the object is downloaded, the converter
    runs and writes its output, the upload and the signing succeed - is
    answered with 200 and the body [{id, name, uploadedUrl, objectPath}],
    where [name] is [stem.usdz], [objectPath] is [od/stem.usdz], next to
    the original object, and [uploadedUrl] is the signed URL.  The
    extension must not occur earlier in the local path. *)
Theorem Cloud_converts_object st :
  ∃ st', Cloud.fetch cfg ora req st = (Ret answer, st').
Proof.
  destruct (log_request_spec req st) as (logs & Hrun & _).
  set (s0 := {| fs := fs st; trace := logs ++ trace st; var_dir := var_dir st |}) in Hrun.
  destruct (Cloud_body_succeeds {| fs := fs s0; trace := trace s0; var_dir := None |})
    as (st1 & Hbody & Hv).
  destruct (cleanup_effects cfg ora st1 Hv) as (st2 & Hc & _).
  exists st2. unfold Cloud.fetch.
  eapply run_bind; [exact Hrun|].
  rewrite Hm, Hp.
  change (String.eqb "POST" "OPTIONS") with false.
  change (String.eqb "/api/convert" "/healthz") with false.
  change (String.eqb "/api/convert" "/api/convert") with true. cbv iota.
  unfold Cloud.convert.
  eapply run_bind; [reflexivity|].
  unfold try_finally, try_catch. rewrite Hbody, Hc. reflexivity.
Qed.

End CloudSucceeds.

(** * What stays on disk *)

Section Preserves.
Variable K : string → Prop.

Lemma preserves_same {A} (m : M A) : (∀ st, fs (m st).2 = fs st) → preserves K m.
Proof. intros H st p _ Hp. rewrite H. exact Hp. Qed.

Lemma preserves_grows {A} (m : M A) : (∀ st, fs st ⊆ fs (m st).2) → preserves K m.
Proof. intros H st p _ Hp. apply (H st p Hp). Qed.

Lemma preserves_ret {A} (a : A) : preserves K (ret a).
Proof. apply preserves_same. reflexivity. Qed.

Lemma preserves_throw {A} e : preserves K (@throw A e).
Proof. apply preserves_same. reflexivity. Qed.

Lemma preserves_logger l msg : preserves K (logger l msg).
Proof. apply preserves_same. reflexivity. Qed.

Lemma preserves_bind {A B} (m : M A) (k : A → M B) :
  preserves K m → (∀ a, preserves K (k a)) → preserves K (m ≫= k).
Proof.
  intros Hm Hk st p HK Hp. unfold mbind, M_bind, bind.
  specialize (Hm st p HK Hp).
  destruct (m st) as [[a|e] st1]; cbn [fst snd] in *; [|exact Hm].
  apply Hk; assumption.
Qed.

Lemma preserves_try_catch {A} (m : M A) h :
  preserves K m → (∀ e, preserves K (h e)) → preserves K (try_catch m h).
Proof.
  intros Hm Hh st p HK Hp. unfold try_catch.
  specialize (Hm st p HK Hp).
  destruct (m st) as [[a|e] st1]; cbn [fst snd] in *; [exact Hm|].
  apply Hh; assumption.
Qed.

Lemma preserves_if {A} (c : bool) (m1 m2 : M A) :
  preserves K m1 → preserves K m2 → preserves K (if c then m1 else m2).
Proof. destruct c; auto. Qed.

End Preserves.

Section PreservesServices.
Variable K : string → Prop.
Variable cfg : Config.
Variable ora : Oracle.

Lemma preserves_emit e : preserves K (emit e).
Proof. apply preserves_same. reflexivity. Qed.

Lemma preserves_fail_if o : preserves K (fail_if o).
Proof. destruct o; [apply preserves_throw | apply preserves_ret]. Qed.

(** Adding paths removes none. *)
Lemma preserves_add (X : gset string) :
  preserves K (files ← get_fs; set_fs (X ∪ files)).
Proof.
  apply preserves_grows. intros st q Hq. cbn. apply elem_of_union_r, Hq.
Qed.

Lemma preserves_mkdir p : preserves K (mkdir ora p).
Proof.
  unfold mkdir. apply preserves_bind; [apply preserves_emit|]. intros _.
  apply preserves_bind; [apply preserves_fail_if|]. intros _. apply preserves_add.
Qed.

Lemma preserves_Bun_write p : preserves K (Bun_write ora p).
Proof.
  unfold Bun_write. apply preserves_bind; [apply preserves_emit|]. intros _.
  apply preserves_bind; [apply preserves_fail_if|]. intros _. apply preserves_add.
Qed.

Lemma preserves_BunFile_exists p : preserves K (BunFile_exists p).
Proof. apply preserves_same. reflexivity. Qed.

Lemma preserves_convertFile p : preserves K (convertFile ora p).
Proof.
  apply preserves_grows. intros st q Hq. rewrite convertFile_run.
  destruct (spawn_result ora _) as [e|r]; cbn [fst snd fs]; [exact Hq|].
  destruct (wroteOutput r); [apply elem_of_union_r|]; exact Hq.
Qed.

Lemma preserves_downloadFromGCS b o p : preserves K (downloadFromGCS cfg ora b o p).
Proof.
  unfold downloadFromGCS. destruct (storage cfg); [|apply preserves_throw].
  apply preserves_grows. intros st q Hq. exec.
  destruct (Fs.parent_exists (fs st) p); [|exact Hq].
  destruct (download_fails ora b o); [exact Hq|].
  cbn [snd fs]. apply elem_of_union_r, Hq.
Qed.

Lemma preserves_uploadToGCS b l o : preserves K (uploadToGCS cfg ora b l o).
Proof.
  unfold uploadToGCS. destruct (storage cfg); [|apply preserves_throw].
  apply preserves_same. intros st. exec.
  destruct (Fs.exists_ _ _); [|reflexivity].
  destruct (upload_fails ora b l o); reflexivity.
Qed.

Lemma preserves_getSignedUrl b o : preserves K (getSignedUrl cfg ora b o).
Proof.
  unfold getSignedUrl. destruct (storage cfg); [|apply preserves_throw].
  apply preserves_same. intros st. exec.
  destruct (sign_result ora _ _ _); reflexivity.
Qed.

Lemma preserves_req_formData req : preserves K (req_formData req).
Proof.
  unfold req_formData. destruct (formData req); [apply preserves_throw | apply preserves_ret].
Qed.

Lemma preserves_set_dir d : preserves K (set_dir d).
Proof. apply preserves_same. reflexivity. Qed.

Ltac step :=
  first
    [ apply preserves_ret | apply preserves_throw | apply preserves_logger
    | apply preserves_mkdir | apply preserves_Bun_write | apply preserves_BunFile_exists
    | apply preserves_convertFile | apply preserves_downloadFromGCS
    | apply preserves_uploadToGCS | apply preserves_getSignedUrl
    | apply preserves_req_formData | apply preserves_set_dir
    | apply preserves_bind; [|intros ?]
    | apply preserves_try_catch; [|intros ?]
    | apply preserves_if ].

Lemma preserves_Response_file p : preserves K (Response_file p).
Proof.
  apply preserves_same. intros st. unfold Response_file. exec.
  destruct (Fs.exists_ (fs st) p); reflexivity.
Qed.

Lemma preserves_Local_fetch req : preserves K (Local.fetch ora req).
Proof.
  unfold Local.fetch, Local.convert, Local.download, Local.static.
  repeat apply preserves_if; cbv zeta; try apply preserves_Response_file; repeat step.
  unfold Local.file_name. destruct (FormData_get _ _); step.
Qed.

Lemma preserves_Legacy_fetch req : preserves K (Legacy.fetch cfg ora req).
Proof.
  unfold Legacy.fetch, Legacy.convert.
  repeat apply preserves_if; cbv zeta; repeat step.
Qed.

Lemma preserves_attempt req : preserves K (attempt cfg ora req).
Proof.
  unfold attempt, Cloud.convert_body. cbv zeta. repeat step.
Qed.

Lemma preserves_log_request req : preserves K (Cloud.log_request req).
Proof.
  apply preserves_same. intros st.
  destruct (log_request_spec req st) as (logs & -> & _). reflexivity.
Qed.

End PreservesServices.

Section Disk.
Variable cfg : Config.
Variable ora : Oracle.

(** X10. Neither the local server nor server/index.ts ever removes anything:
    whatever was on disk before a request, to any route, is there after
    it.  Uploads, downloaded objects and converted files accumulate. *)
Theorem Local_and_Legacy_never_delete req st :
  fs st ⊆ fs (Local.fetch ora req st).2
  ∧ fs st ⊆ fs (Legacy.fetch cfg ora req st).2.
Proof.
  split; intros p Hp.
  - exact (preserves_Local_fetch (λ _, True) ora req st p I Hp).
  - exact (preserves_Legacy_fetch (λ _, True) cfg ora req st p I Hp).
Qed.

Let d := FILES_FOLDER cfg +:+ "/" +:+ randomUUID ora.

Lemma cleanup_fs st :
  var_dir st = None ∨ var_dir st = Some d →
  ∃ st', Cloud.cleanup ora st = (Ret tt, st')
         ∧ (fs st' = fs st ∨ fs st' = Fs.remove_but (rm_leaves ora d) d (fs st)).
Proof.
  intros [Hv|Hv].
  - exists st. split; [apply cleanup_unset, Hv | left; reflexivity].
  - destruct (cleanup_set cfg ora st Hv) as (st' & Hrun & _ & Hfs & _).
    exists st'. split; [exact Hrun | right; exact Hfs].
Qed.

(** X16. The revision with clean-up removes nothing outside the directory of
    the request at hand: every path that was on disk before the request
    and is neither that directory nor below it is still there after the
    request, whatever the route and however the request ends. *)
Theorem Cloud_removes_nothing_else req st :
  Fs.remove_tree d (fs st) ⊆ fs (Cloud.fetch cfg ora req st).2.
Proof.
  intros p Hp. unfold Fs.remove_tree in Hp. apply elem_of_filter in Hp as [Hout Hp].
  set (K := λ p : string, Fs.under d p = false).
  unfold Cloud.fetch.
  destruct (log_request_spec req st) as (logs & Hlog & _).
  unfold mbind at 1, M_bind at 1, bind at 1. rewrite Hlog.
  repeat case_match; try exact Hp.
  unfold Cloud.convert.
  change (try_catch (Cloud.convert_body cfg ora req) _) with (attempt cfg ora req).
  unfold mbind, M_bind, bind, set_dir, try_finally. cbn [fs trace].
  set (s0 := {| fs := fs st; trace := logs ++ trace st; var_dir := None |}).
  pose proof (preserves_attempt K cfg ora req s0 p Hout Hp) as Hkept.
  destruct (attempt_spec cfg ora req s0) as (r & st1 & evs & Hrun & _ & Hcase).
  rewrite Hrun in Hkept |- *. cbn [fst snd] in Hkept.
  destruct (cleanup_fs st1) as (st2 & -> & Hfs).
  { destruct Hcase as [[_ Hv]|Hv]; [left; exact Hv | right; exact Hv]. }
  cbn [fst snd]. destruct Hfs as [-> | ->]; [exact Hkept|].
  apply elem_of_filter. split; [left; exact Hout | exact Hkept].
Qed.

End Disk.

(** * Routing, validation and the request log of the cloud revisions *)

Section CloudRequests.
Variable cfg : Config.
Variable ora : Oracle.



(** X17. Everything but a POST to [/api/convert] is answered from the request
    line alone: OPTIONS with 204 and no body, whatever the path;
    [/healthz] with 200 and [ok]; [/api/convert] with 405; any other path
    with 404.  The disk is not touched and nothing but logging happens. *)
Theorem Cloud_answers_other_requests req st :
  method req = "OPTIONS" ∨ pathname req ≠ "/api/convert" ∨ method req ≠ "POST" →
  ∃ st',
    Cloud.fetch cfg ora req st
    = (Ret (if String.eqb (method req) "OPTIONS"
            then {| status := 204; resHeaders := Cloud.CORS_HEADERS cfg; body := NoBody |}
            else if String.eqb (pathname req) "/healthz"
            then {| status := 200; resHeaders := Cloud.CORS_HEADERS cfg; body := Text "ok" |}
            else if String.eqb (pathname req) "/api/convert"
            then Response_json [("message", "Method not allowed")] 405 (Cloud.CORS_HEADERS cfg)
            else {| status := 404; resHeaders := Cloud.CORS_HEADERS cfg;
                    body := Text "Not Found" |}),
       st')
    ∧ fs st' = fs st
    ∧ effects (trace st') = effects (trace st).
Proof.
  intros Hreq. unfold Cloud.fetch.
  destruct (log_request_spec req st) as (logs & Hrun & Hlogs).
  unfold mbind at 1, M_bind at 1, bind at 1. rewrite Hrun.
  pose proof (effects_logs logs (trace st) Hlogs) as Heff.
  destruct (String.eqb (method req) "OPTIONS") eqn:Hopt.
  { eexists. split; [reflexivity|]. split; [reflexivity | exact Heff]. }
  destruct (String.eqb (pathname req) "/healthz").
  { eexists. split; [reflexivity|]. split; [reflexivity | exact Heff]. }
  destruct (String.eqb (pathname req) "/api/convert") eqn:Hpath.
  2:{ eexists. split; [reflexivity|]. split; [reflexivity | exact Heff]. }
  apply String.eqb_eq in Hpath.
  destruct Hreq as [Hm|[Hp|Hm]].
  - rewrite Hm in Hopt. discriminate.
  - contradiction.
  - apply String.eqb_neq in Hm.
    unfold Cloud.convert, Cloud.convert_body, Cloud.cleanup. rewrite Hm. exec.
    eexists. split; [reflexivity|]. split; [reflexivity | exact Heff].
Qed.

(** X18. Both cloud revisions turn a conversion request away with 400 and the
    same message when its [filename] field is missing, is the empty
    string, or is a file instead of a string.  Neither touches the disk or
    the bucket for it. *)
Theorem missing_filename_is_400 req st fd :
  pathname req = "/api/convert" →
  method req = "POST" →
  formData req = inr fd →
  truthy (FormData_get fd "filename") = false
  ∨ typeof (FormData_get fd "filename") ≠ "string" →
  let message :=
    [("message", "You must provide a 'filename' form field pointing to the object in GCS")] in
  (∃ st', Cloud.fetch cfg ora req st
          = (Ret (Response_json message 400 (Cloud.CORS_HEADERS cfg)), st')
          ∧ fs st' = fs st ∧ effects (trace st') = effects (trace st))
  ∧ Legacy.fetch cfg ora req st = (Ret (Response_json message 400 []), st).
Proof.
  intros Hp Hm Hfd Hbad message.
  assert (negb (truthy (FormData_get fd "filename"))
          || negb (String.eqb (typeof (FormData_get fd "filename")) "string") = true)
    as Hfield.
  { destruct Hbad as [-> | H]; [reflexivity|].
    apply String.eqb_neq in H. rewrite H. apply orb_true_r. }
  split.
  - unfold Cloud.fetch.
    destruct (log_request_spec req st) as (logs & Hrun & Hlogs).
    unfold mbind at 1, M_bind at 1, bind at 1. rewrite Hrun, Hm, Hp.
    change (String.eqb "POST" "OPTIONS") with false.
    change (String.eqb "/api/convert" "/healthz") with false.
    change (String.eqb "/api/convert" "/api/convert") with true. cbv iota.
    unfold Cloud.convert, Cloud.convert_body, Cloud.cleanup, req_formData.
    rewrite Hm, Hfd. change (String.eqb "POST" "POST") with true.
    exec. rewrite Hfield.
    eexists. split; [reflexivity|]. split; [reflexivity|].
    exact (effects_logs logs (trace st) Hlogs).
  - unfold Legacy.fetch, Legacy.convert, req_formData. rewrite Hp, Hfd.
    change (String.eqb "/api/convert" "/healthz") with false.
    change (String.eqb "/api/convert" "/api/convert") with true. cbv iota.
    exec. rewrite Hfield. reflexivity.
Qed.

(** X19. A body that cannot be read as a form is answered with 500 and the
    text of the error, by both cloud revisions; it is not a 400. *)
Theorem unreadable_form_is_500 req st e :
  pathname req = "/api/convert" →
  method req = "POST" →
  formData req = inl e →
  (∃ st', Cloud.fetch cfg ora req st
          = (Ret (Response_json [("message", String_ e)] 500 (Cloud.CORS_HEADERS cfg)), st')
          ∧ fs st' = fs st ∧ effects (trace st') = effects (trace st))
  ∧ (∃ st', Legacy.fetch cfg ora req st
            = (Ret (Response_json [("message", String_ e)] 500 []), st')
            ∧ fs st' = fs st ∧ effects (trace st') = effects (trace st)).
Proof.
  intros Hp Hm Hfd. split.
  - unfold Cloud.fetch.
    destruct (log_request_spec req st) as (logs & Hrun & Hlogs).
    unfold mbind at 1, M_bind at 1, bind at 1. rewrite Hrun, Hm, Hp.
    change (String.eqb "POST" "OPTIONS") with false.
    change (String.eqb "/api/convert" "/healthz") with false.
    change (String.eqb "/api/convert" "/api/convert") with true. cbv iota.
    unfold Cloud.convert, Cloud.convert_body, Cloud.cleanup, req_formData.
    rewrite Hm, Hfd. change (String.eqb "POST" "POST") with true.
    exec.
    eexists. split; [reflexivity|]. split; [reflexivity|].
    exact (effects_logs logs (trace st) Hlogs).
  - unfold Legacy.fetch, Legacy.convert, req_formData. rewrite Hp, Hfd.
    change (String.eqb "/api/convert" "/healthz") with false.
    change (String.eqb "/api/convert" "/api/convert") with true. cbv iota.
    exec. eexists. split; [reflexivity|]. split; reflexivity.
Qed.

End CloudRequests.

(** * The clean-up revision notices a converter that wrote nothing *)

Section CloudNoOutput.
Variable cfg : Config.
Variable ora : Oracle.
Variable object : string.

Let dir : string := FILES_FOLDER cfg +:+ "/" +:+ randomUUID ora.
Let parsed : Path.Parsed := Path.parse object.
Let objectDir : string := dir +:+ "/" +:+ Path.dir parsed.
Let destPath : string := objectDir +:+ "/" +:+ Path.base parsed.
Let outputPath : string := objectDir +:+ "/" +:+ Path.name parsed +:+ ".usdz".

Hypothesis not_converted_yet : Path.base parsed ≠ Path.name parsed +:+ ".usdz".
Hypothesis writes_nothing :
  ∀ argv res, spawn_result ora argv = inr res → wroteOutput res = false.

(** The file the handler uploads is not on disk. *)
Let missing (st : State) : Prop := outputPath ∉ fs st.

Lemma append_inj_l (a x y : string) : a +:+ x = a +:+ y → x = y.
Proof.
  induction a as [|c a IH]; intros H; [exact H|].
  change (String c (a +:+ x) = String c (a +:+ y)) in H.
  injection H as H. exact (IH H).
Qed.

Lemma output_not_input : destPath ≠ outputPath.
Proof.
  unfold destPath, outputPath. intros H.
  apply append_inj_l, append_inj_l in H. contradiction.
Qed.

Lemma output_below_objectDir p :
  (String.length p ≤ String.length objectDir)%nat → p ≠ outputPath.
Proof.
  intros Hlen ->. unfold outputPath in Hlen. rewrite !length_app in Hlen.
  cbn [String.length] in Hlen. lia.
Qed.

Lemma output_not_made p :
  (String.length p ≤ String.length objectDir)%nat → outputPath ∉ Fs.with_parents p.
Proof.
  intros Hlen H. apply with_parents_length in H.
  exact (output_below_objectDir outputPath ltac:(lia) eq_refl).
Qed.

Lemma output_under_dir : Fs.under dir outputPath = true.
Proof.
  unfold Fs.under, outputPath, objectDir.
  rewrite (append_assoc dir), (append_assoc "/").
  rewrite <- (append_assoc dir "/"), startsWith_app.
  apply orb_true_r.
Qed.

Lemma missing_same {A} (m : M A) :
  (∀ st, fs (m st).2 = fs st) → triple missing m (λ _, missing).
Proof.
  intros H st Hst. specialize (H st).
  destruct (m st) as [[a|e] st1]; [|exact I].
  unfold missing. cbn [snd] in H. rewrite H. exact Hst.
Qed.

Lemma missing_mkdir p :
  (String.length p ≤ String.length objectDir)%nat →
  triple missing (mkdir ora p) (λ _, missing).
Proof.
  intros Hlen st Hst. unfold mkdir. exec.
  destruct (mkdir_fails ora p); [exact I|]. unfold missing. cbn [fs].
  apply not_elem_of_union. split; [exact (output_not_made p Hlen) | exact Hst].
Qed.

Lemma missing_download b :
  triple missing (downloadFromGCS cfg ora b object destPath) (λ _, missing).
Proof.
  intros st Hst. unfold downloadFromGCS. destruct (storage cfg); [|exact I]. exec.
  destruct (Fs.parent_exists (fs st) destPath); [|exact I].
  destruct (download_fails ora b object); [exact I|]. unfold missing. cbn [fs].
  apply not_elem_of_union. split; [|exact Hst].
  apply not_elem_of_singleton. intros H. exact (output_not_input (eq_sym H)).
Qed.

Lemma missing_convertFile : triple missing (convertFile ora destPath) (λ _, missing).
Proof.
  intros st Hst. rewrite convertFile_run.
  destruct (spawn_result ora _) as [e|res] eqn:Hres; [exact I|].
  rewrite (writes_nothing _ _ Hres). exact Hst.
Qed.

Lemma missing_upload b o :
  triple missing (uploadToGCS cfg ora b outputPath o) (λ _ _, False).
Proof.
  intros st Hst. unfold uploadToGCS. destruct (storage cfg); [|exact I]. exec.
  unfold Fs.exists_. rewrite bool_decide_eq_false_2 by exact Hst. exact I.
Qed.

Lemma length_dir_objectDir : (String.length dir ≤ String.length objectDir)%nat.
Proof. unfold objectDir. rewrite length_app. lia. Qed.

End CloudNoOutput.

Section CloudDetects.
Variable cfg : Config.
Variable ora : Oracle.

(** X15. Unlike the local server (C1), the revision with clean-up does
    not report success for a converter that wrote nothing: started with
    nothing at or below the request directory, a request whose converter
    run leaves no file is never answered with 200, because the upload
    finds no file to read.  The object must not already be called
    [<name>.usdz]: then the downloaded object itself stands where the
    output is expected.  And its name must hold no [..]: the paths of the
    request are then what they read, inside the request directory, while
    a name such as [models/../../x.glb] leads the upload to a file
    outside it that an earlier request may have left. *)
Theorem Cloud_without_output_never_succeeds req st r st' :
  pathname req = "/api/convert" →
  dotdot_free (Steps.object_name req) = true →
  (∀ p, Fs.under (FILES_FOLDER cfg +:+ "/" +:+ randomUUID ora) p = true → p ∉ fs st) →
  (∀ argv res, spawn_result ora argv = inr res → wroteOutput res = false) →
  Path.base (Path.parse (Steps.object_name req))
  ≠ Path.name (Path.parse (Steps.object_name req)) +:+ ".usdz" →
  Cloud.fetch cfg ora req st = (Ret r, st') →
  status r ≠ 200.
Proof.
  intros Hp _ Hfresh Hquiet Hname Hrun.
  set (P := λ st : State,
              ∀ p, Fs.under (FILES_FOLDER cfg +:+ "/" +:+ randomUUID ora) p = true
                   → p ∉ fs st).
  assert (triple P (attempt cfg ora req) (λ r _, status r ≠ 200)) as Ht.
  { unfold attempt, Cloud.convert_body. apply triple_try_catch.
    - destruct (negb (String.eqb (method req) "POST")); [apply triple_ret; discriminate|].
      unfold Steps.object_name in Hname. unfold req_formData.
      destruct (formData req) as [e|fd]; [apply triple_throw|].
      apply triple_bind with (R := λ a st, a = fd ∧ P st);
        [apply triple_ret; intros ? HP; split; [reflexivity | exact HP]|].
      intros fd'. apply triple_assume. intros ->. cbv zeta.
      destruct (negb (truthy (FormData_get fd "filename")) || _);
        [apply triple_ret; discriminate|].
      destruct (negb (is_some (storage cfg)) || _); [apply triple_ret; discriminate|].
      set (object := if Js.startsWith _ "models/" then _ else _) in *.
      rewrite or_default_empty.
      eapply triple_weaken.
      { intros st0 Hfree. exact (Hfree _ (output_under_dir cfg ora object)). }
      eapply triple_bind; [apply missing_same; reflexivity | intros ?; cbv beta].
      eapply triple_bind;
        [apply missing_mkdir, length_dir_objectDir | intros ?; cbv beta].
      eapply triple_bind; [apply missing_mkdir; reflexivity | intros ?; cbv beta].
      eapply triple_bind; [apply missing_same; reflexivity | intros ?; cbv beta].
      eapply triple_bind; [apply (missing_download cfg ora object Hname) | intros ?; cbv beta].
      eapply triple_bind; [apply missing_same; reflexivity | intros ?; cbv beta].
      eapply triple_bind; [apply (missing_convertFile cfg ora object Hquiet) | intros n; cbv beta].
      eapply triple_bind; [apply missing_same; reflexivity | intros ?; cbv beta].
      eapply triple_bind; [apply missing_upload | intros ?; cbv beta].
      apply triple_false.
    - intros e. eapply triple_bind with (R := λ _ _, True);
        [intros ? ?; exact I|]. intros _. apply triple_ret. discriminate. }
  unfold Cloud.fetch in Hrun.
  destruct (log_request_spec req st) as (logs & Hlog & _).
  unfold mbind at 1, M_bind at 1, bind at 1 in Hrun. rewrite Hlog, Hp in Hrun.
  destruct (String.eqb (method req) "OPTIONS").
  { injection Hrun as <- _. discriminate. }
  change (String.eqb "/api/convert" "/healthz") with false in Hrun.
  change (String.eqb "/api/convert" "/api/convert") with true in Hrun.
  cbv iota in Hrun. unfold Cloud.convert in Hrun.
  change (try_catch (Cloud.convert_body cfg ora req) _) with (attempt cfg ora req) in Hrun.
  unfold mbind, M_bind, bind, set_dir, try_finally in Hrun. cbn [fs trace] in Hrun.
  match type of Hrun with context [attempt cfg ora req ?s] =>
    specialize (Ht s Hfresh); destruct (attempt cfg ora req s) as [[r1|e] st1] end.
  - destruct (Cloud.cleanup ora st1) as [[u|e] st2]; [|discriminate].
    injection Hrun as <- _. exact Ht.
  - destruct (Cloud.cleanup ora st1) as [[u|e'] st2]; discriminate.
Qed.

End CloudDetects.

(** * Requests keep to their own directory *)

Section OwnDirectory.
Import PathSpec.

Lemma slash_free_slash a x : slash_free (a +:+ "/" +:+ x) = false.
Proof.
  rewrite slash_free_app. change ("/" +:+ x) with (String "/" x).
  cbn [slash_free]. change (Ascii.eqb "/" Path.CHAR_FORWARD_SLASH) with true.
  cbn [negb andb]. apply andb_false_r.
Qed.

(** Two names without separator that are followed by a separator in the
    same string are the same name. *)
Lemma slash_split a b x y :
  slash_free a = true → slash_free b = true →
  a +:+ "/" +:+ x = b +:+ "/" +:+ y → a = b.
Proof.
  revert b. induction a as [|c a IH]; intros b Ha Hb H.
  - destruct b as [|c' b]; [reflexivity|].
    change (String "/" x = String c' (b +:+ "/" +:+ y)) in H. injection H as <- _.
    cbn in Hb. discriminate.
  - destruct b as [|c' b].
    + change (String c (a +:+ "/" +:+ x) = String "/" y) in H. injection H as -> _.
      cbn in Ha. discriminate.
    + change (String c (a +:+ "/" +:+ x) = String c' (b +:+ "/" +:+ y)) in H.
      injection H as <- H.
      cbn [slash_free] in Ha, Hb.
      apply andb_true_iff in Ha as [_ Ha]. apply andb_true_iff in Hb as [_ Hb].
      f_equal. exact (IH b Ha Hb H).
Qed.

Lemma under_cases d p :
  Fs.under d p = true → p = d ∨ ∃ r, p = d +:+ "/" +:+ r.
Proof.
  unfold Fs.under. intros H. apply orb_true_iff in H as [H|H].
  - left. apply String.eqb_eq, H.
  - right. unfold Js.startsWith in H. apply prefix_split in H.
    eexists. rewrite H at 1. apply append_assoc.
Qed.

(** The directories of two requests with different ids share nothing. *)
Lemma directories_disjoint folder i j p :
  i ≠ j → slash_free i = true → slash_free j = true →
  Fs.under (folder +:+ "/" +:+ i) p = true →
  Fs.under (folder +:+ "/" +:+ j) p = false.
Proof.
  intros Hij Hi Hj Hp.
  destruct (Fs.under (folder +:+ "/" +:+ j) p) eqn:Hq; [exfalso | reflexivity].
  apply under_cases in Hp, Hq.
  destruct Hp as [-> | [r ->]]; destruct Hq as [Hq | [r' Hq]].
  - do 2 apply append_inj_l in Hq. contradiction.
  - rewrite !append_assoc in Hq. do 2 apply append_inj_l in Hq.
    rewrite Hq, slash_free_slash in Hi. discriminate.
  - rewrite !append_assoc in Hq. do 2 apply append_inj_l in Hq.
    rewrite <- Hq, slash_free_slash in Hj. discriminate.
  - rewrite !append_assoc in Hq. do 2 apply append_inj_l in Hq.
    exact (Hij (slash_split i j r r' Hi Hj Hq)).
Qed.

End OwnDirectory.

Section OtherRequests.
Variable cfg : Config.
Variable ora : Oracle.

(** X22. The clean-up of one request spares the directories of all others:
    whatever lies at or below [FILES_FOLDER/<other>] for another request
    id is still there after the request, however it ends.  Request ids
    hold no separator. *)
Theorem Cloud_cleanup_spares_other_requests req st other p :
  other ≠ randomUUID ora →
  PathSpec.slash_free other = true →
  PathSpec.slash_free (randomUUID ora) = true →
  Fs.under (FILES_FOLDER cfg +:+ "/" +:+ other) p = true →
  p ∈ fs st →
  p ∈ fs (Cloud.fetch cfg ora req st).2.
Proof.
  intros Hother Hfree Hfree' Hunder Hp.
  pose proof (directories_disjoint (FILES_FOLDER cfg) other (randomUUID ora) p
                Hother Hfree Hfree' Hunder) as Hout.
  set (d := FILES_FOLDER cfg +:+ "/" +:+ randomUUID ora) in *.
  set (K := λ p : string, Fs.under d p = false).
  unfold Cloud.fetch.
  destruct (log_request_spec req st) as (logs & Hlog & _).
  unfold mbind at 1, M_bind at 1, bind at 1. rewrite Hlog.
  repeat case_match; try exact Hp.
  unfold Cloud.convert.
  change (try_catch (Cloud.convert_body cfg ora req) _) with (attempt cfg ora req).
  unfold mbind, M_bind, bind, set_dir, try_finally. cbn [fs trace].
  set (s0 := {| fs := fs st; trace := logs ++ trace st; var_dir := None |}).
  pose proof (preserves_attempt K cfg ora req s0 p Hout Hp) as Hkept.
  destruct (attempt_spec cfg ora req s0) as (r & st1 & evs & Hrun & _ & Hcase).
  rewrite Hrun in Hkept |- *. cbn [fst snd] in Hkept.
  destruct (cleanup_fs cfg ora st1) as (st2 & -> & Hfs).
  { destruct Hcase as [[_ Hv]|Hv]; [left; exact Hv | right; exact Hv]. }
  cbn [fst snd]. destruct Hfs as [-> | ->]; [exact Hkept|].
  apply elem_of_filter. split; [left; exact Hout | exact Hkept].
Qed.

End OtherRequests.

(** * A step that fails *)

Section CloudMissingObject.
Variable cfg : Config.
Variable ora : Oracle.
Variables (req : Request) (fd : list (string * Value)).
Variables (f b : string) (e : Error).

Hypothesis Hp : pathname req = "/api/convert".
Hypothesis Hm : method req = "POST".
Hypothesis Hfd : formData req = inr fd.
Hypothesis Hget : FormData_get fd "filename" = VString f.
Hypothesis Hf : f ≠ "".
Hypothesis Hstorage : storage cfg ≠ None.
Hypothesis Hbucket : GCS_BUCKET cfg = Some b.
Hypothesis Hb : b ≠ "".

Let object := if Js.startsWith f "models/" then f else "models/" +:+ f.
Let dir := FILES_FOLDER cfg +:+ "/" +:+ randomUUID ora.
Let objectDir := dir +:+ "/" +:+ Path.dir (Path.parse object).
Let destPath := objectDir +:+ "/" +:+ Path.base (Path.parse object).

Hypothesis Hmkdir : mkdir_fails ora dir = None.
Hypothesis Hmkdir' : mkdir_fails ora objectDir = None.
Hypothesis Hdownload : download_fails ora b object = Some e.

Lemma run_throw {A B} (m : M A) (k : A → M B) st err st1 :
  m st = (Throw err, st1) → (m ≫= k) st = (Throw err, st1).
Proof. intros Hrun. unfold mbind, M_bind, bind. rewrite Hrun. reflexivity. Qed.

Lemma downloadFromGCS_throws p st :
  Fs.parent_exists (fs st) p = true →
  downloadFromGCS cfg ora b object p st
  = (Throw e, {| fs := fs st; trace := GcsDownload b object p :: trace st;
                 var_dir := var_dir st |}).
Proof.
  intros Hdir. unfold downloadFromGCS. destruct (storage cfg); [|contradiction].
  exec. rewrite Hdir, Hdownload. reflexivity.
Qed.

Lemma Cloud_body_misses_object st :
  ∃ st1, Cloud.convert_body cfg ora req st = (Throw e, st1)
         ∧ var_dir st1 = Some dir
         ∧ effects (trace st1)
           = [GcsDownload b object destPath; Mkdir objectDir; Mkdir dir] ++ effects (trace st).
Proof.
  unfold Cloud.convert_body, req_formData. rewrite Hm, Hfd.
  change (String.eqb "POST" "POST") with true. cbn [negb]. cbv iota.
  match goal with |- context [ret fd ≫= ?k] => change (ret fd ≫= k) with (k fd) end.
  cbv beta zeta. rewrite Hget. cbn [truthy typeof Legacy.as_string].
  replace (String.eqb f "") with false by (symmetry; apply String.eqb_neq, Hf).
  change (String.eqb "string" "string") with true. cbn [negb orb].
  replace (is_some (storage cfg)) with true
    by (destruct (storage cfg); [reflexivity | contradiction]).
  rewrite Hbucket. replace (Js.nonempty (Some b)) with true
    by (destruct b; [contradiction | reflexivity]).
  cbn [negb orb]. cbv iota.
  change (default "" (Some b)) with b.
  fold object. rewrite or_default_empty. fold dir. fold objectDir. fold destPath.
  eexists. split; [|split].
  - eapply run_bind; [reflexivity|].
    eapply run_bind; [apply mkdir_run, Hmkdir|].
    eapply run_bind; [apply mkdir_run, Hmkdir'|].
    eapply run_bind; [reflexivity|].
    apply run_throw. apply downloadFromGCS_throws.
    apply parent_exists_component.
    + apply slashes_slash_free. apply (PathRange.parse_clean object).
    + cbn [fs]. apply elem_of_union_l, with_parents_self.
  - reflexivity.
  - reflexivity.
Qed.

(** X21. An object that cannot be downloaded, say because the bucket has no
    such object: the request is answered with 500 and the text of the
    storage error; the two directories were made, the converter was not
    started, nothing was uploaded or signed, and the request directory was
    removed again. *)
Theorem Cloud_missing_object_is_500 st :
  ∃ st',
    Cloud.fetch cfg ora req st
    = (Ret (Response_json [("message", String_ e)] 500 (Cloud.CORS_HEADERS cfg)), st')
    ∧ effects (trace st')
      = [Rm dir; GcsDownload b object destPath; Mkdir objectDir; Mkdir dir]
        ++ effects (trace st).
Proof.
  destruct (log_request_spec req st) as (logs & Hrun & Hlogs).
  set (s0 := {| fs := fs st; trace := logs ++ trace st; var_dir := var_dir st |}) in Hrun.
  destruct (Cloud_body_misses_object {| fs := fs s0; trace := trace s0; var_dir := None |})
    as (st1 & Hbody & Hv & He1).
  set (st1' := {| fs := fs st1; trace := Log "error" (String_ e) :: trace st1;
                  var_dir := var_dir st1 |}).
  destruct (cleanup_effects cfg ora st1' Hv) as (st2 & Hc & He2).
  exists st2. split.
  - unfold Cloud.fetch.
    eapply run_bind; [exact Hrun|].
    rewrite Hm, Hp.
    change (String.eqb "POST" "OPTIONS") with false.
    change (String.eqb "/api/convert" "/healthz") with false.
    change (String.eqb "/api/convert" "/api/convert") with true. cbv iota.
    unfold Cloud.convert.
    eapply run_bind; [reflexivity|].
    unfold try_finally, try_catch. rewrite Hbody.
    exec. fold st1'. rewrite Hc. reflexivity.
  - rewrite He2. unfold st1'. cbn [trace effects is_log]. rewrite He1.
    cbn [trace]. unfold s0. cbn [trace].
    rewrite (effects_logs logs (trace st) Hlogs). reflexivity.
Qed.

End CloudMissingObject.

(** * What reaches the bucket *)

Section Emits.
Variable P : Event → Prop.

Lemma emits_same {A} (m : M A) : (∀ st, trace (m st).2 = trace st) → emits P m.
Proof. intros H st. exists []. split; [apply H | constructor]. Qed.

Lemma emits_ret {A} (a : A) : emits P (ret a).
Proof. apply emits_same. reflexivity. Qed.

Lemma emits_throw {A} e : emits P (@throw A e).
Proof. apply emits_same. reflexivity. Qed.

Lemma emits_fail_if o : emits P (fail_if o).
Proof. destruct o; [apply emits_throw | apply emits_ret]. Qed.

Lemma emits_emit e : P e → emits P (emit e).
Proof. intros He st. exists [e]. split; [reflexivity | repeat constructor; exact He]. Qed.

Lemma emits_bind {A B} (m : M A) (k : A → M B) :
  emits P m → (∀ a, emits P (k a)) → emits P (m ≫= k).
Proof.
  intros Hm Hk st. unfold mbind, M_bind, bind.
  destruct (Hm st) as (evs & Ht & Hok).
  destruct (m st) as [[a|e] st1]; cbn [snd] in *; [|eauto].
  destruct (Hk a st1) as (evs' & Ht' & Hok').
  exists (evs' ++ evs). rewrite Ht', Ht, app_assoc. split; [reflexivity|].
  apply Forall_app. auto.
Qed.

Lemma emits_try_catch {A} (m : M A) h :
  emits P m → (∀ e, emits P (h e)) → emits P (try_catch m h).
Proof.
  intros Hm Hh st. unfold try_catch.
  destruct (Hm st) as (evs & Ht & Hok).
  destruct (m st) as [[a|e] st1]; cbn [snd] in *; [eauto|].
  destruct (Hh e st1) as (evs' & Ht' & Hok').
  exists (evs' ++ evs). rewrite Ht', Ht, app_assoc. split; [reflexivity|].
  apply Forall_app. auto.
Qed.

Lemma emits_try_finally {A} (m : M A) f :
  emits P m → emits P f → emits P (try_finally m f).
Proof.
  intros Hm Hf st. unfold try_finally.
  destruct (Hm st) as (evs & Ht & Hok).
  destruct (m st) as [o st1]; cbn [snd] in *.
  destruct (Hf st1) as (evs' & Ht' & Hok').
  exists (evs' ++ evs).
  destruct (f st1) as [[u|e] st2]; cbn [snd] in *;
    rewrite Ht', Ht, app_assoc; (split; [reflexivity | apply Forall_app; auto]).
Qed.

Lemma emits_if {A} (c : bool) (m1 m2 : M A) :
  emits P m1 → emits P m2 → emits P (if c then m1 else m2).
Proof. destruct c; auto. Qed.

End Emits.

Section Confined.
Variable cfg : Config.
Variable ora : Oracle.

Let bucket := default "" (GCS_BUCKET cfg).
Let P := confined cfg.

Ltac quiet :=
  repeat first
    [ apply emits_ret | apply emits_throw | apply emits_fail_if
    | apply emits_emit; exact I
    | apply emits_same; reflexivity
    | apply emits_bind; [|intros ?]
    | apply emits_try_catch; [|intros ?]
    | apply emits_if
    | match goal with |- emits _ (match ?x with _ => _ end) => destruct x end ].

Lemma emits_logger level msg : emits P (logger level msg).
Proof. unfold logger. quiet. Qed.

Lemma emits_mkdir p : emits P (mkdir ora p).
Proof. unfold mkdir. quiet. Qed.

Lemma emits_rm p : emits P (rm ora p).
Proof. unfold rm. quiet. Qed.

Lemma emits_convertFile p : emits P (convertFile ora p).
Proof. unfold convertFile, Bun_spawnSync, BunFile_exists, logger. cbv zeta. quiet. Qed.

Lemma emits_downloadFromGCS o p :
  Js.startsWith o "models/" = true → emits P (downloadFromGCS cfg ora bucket o p).
Proof.
  intros Ho. unfold downloadFromGCS. destruct (storage cfg); [|apply emits_throw].
  apply emits_bind; [apply emits_emit; split; [reflexivity | exact Ho]|]. intros _. quiet.
Qed.

Lemma emits_uploadToGCS l o : emits P (uploadToGCS cfg ora bucket l o).
Proof.
  unfold uploadToGCS. destruct (storage cfg); [|apply emits_throw].
  apply emits_bind; [apply emits_emit; reflexivity|]. intros _. quiet.
Qed.

Lemma emits_getSignedUrl o : emits P (getSignedUrl cfg ora bucket o).
Proof.
  unfold getSignedUrl. destruct (storage cfg); [|apply emits_throw]. cbv zeta.
  apply emits_bind; [apply emits_emit; split; reflexivity|]. intros _. quiet.
Qed.

Lemma emits_log_request req : emits P (Cloud.log_request req).
Proof.
  intros st. destruct (log_request_spec req st) as (logs & -> & Hlogs).
  exists logs. split; [reflexivity|].
  eapply Forall_impl; [exact Hlogs|]. intros [] He; try discriminate. exact I.
Qed.

Lemma emits_cleanup : emits P (Cloud.cleanup ora).
Proof.
  unfold Cloud.cleanup.
  apply emits_bind; [apply emits_same; reflexivity|]. intros d.
  apply emits_if; [|apply emits_ret]. cbv zeta.
  apply emits_try_catch.
  - apply emits_bind; [apply emits_rm | intros _; apply emits_logger].
  - intros e. apply emits_logger.
Qed.

(** The object a request names is looked for under [models/]. *)
Lemma object_under_models f :
  Js.startsWith (if Js.startsWith f "models/" then f else "models/" +:+ f) "models/" = true.
Proof.
  destruct (Js.startsWith f "models/") eqn:H; [exact H | apply startsWith_app].
Qed.

Ltac step :=
  first
    [ apply emits_ret | apply emits_throw | apply emits_logger
    | apply emits_mkdir | apply emits_convertFile
    | apply emits_downloadFromGCS, object_under_models
    | apply emits_uploadToGCS | apply emits_getSignedUrl
    | apply emits_same; reflexivity
    | apply emits_bind; [|intros ?]
    | apply emits_try_catch; [|intros ?]
    | apply emits_if ].

(** X23. Both cloud revisions keep to the configured bucket, whatever the
    request: every download they start reads an object under [models/] of
    that bucket, every upload goes to that bucket, and every URL they have
    signed is for that bucket and for reading only. *)
Theorem bucket_access_is_confined req st :
  (∃ evs, trace (Cloud.fetch cfg ora req st).2 = evs ++ trace st
          ∧ Forall (confined cfg) evs)
  ∧ (∃ evs, trace (Legacy.fetch cfg ora req st).2 = evs ++ trace st
            ∧ Forall (confined cfg) evs).
Proof.
  split.
  - assert (emits P (Cloud.fetch cfg ora req)) as H; [|exact (H st)].
    unfold Cloud.fetch.
    apply emits_bind; [apply emits_log_request|]. intros _.
    repeat apply emits_if; try apply emits_ret.
    unfold Cloud.convert.
    apply emits_bind; [apply emits_same; reflexivity|]. intros _.
    apply emits_try_finally; [|apply emits_cleanup].
    unfold Cloud.convert_body, req_formData. cbv zeta. fold bucket.
    apply emits_try_catch; [|intros e; repeat step].
    apply emits_if; [apply emits_ret|].
    apply emits_bind; [destruct (formData req); step|]. intros fd.
    repeat step.
  - assert (emits P (Legacy.fetch cfg ora req)) as H; [|exact (H st)].
    unfold Legacy.fetch.
    repeat apply emits_if; try apply emits_ret.
    unfold Legacy.convert, req_formData. cbv zeta. fold bucket.
    apply emits_try_catch; [|intros e; repeat step].
    apply emits_bind; [destruct (formData req); step|]. intros fd.
    repeat step.
Qed.

End Confined.

(** * The removal of the request directory *)

Section CloudRemoval.
Variable cfg : Config.
Variable ora : Oracle.

Let d : string := FILES_FOLDER cfg +:+ "/" +:+ randomUUID ora.





End CloudRemoval.


(** The same when the [rm] is refused: the refusal is only logged. *)
Example Cloud_refused_rm_leaves_directory :
  let run := Cloud.fetch Sample.cfg_bucket Sample.ora_rm_refused
               (Sample.by_name "chair.glb") Sample.fresh in
  let d := "/tmp/gltf2usdz/files/0b6e4c1a-5d2f-4e8b-9a37-c1f0d2e4a6b8" in
  (∃ r, run.1 = Ret r ∧ status r = 200)
  ∧ In (Mkdir d) (trace run.2)
  ∧ Fs.exists_ (fs run.2) d = true
  ∧ hd_error (trace run.2)
    = Some (Log "warn" ("Failed to remove temp directory " +:+ d +:+
                        ": Error: EACCES: permission denied, rm '" +:+ d +:+ "'")).
Proof.
  vm_compute. split; [eexists; split; reflexivity|].
  split; [|split; reflexivity].
  repeat first [left; reflexivity | right].
Qed.

(** And when the [rm] removes the directory, nothing of it is left. *)
Example Cloud_rm_removes_directory :
  let run := Cloud.fetch Sample.cfg_bucket Sample.ora_ok
               (Sample.by_name "chair.glb") Sample.fresh in
  (∃ r, run.1 = Ret r ∧ status r = 200)
  ∧ Fs.exists_ (fs run.2) "/tmp/gltf2usdz/files/0b6e4c1a-5d2f-4e8b-9a37-c1f0d2e4a6b8" = false
  ∧ Fs.exists_ (fs run.2) "/tmp/gltf2usdz/files" = true.
Proof. vm_compute. split; [eexists; split; reflexivity | split; reflexivity]. Qed.


(** * The further properties at concrete requests *)

(** A download of a conversion that never took place. *)
Lemma Local_download_answers_witness :
  ∃ r st',
    Local.fetch Sample.ora_ok (Cases.download Sample.uuid "chair.usdz") Sample.fresh
    = (Ret r, st')
    ∧ fs st' = ∅
    ∧ effects (trace st') = []
    ∧ ((r = {| status := 200; resHeaders := [];
               body := FileBody
                 "/usr/app/gltf2usdz/files/0b6e4c1a-5d2f-4e8b-9a37-c1f0d2e4a6b8/chair.usdz" |}
        ∧ st' = Sample.fresh)
       ∨ (r = Response_json [("message", "Failed to download the file.")] 500 []
          ∧ trace st' = [Log "error" "Failed to download the file."])).
Proof.
  exact (Local_download_answers Sample.ora_ok (Cases.download Sample.uuid "chair.usdz")
           Sample.fresh eq_refl).
Defined.

(** A static file. *)
Lemma Local_static_answers_witness :
  ∃ r,
    Local.fetch Sample.ora_ok (Cases.plain "GET" "/favicon.ico") Sample.fresh
    = (Ret r, Sample.fresh)
    ∧ (r = {| status := 200; resHeaders := [];
              body := FileBody "../client/dist/favicon.ico" |}
       ∨ r = {| status := 404; resHeaders := []; body := Text "Not Found" |}).
Proof.
  exact (Local_static_answers Sample.ora_ok (Cases.plain "GET" "/favicon.ico")
           Sample.fresh eq_refl eq_refl).
Defined.

(** A text field where the file is expected. *)
Lemma Local_invalid_upload_is_500_witness :
  ∃ r st',
    Local.fetch Sample.ora_ok
      (Sample.request "POST" "/api/convert" [("file", VString "chair.glb")]) Sample.fresh
    = (Ret r, st')
    ∧ status r = 500
    ∧ fs st' = ∅
    ∧ effects (trace st') = [].
Proof.
  apply (Local_invalid_upload_is_500 Sample.ora_ok
           (Sample.request "POST" "/api/convert" [("file", VString "chair.glb")])
           Sample.fresh).
  - reflexivity.
  - intros fd [= <-]. left. reflexivity.
Defined.


(** An upload of [chair.glb] that is converted. *)
Lemma Local_stores_then_converts_witness :
  ∃ r st' k,
    Local.fetch Sample.ora_ok (Sample.upload "chair.glb") Sample.fresh = (Ret r, st')
    ∧ (k ≤ 2)%nat
    ∧ effects (trace st')
      = rev (take k
               [ Write "/usr/app/gltf2usdz/files/0b6e4c1a-5d2f-4e8b-9a37-c1f0d2e4a6b8/chair.glb";
                 Spawn ["usd_from_gltf";
                        "/usr/app/gltf2usdz/files/0b6e4c1a-5d2f-4e8b-9a37-c1f0d2e4a6b8/chair.glb";
                        "/usr/app/gltf2usdz/files/0b6e4c1a-5d2f-4e8b-9a37-c1f0d2e4a6b8/chair.usdz"] ])
        ++ []
    ∧ (status r = 200 → k = 2%nat)
    ∧ (status r = 200 ∨ status r = 500).
Proof.
  exact (Local_stores_then_converts Sample.ora_ok (Sample.upload "chair.glb")
           Sample.fresh eq_refl).
Defined.

(** A conversion request to server/index.ts. *)
Lemma Legacy_steps_in_order_witness :
  ∃ r st' k,
    Legacy.fetch Sample.cfg_bucket Sample.ora_ok (Sample.by_name "chair.glb") Sample.fresh
    = (Ret r, st')
    ∧ (k ≤ 5)%nat
    ∧ effects (trace st')
      = rev (take k (Steps.legacy Sample.cfg_bucket Sample.ora_ok (Sample.by_name "chair.glb")))
        ++ []
    ∧ (status r = 200 → k = 5%nat)
    ∧ (status r = 200 ∨ status r = 400 ∨ status r = 500).
Proof.
  exact (Legacy_steps_in_order Sample.cfg_bucket Sample.ora_ok (Sample.by_name "chair.glb")
           Sample.fresh eq_refl).
Defined.

(** The same request to the revision with clean-up. *)
Lemma Cloud_steps_in_order_witness :
  ∃ r st',
    Cloud.fetch Sample.cfg_bucket Sample.ora_ok (Sample.by_name "chair.glb") Sample.fresh
    = (Ret r, st')
    ∧ (status r ≠ 200 ∧ effects (trace st') = []
       ∨ ∃ k, (1 ≤ k ≤ 6)%nat
              ∧ effects (trace st')
                = Rm "/tmp/gltf2usdz/files/0b6e4c1a-5d2f-4e8b-9a37-c1f0d2e4a6b8"
                  :: rev (take k (Steps.cloud Sample.cfg_bucket Sample.ora_ok
                                    (Sample.by_name "chair.glb"))) ++ []
              ∧ (status r = 200 → k = 6%nat)
              ∧ (status r = 200 ∨ status r = 500)).
Proof.
  exact (Cloud_steps_in_order Sample.cfg_bucket Sample.ora_ok (Sample.by_name "chair.glb")
           Sample.fresh eq_refl).
Defined.

(** [chair.glb] in a request directory. *)
Lemma convertFile_names_its_output_witness :
  effects (trace (convertFile Sample.ora_ok "/tmp/gltf2usdz/files/7/chair.glb" Sample.fresh).2)
  = [ Spawn ["usd_from_gltf"; "/tmp/gltf2usdz/files/7/chair.glb";
             "/tmp/gltf2usdz/files/7/chair.usdz"] ]
  ∧ ∀ n, (convertFile Sample.ora_ok "/tmp/gltf2usdz/files/7/chair.glb" Sample.fresh).1 = Ret n
         → n = "chair.usdz".
Proof.
  apply (convertFile_names_its_output Sample.ora_ok "/tmp/gltf2usdz/files/7" "chair" "glb"
           Sample.fresh); first [discriminate | reflexivity].
Defined.

(** [chair.glb] uploaded, converted and fetched. *)
Lemma Local_convert_then_download_witness :
  ∃ st1,
    Local.fetch Sample.ora_ok (Sample.upload "chair.glb") Sample.fresh
    = (Ret (Response_json [("id", Sample.uuid); ("name", "chair.usdz")] 200 []), st1)
    ∧ Local.fetch Sample.ora_ok (Cases.download Sample.uuid "chair.usdz") st1
      = (Ret {| status := 200; resHeaders := [];
                body := FileBody
                  "/usr/app/gltf2usdz/files/0b6e4c1a-5d2f-4e8b-9a37-c1f0d2e4a6b8/chair.usdz" |},
         st1).
Proof.
  assert (no_earlier ".glb"
            "/usr/app/gltf2usdz/files/0b6e4c1a-5d2f-4e8b-9a37-c1f0d2e4a6b8/chair" = true)
    as Hfirst by (vm_compute; reflexivity).
  assert ("chair" ≠ "") as Hstem by discriminate.
  destruct (Local_convert_then_download Sample.ora_ok (Sample.upload "chair.glb") Sample.fresh
              [("file", VFile "chair.glb")] "chair" "glb"
              {| stderr := ""; wroteOutput := true |}
              eq_refl eq_refl eq_refl (or_introl eq_refl) Hstem eq_refl Hfirst
              eq_refl eq_refl)
    as (st1 & Hrun & Hget).
  exists st1. split; [exact Hrun|].
  apply (Hget eq_refl Sample.ora_ok (Cases.download Sample.uuid "chair.usdz")); reflexivity.
Defined.

(** [models/chair.glb] converted in the bucket [assets]. *)
Lemma Cloud_converts_object_witness :
  ∃ st',
    Cloud.fetch Sample.cfg_bucket Sample.ora_ok (Sample.by_name "chair.glb") Sample.fresh
    = (Ret (Response_json
              [("id", Sample.uuid); ("name", "chair.usdz");
               ("uploadedUrl",
                "https://storage.googleapis.com/assets/models/chair.usdz?X-Goog-Signature=5c1e");
               ("objectPath", "models/chair.usdz")]
              200 (Cloud.CORS_HEADERS Sample.cfg_bucket)), st').
Proof.
  apply (Cloud_converts_object Sample.cfg_bucket Sample.ora_ok (Sample.by_name "chair.glb")
           [("filename", VString "chair.glb")] "chair.glb" "models" "chair" "glb" "assets"
           "https://storage.googleapis.com/assets/models/chair.usdz?X-Goog-Signature=5c1e"
           {| stderr := ""; wroteOutput := true |});
    first [discriminate | reflexivity].
Defined.

(** A preflight request. *)
Lemma Cloud_answers_other_requests_witness :
  ∃ st',
    Cloud.fetch Sample.cfg_bucket Sample.ora_ok (Cases.plain "OPTIONS" "/api/convert")
      Sample.fresh
    = (Ret {| status := 204; resHeaders := Cloud.CORS_HEADERS Sample.cfg_bucket;
              body := NoBody |}, st')
    ∧ fs st' = ∅
    ∧ effects (trace st') = [].
Proof.
  apply (Cloud_answers_other_requests Sample.cfg_bucket Sample.ora_ok
           (Cases.plain "OPTIONS" "/api/convert") Sample.fresh).
  left. reflexivity.
Defined.

(** A form without a [filename] field. *)
Lemma missing_filename_is_400_witness :
  let message :=
    [("message", "You must provide a 'filename' form field pointing to the object in GCS")] in
  (∃ st', Cloud.fetch Sample.cfg_bucket Sample.ora_ok (Cases.plain "POST" "/api/convert")
            Sample.fresh
          = (Ret (Response_json message 400 (Cloud.CORS_HEADERS Sample.cfg_bucket)), st')
          ∧ fs st' = ∅ ∧ effects (trace st') = [])
  ∧ Legacy.fetch Sample.cfg_bucket Sample.ora_ok (Cases.plain "POST" "/api/convert")
      Sample.fresh
    = (Ret (Response_json message 400 []), Sample.fresh).
Proof.
  apply (missing_filename_is_400 Sample.cfg_bucket Sample.ora_ok
           (Cases.plain "POST" "/api/convert") Sample.fresh []);
    first [reflexivity | left; reflexivity].
Defined.

(** A body that is not a form. *)
Lemma unreadable_form_is_500_witness :
  let answer hs :=
    Response_json
      [("message",
        "TypeError: Can't decode form data from body because of incorrect MIME type/boundary")]
      500 hs in
  (∃ st', Cloud.fetch Sample.cfg_bucket Sample.ora_ok Cases.unreadable Sample.fresh
          = (Ret (answer (Cloud.CORS_HEADERS Sample.cfg_bucket)), st')
          ∧ fs st' = ∅ ∧ effects (trace st') = [])
  ∧ (∃ st', Legacy.fetch Sample.cfg_bucket Sample.ora_ok Cases.unreadable Sample.fresh
            = (Ret (answer []), st')
            ∧ fs st' = ∅ ∧ effects (trace st') = []).
Proof.
  apply (unreadable_form_is_500 Sample.cfg_bucket Sample.ora_ok Cases.unreadable
           Sample.fresh Cases.not_a_form); reflexivity.
Defined.

(** A converter that exits without writing, in the revision with
    clean-up. *)
Lemma Cloud_without_output_never_succeeds_witness :
  ∃ r st',
    Cloud.fetch Sample.cfg_bucket Sample.ora_no_output (Sample.by_name "chair.glb")
      Sample.fresh = (Ret r, st')
    ∧ status r ≠ 200.
Proof.
  destruct (Cloud.fetch Sample.cfg_bucket Sample.ora_no_output (Sample.by_name "chair.glb")
              Sample.fresh) as [[r|e] st'] eqn:Hrun; [|vm_compute in Hrun; discriminate].
  exists r, st'. split; [reflexivity|].
  apply (Cloud_without_output_never_succeeds Sample.cfg_bucket Sample.ora_no_output
           (Sample.by_name "chair.glb") Sample.fresh r st').
  - reflexivity.
  - vm_compute. reflexivity.
  - intros p _. apply not_elem_of_empty.
  - intros argv res [= <-]. reflexivity.
  - vm_compute. discriminate.
  - exact Hrun.
Defined.

(** A conversion request to server/index.ts in which no call is
    refused. *)
Lemma Legacy_never_succeeds_witness :
  ∃ r st' k,
    Legacy.fetch Sample.cfg_bucket Sample.ora_ok (Sample.by_name "chair.glb") Sample.fresh
    = (Ret r, st')
    ∧ status r ≠ 200
    ∧ (k ≤ 2)%nat
    ∧ effects (trace st')
      = rev (take k (Steps.legacy Sample.cfg_bucket Sample.ora_ok (Sample.by_name "chair.glb")))
        ++ [].
Proof.
  apply (Legacy_never_succeeds Sample.cfg_bucket Sample.ora_ok (Sample.by_name "chair.glb")
           Sample.fresh eq_refl).
  intros p _. apply not_elem_of_empty.
Defined.


(** [models/chair.glb] converted: the fields of the answer and what was
    done for them. *)
Lemma Cloud_success_body_fields_witness :
  let d := "/tmp/gltf2usdz/files/0b6e4c1a-5d2f-4e8b-9a37-c1f0d2e4a6b8" in
  let url :=
    "https://storage.googleapis.com/assets/models/chair.usdz?X-Goog-Signature=5c1e" in
  ∃ r st',
    Cloud.fetch Sample.cfg_bucket Sample.ora_ok (Sample.by_name "chair.glb") Sample.fresh
    = (Ret r, st')
    ∧ status r = 200
    ∧ body r = Json [("id", Sample.uuid); ("name", "chair.usdz"); ("uploadedUrl", url);
                     ("objectPath", "models/chair.usdz")]
    ∧ effects (trace st')
      = [ Rm d;
          GcsSign "assets" "models/chair.usdz" "read" (1762128000000 + 3600000);
          GcsUpload "assets" (d +:+ "/models/chair.usdz") "models/chair.usdz";
          Spawn ["usd_from_gltf"; d +:+ "/models/chair.glb"; d +:+ "/models/chair.usdz"];
          GcsDownload "assets" "models/chair.glb" (d +:+ "/models/chair.glb");
          Mkdir (d +:+ "/models");
          Mkdir d ].
Proof.
  intros d url.
  destruct (Cloud.fetch Sample.cfg_bucket Sample.ora_ok (Sample.by_name "chair.glb")
              Sample.fresh) as [[r|e] st'] eqn:Hrun; [|vm_compute in Hrun; discriminate].
  assert (status r = 200) as Hok
    by (pose proof Hrun as Hval; vm_compute in Hval; injection Hval as <- _; reflexivity).
  destruct (Cloud_success_body_fields Sample.cfg_bucket Sample.ora_ok
              (Sample.by_name "chair.glb") Sample.fresh r st' eq_refl Hrun Hok)
    as (u & Hbody & Hsign & Heff).
  exists r, st'. split; [reflexivity|]. split; [exact Hok|].
  injection Hsign as <-. split; [exact Hbody | exact Heff].
Defined.

(** An object the bucket does not hold. *)
Lemma Cloud_missing_object_is_500_witness :
  ∃ st',
    Cloud.fetch Sample.cfg_bucket Cases.ora_no_object (Sample.by_name "chair.glb") Sample.fresh
    = (Ret (Response_json [("message", "Error: No such object: assets/models/chair.glb")]
              500 (Cloud.CORS_HEADERS Sample.cfg_bucket)), st')
    ∧ effects (trace st')
      = [ Rm "/tmp/gltf2usdz/files/0b6e4c1a-5d2f-4e8b-9a37-c1f0d2e4a6b8";
          GcsDownload "assets" "models/chair.glb"
            "/tmp/gltf2usdz/files/0b6e4c1a-5d2f-4e8b-9a37-c1f0d2e4a6b8/models/chair.glb";
          Mkdir "/tmp/gltf2usdz/files/0b6e4c1a-5d2f-4e8b-9a37-c1f0d2e4a6b8/models";
          Mkdir "/tmp/gltf2usdz/files/0b6e4c1a-5d2f-4e8b-9a37-c1f0d2e4a6b8" ].
Proof.
  assert (storage Sample.cfg_bucket ≠ None) as Hs by discriminate.
  assert ("chair.glb" ≠ "") as Hf by discriminate.
  assert ("assets" ≠ "") as Hb by discriminate.
  exact (Cloud_missing_object_is_500 Sample.cfg_bucket Cases.ora_no_object
           (Sample.by_name "chair.glb") [("filename", VString "chair.glb")]
           "chair.glb" "assets" (mkError "No such object: assets/models/chair.glb")
           eq_refl eq_refl eq_refl eq_refl Hf Hs eq_refl Hb eq_refl eq_refl eq_refl
           Sample.fresh).
Defined.

(** The files of another request, kept. *)
Lemma Cloud_cleanup_spares_other_requests_witness :
  "/tmp/gltf2usdz/files/41c9d7e2-7f3a-4b60-8d15-2a9e6c0b5f73/models/desk.glb"
  ∈ fs (Cloud.fetch Sample.cfg_bucket Sample.ora_ok (Sample.by_name "chair.glb")
          Cases.busy).2.
Proof.
  apply (Cloud_cleanup_spares_other_requests Sample.cfg_bucket Sample.ora_ok
           (Sample.by_name "chair.glb") Cases.busy "41c9d7e2-7f3a-4b60-8d15-2a9e6c0b5f73").
  - discriminate.
  - reflexivity.
  - reflexivity.
  - vm_compute. reflexivity.
  - vm_compute. reflexivity.
Defined.
